(** * odis2vcp: the ODIS to VCP dataset extractor

    A shallow embedding of [odis2vcp.py] (the parse-and-convert pipeline:
    [_parse_small_oe_file], [_extract_to_raw], [_convert_to_vcp], [_run])
    and the properties of its specification.

    Python values are modelled as follows.
    - A [str] is the list of its Unicode code points ([pystr]).
    - [bytes] is the list of the byte values.
    - The module globals [dataset_counter], [extracted_dataset_counter],
      the files written and the logging calls form the [world]; it is
      threaded through every function and survives a raised exception.
    - A raised exception ends the computation with [Raise e]; locals that
      are read before they were assigned raise [UnboundLocalError].
    - The parsed input is a minidom tree ([node]), or the exception
      [mdom.parse] raised.
    - The operating system is part of the [world]: it says for which
      paths [open] raises and for which contents the write raises. The
      files opened are recorded in order, with what they hold: bytes, the
      document handed to [writexml], or what an interrupted write left. *)

From Stdlib Require Import Ascii String.
From Stdlib Require Import List NArith ZArith Arith Bool Lia.
Import ListNotations.

Set Implicit Arguments.

(* ================================================================= *)
(** ** Python strings *)

Module PyStr.

Definition char := N.
Definition pystr := list char.

(** A string literal of the source. *)
Definition lit (s : string) : pystr :=
  map N_of_ascii (list_ascii_of_string s).
Arguments lit s : simpl never.

(** [a == b] on strings. *)
Fixpoint str_eqb (a b : pystr) : bool :=
  match a, b with
  | [], [] => true
  | x :: a', y :: b' => N.eqb x y && str_eqb a' b'
  | _, _ => false
  end.

(** [s.startswith(p)]. *)
Fixpoint starts_with (p s : pystr) : bool :=
  match p, s with
  | [], _ => true
  | x :: p', y :: s' => N.eqb x y && starts_with p' s'
  | _ :: _, [] => false
  end.

(** [str.replace] for a non-empty [old]: the string is scanned from the
    left; at an occurrence of [old] the text [new] is emitted and the
    scan resumes after the occurrence ([skip] counts the characters of
    the occurrence still to be passed over). *)
Fixpoint replace_from (old new : pystr) (skip : nat) (s : pystr) : pystr :=
  match s with
  | [] => []
  | c :: rest =>
      match skip with
      | S k => replace_from old new k rest
      | O =>
          if starts_with old s
          then new ++ replace_from old new (length old - 1) rest
          else c :: replace_from old new 0 rest
      end
  end.

(** [s.replace(old, new)]. *)
Definition str_replace (s old new : pystr) : pystr :=
  match old with
  | [] => new ++ flat_map (fun c => c :: new) s
  | _ :: _ => replace_from old new 0 s
  end.

(** [old in s]. *)
Fixpoint occurs (old s : pystr) : bool :=
  starts_with old s ||
  match s with
  | [] => false
  | _ :: rest => occurs old rest
  end.

End PyStr.
Import PyStr.

(* ================================================================= *)
(** ** Builtins and library functions used by the converters *)

Module PyLib.

Definition bytes := list N.

Inductive exn : Type :=
| UnboundLocalError (name : string)
| IndexError
| AttributeError
| UnicodeEncodeError
| ValueError
| BinasciiError (msg : string)
| ExpatError
| OSError.

(** [c.encode('utf-8')] for one code point; lone surrogates and numbers
    that are no code point cannot be encoded. *)
Definition encode_char (c : char) : option bytes :=
  if (c <? 128)%N then Some [c]
  else if (c <? 2048)%N then
    Some [N.lor 192 (N.shiftr c 6); N.lor 128 (N.land c 63)]
  else if (c <? 65536)%N then
    if ((55296 <=? c) && (c <=? 57343))%N then None
    else Some [N.lor 224 (N.shiftr c 12);
               N.lor 128 (N.land (N.shiftr c 6) 63);
               N.lor 128 (N.land c 63)]
  else if (c <? 1114112)%N then
    Some [N.lor 240 (N.shiftr c 18);
          N.lor 128 (N.land (N.shiftr c 12) 63);
          N.lor 128 (N.land (N.shiftr c 6) 63);
          N.lor 128 (N.land c 63)]
  else None.

(** [s.encode('utf-8')]. *)
Fixpoint encode_utf8 (s : pystr) : exn + bytes :=
  match s with
  | [] => inr []
  | c :: rest =>
      match encode_char c with
      | None => inl UnicodeEncodeError
      | Some bs =>
          match encode_utf8 rest with
          | inl e => inl e
          | inr bs' => inr (bs ++ bs')
          end
      end
  end.

(** The lowercase digit of a number below 16. *)
Definition hex_digit (d : N) : char :=
  if (d <? 10)%N then (48 + d)%N else (87 + d)%N.

Fixpoint hex_digits (fuel : nat) (n : N) (acc : pystr) : pystr :=
  match fuel with
  | O => acc
  | S f =>
      if (n <? 16)%N then hex_digit n :: acc
      else hex_digits f (n / 16)%N (hex_digit (n mod 16)%N :: acc)
  end.

(** [hex(n)] for [n >= 0]. *)
Definition hex (n : N) : pystr :=
  lit "0x" ++ hex_digits (S (N.to_nat n)) n [].

(** The value of a hexadecimal digit, upper or lower case. *)
Definition hex_val (c : char) : option N :=
  if ((48 <=? c) && (c <=? 57))%N then Some (c - 48)%N
  else if ((97 <=? c) && (c <=? 102))%N then Some (c - 87)%N
  else if ((65 <=? c) && (c <=? 70))%N then Some (c - 55)%N
  else None.

Fixpoint unhex_pairs (s : pystr) : option bytes :=
  match s with
  | [] => Some []
  | h :: l :: rest =>
      match hex_val h, hex_val l, unhex_pairs rest with
      | Some a, Some b, Some bs => Some ((16 * a + b)%N :: bs)
      | _, _, _ => None
      end
  | [_] => None
  end.

(** [binascii.unhexlify(s)] on a [str]. *)
Definition unhexlify (s : pystr) : exn + bytes :=
  if negb (forallb (fun c => (c <? 128)%N) s) then inl ValueError
  else if Nat.odd (length s) then inl (BinasciiError "Odd-length string")
  else match unhex_pairs s with
       | Some bs => inr bs
       | None => inl (BinasciiError "Non-hexadecimal digit found")
       end.

End PyLib.
Import PyLib.

(* ================================================================= *)
(** ** The part of [xml.dom.minidom] the program uses *)

Module Dom.

(** A node of a parsed document or of a document under construction.
    [Text], [CDATASection], [Comment] and [ProcessingInstruction] carry a
    [data] attribute; an [Element] does not. *)
#[local] Unset Elimination Schemes.
Inductive node : Type :=
| Element (tagName : pystr) (attributes : list (pystr * pystr))
          (children : list node)
| Text (data : pystr)
| CDATASection (data : pystr)
| Comment (data : pystr)
| ProcessingInstruction (target data : pystr).
#[local] Set Elimination Schemes.

(** [n.childNodes]: empty for every node that is not an element. *)
Definition childNodes (n : node) : list node :=
  match n with
  | Element _ _ cs => cs
  | _ => []
  end.

(** [n.data], where the node has that attribute. *)
Definition data_of (n : node) : option pystr :=
  match n with
  | Element _ _ _ => None
  | Text d | CDATASection d | Comment d => Some d
  | ProcessingInstruction _ d => Some d
  end.

(** The test of [_get_elements_by_tagName_helper]:
    [node.nodeType == ELEMENT_NODE and (name == "*" or node.tagName == name)]. *)
Definition tag_matches (name : pystr) (n : node) : bool :=
  match n with
  | Element t _ _ => str_eqb name (lit "*") || str_eqb t name
  | _ => false
  end.

(** [_get_elements_by_tagName_helper(parent, name, rc)]: every child is
    tested, then searched, in order. *)
Fixpoint elements_below (name : pystr) (parent : node) : list node :=
  match parent with
  | Element _ _ cs =>
      flat_map
        (fun c => (if tag_matches name c then [c] else [])
                    ++ elements_below name c) cs
  | _ => []
  end.

(** [parent.getElementsByTagName(name)]. *)
Definition getElementsByTagName (parent : node) (name : pystr) : list node :=
  elements_below name parent.

Fixpoint assoc (name : pystr) (attrs : list (pystr * pystr)) : option pystr :=
  match attrs with
  | [] => None
  | (k, v) :: rest => if str_eqb k name then Some v else assoc name rest
  end.

(** [el.hasAttribute(name)]. *)
Definition hasAttribute (el : node) (name : pystr) : bool :=
  match el with
  | Element _ attrs _ =>
      match assoc name attrs with Some _ => true | None => false end
  | _ => false
  end.

(** [el.getAttribute(name)]: the empty string when there is none. *)
Definition getAttribute (el : node) (name : pystr) : pystr :=
  match el with
  | Element _ attrs _ =>
      match assoc name attrs with Some v => v | None => [] end
  | _ => []
  end.

End Dom.
Import Dom.

(* ================================================================= *)
(** ** The program *)

Module Odis2Vcp.

(** The calls of [logging.info] and [logging.exception], one constructor
    per message of the source, with the arguments of the call. *)
Inductive log_record : Type :=
| InfoModule (diagnostic_address : pystr)
| InfoStartAddress (start_address : pystr)
| InfoZdcName (zdc_name : pystr)
| InfoZdcVersion (zdc_version : pystr)
| InfoLogin (login : pystr)
| InfoExtractingRaw (filename : pystr)
| InfoExtractingVcp (filename : pystr)
| InfoSummaryRaw (extracted total : nat) (fmt : pystr)
| InfoSummaryVcp (extracted total : nat)
| ExceptionFatalError (e : exn).

(** What a file holds: the bytes written to it (none when it has only
    been opened), the document passed to [writexml] with its three layout
    arguments, or what a write that raised has left of the content, which
    is not modelled. *)
Inductive artifact : Type :=
| BinaryFile (content : bytes)
| XmlFile (doc : node) (indent addindent newl : pystr)
| Unfinished.

(** The operating system as the program meets it. [open_error path] is the
    exception [open(path, "w")] or [open(path, "wb")] raises, if it raises
    (a directory that does not exist, a path that may not be written);
    [write_error path a] is the exception that writing the content [a] to
    the file opened under [path] raises, if it raises (a full disk; in
    text mode a character the encoding of the locale does not have). The
    answers are those of one file system and one locale: they do not change
    while the process runs. *)
Record filesystem : Type := mkFilesystem {
  open_error : pystr -> option exn;
  write_error : pystr -> artifact -> option exn
}.

(** The state that outlives a call: the two module globals, the files
    opened for writing (oldest first), the logging calls (oldest first),
    and the operating system the process runs on. *)
Record world : Type := mkWorld {
  dataset_counter : nat;
  extracted_dataset_counter : nat;
  files : list (pystr * artifact);
  log : list log_record;
  os : filesystem
}.

(** The module as loaded, lines 24 and 25, on the operating system [o]. *)
Definition module_loaded (o : filesystem) : world := mkWorld 0 0 [] [] o.

(** *** Computations that may raise *)

Inductive outcome (A : Type) : Type :=
| Return (a : A)
| Raise (e : exn).
Arguments Return {A} a.
Arguments Raise {A} e.

Definition M (A : Type) : Type := world -> outcome A * world.

Definition ret {A} (a : A) : M A := fun w => (Return a, w).

Definition raise {A} (e : exn) : M A := fun w => (Raise e, w).

Definition bind {A B} (c : M A) (k : A -> M B) : M B :=
  fun w =>
    match c w with
    | (Return a, w') => k a w'
    | (Raise e, w') => (Raise e, w')
    end.

Notation "x <- c ;; k" := (bind c (fun x => k))
  (at level 61, c at next level, right associativity).
Notation "c ;;; k" := (bind c (fun _ => k))
  (at level 61, right associativity).

Definition lift {A} (r : exn + A) : M A :=
  match r with
  | inl e => raise e
  | inr a => ret a
  end.

Definition logging (r : log_record) : M unit :=
  fun w => (Return tt,
            mkWorld (dataset_counter w) (extracted_dataset_counter w)
                    (files w) (log w ++ [r]) (os w)).

(** [open(filename, "w")] and [open(filename, "wb")]: the call raises what
    the operating system answers, or creates the file, empty. *)
Definition open_file (filename : pystr) : M unit :=
  fun w =>
    match open_error (os w) filename with
    | Some e => (Raise e, w)
    | None =>
        (Return tt,
         mkWorld (dataset_counter w) (extracted_dataset_counter w)
                 (files w ++ [(filename, BinaryFile [])]) (log w) (os w))
    end.

(** Writing the content [a] to the file opened last, which is
    [filename]: the file holds [a], or the write raises what the operating
    system answers and leaves the file unfinished. *)
Definition write_file (filename : pystr) (a : artifact) : M unit :=
  fun w =>
    match write_error (os w) filename a with
    | Some e =>
        (Raise e,
         mkWorld (dataset_counter w) (extracted_dataset_counter w)
                 (removelast (files w) ++ [(filename, Unfinished)])
                 (log w) (os w))
    | None =>
        (Return tt,
         mkWorld (dataset_counter w) (extracted_dataset_counter w)
                 (removelast (files w) ++ [(filename, a)]) (log w) (os w))
    end.

Definition incr_dataset_counter : M unit :=
  fun w => (Return tt,
            mkWorld (dataset_counter w + 1) (extracted_dataset_counter w)
                    (files w) (log w) (os w)).

Definition incr_extracted_dataset_counter : M unit :=
  fun w => (Return tt,
            mkWorld (dataset_counter w) (extracted_dataset_counter w + 1)
                    (files w) (log w) (os w)).

(** Reading a local variable that may not have been assigned yet. *)
Definition local (name : string) (v : option pystr) : M pystr :=
  match v with
  | Some s => ret s
  | None => raise (UnboundLocalError name)
  end.

(** *** [_extract_to_raw], lines 199 to 211.
    The record is counted and the file announced before the file is
    opened, and the file is opened before the payload is decoded: when
    [open] raises there is no file, when [unhexlify] raises an empty file
    is left behind. Lines 209 and 211, the write and the [close] that
    flushes it, are [write_file]. *)
Definition _extract_to_raw (dataset filename diagnostic_address : pystr)
  : M unit :=
  incr_extracted_dataset_counter ;;;
  let filename := diagnostic_address ++ lit " " ++ filename ++ lit ".bin" in
  logging (InfoExtractingRaw filename) ;;;
  open_file filename ;;;
  binary_data <- lift (unhexlify dataset) ;;
  write_file filename (BinaryFile binary_data).

Definition createElement (tag : string) (children : list node) : node :=
  Element (lit tag) [] children.

(** *** [_convert_to_vcp], lines 215 to 276.
    The record is counted first; the document is built, which raises when
    the payload cannot be encoded; the file is announced; line 276 then
    opens the file and has [writexml] write the document to it. *)
Definition _convert_to_vcp
  (dataset_data diagnostic_address start_address zdc_name zdc_version
     login filename : pystr) : M unit :=
  incr_extracted_dataset_counter ;;;
  let login_data := createElement "LOGIN" [Text login] in
  let dateiid := createElement "DATEIID" [Text zdc_name] in
  let version_inhalt := createElement "VERSION-INHALT" [Text zdc_version] in
  let ident := createElement "IDENT" [login_data; dateiid; version_inhalt] in
  let dataset_name := createElement "DATEN-NAME" [Text zdc_name] in
  let dataset_format :=
    createElement "DATEN-FORMAT-NAME" [Text (lit "DFN_HEX")] in
  let dataset_start := createElement "START-ADR" [Text start_address] in
  let dataset_raw := str_replace dataset_data (lit "0x") [] in
  let dataset_raw := str_replace dataset_raw (lit ",") [] in
  encoded <- lift (encode_utf8 dataset_raw) ;;
  let dataset_size_calc := N.of_nat (length encoded) in
  let dataset_size_calc := (dataset_size_calc / 2)%N in
  let dataset_size :=
    createElement "GROESSE-DEKOMPRIMIERT" [Text (hex dataset_size_calc)] in
  let data_data := createElement "DATEN" [Text dataset_data] in
  let dataset :=
    createElement "DATENBEREICH"
      [dataset_name; dataset_format; dataset_start; dataset_size; data_data] in
  let datasets := createElement "DATENBEREICHE" [dataset] in
  let root := createElement "SW-CNT" [ident; datasets] in
  let filename :=
    diagnostic_address ++ lit " VCP " ++ filename ++ lit ".xml" in
  logging (InfoExtractingVcp filename) ;;;
  open_file filename ;;;
  write_file filename (XmlFile root (lit "  ") (lit "  ") [10%N]).

(** *** [_parse_small_oe_file], lines 281 to 322. *)

(** The local variables of the function that the loop assigns; [None]
    is a variable not assigned yet. *)
Record locals : Type := mkLocals {
  diagnostic_address : option pystr;
  start_address : option pystr;
  zdc_name : option pystr;
  zdc_version : option pystr;
  login : option pystr;
  filename : option pystr
}.

Definition unassigned : locals := mkLocals None None None None None None.

Definition set_diagnostic_address (v : pystr) (l : locals) : locals :=
  mkLocals (Some v) (start_address l) (zdc_name l) (zdc_version l)
           (login l) (filename l).
Definition set_start_address (v : pystr) (l : locals) : locals :=
  mkLocals (diagnostic_address l) (Some v) (zdc_name l) (zdc_version l)
           (login l) (filename l).
Definition set_zdc_name (v : pystr) (l : locals) : locals :=
  mkLocals (diagnostic_address l) (start_address l) (Some v) (zdc_version l)
           (login l) (filename l).
Definition set_zdc_version (v : pystr) (l : locals) : locals :=
  mkLocals (diagnostic_address l) (start_address l) (zdc_name l) (Some v)
           (login l) (filename l).
Definition set_login (v : pystr) (l : locals) : locals :=
  mkLocals (diagnostic_address l) (start_address l) (zdc_name l)
           (zdc_version l) (Some v) (filename l).
Definition set_filename (v : pystr) (l : locals) : locals :=
  mkLocals (diagnostic_address l) (start_address l) (zdc_name l)
           (zdc_version l) (login l) (Some v).

(** [file_output_format == "raw"]; the format is [None] when the command
    line gave no [--fmt]. *)
Definition is_raw (file_output_format : option pystr) : bool :=
  match file_output_format with
  | Some f => str_eqb f (lit "raw")
  | None => false
  end.

(** Lines 290 to 311: the five attribute blocks of the loop body. *)
Definition read_attributes (file_prefix : pystr) (parameter_data : node)
  (l : locals) : M locals :=
  l <- (if hasAttribute parameter_data (lit "DIAGNOSTIC_ADDRESS") then
          let v := getAttribute parameter_data (lit "DIAGNOSTIC_ADDRESS") in
          let v := str_replace v (lit "0x00") [] in
          logging (InfoModule v) ;;; ret (set_diagnostic_address v l)
        else ret l) ;;
  l <- (if hasAttribute parameter_data (lit "START_ADDRESS") then
          let v := getAttribute parameter_data (lit "START_ADDRESS") in
          logging (InfoStartAddress v) ;;; ret (set_start_address v l)
        else ret l) ;;
  l <- (if hasAttribute parameter_data (lit "ZDC_NAME") then
          let v := getAttribute parameter_data (lit "ZDC_NAME") in
          logging (InfoZdcName v) ;;; ret (set_zdc_name v l)
        else ret l) ;;
  l <- (if hasAttribute parameter_data (lit "ZDC_VERSION") then
          let v := getAttribute parameter_data (lit "ZDC_VERSION") in
          logging (InfoZdcVersion v) ;;; ret (set_zdc_version v l)
        else ret l) ;;
  if hasAttribute parameter_data (lit "LOGIN") then
    let v := getAttribute parameter_data (lit "LOGIN") in
    let l := set_login v l in
    logging (InfoLogin v) ;;;
    sa <- local "start_address" (start_address l) ;;
    zn <- local "zdc_name" (zdc_name l) ;;
    ret (set_filename (sa ++ lit " " ++ zn ++ lit " - " ++ file_prefix) l)
  else ret l.

(** [parameter_data.childNodes[0].data], line 314. *)
Definition first_child_data (parameter_data : node) : M pystr :=
  match childNodes parameter_data with
  | [] => raise IndexError
  | c :: _ =>
      match data_of c with
      | Some d => ret d
      | None => raise AttributeError
      end
  end.

(** Lines 313 to 322: count the record, read its payload, convert it. *)
Definition convert_record (file_output_format : option pystr)
  (parameter_data : node) (l : locals) : M unit :=
  incr_dataset_counter ;;;
  dataset <- first_child_data parameter_data ;;
  if is_raw file_output_format then
    let dataset := str_replace dataset (lit "0x") [] in
    let dataset := str_replace dataset (lit ",") [] in
    fn <- local "filename" (filename l) ;;
    da <- local "diagnostic_address" (diagnostic_address l) ;;
    _extract_to_raw dataset fn da
  else
    da <- local "diagnostic_address" (diagnostic_address l) ;;
    sa <- local "start_address" (start_address l) ;;
    zn <- local "zdc_name" (zdc_name l) ;;
    zv <- local "zdc_version" (zdc_version l) ;;
    lg <- local "login" (login l) ;;
    fn <- local "filename" (filename l) ;;
    _convert_to_vcp dataset da sa zn zv lg fn.

(** One iteration of the loop of line 289. *)
Definition loop_body (file_output_format : option pystr)
  (file_prefix : pystr) (parameter_data : node) (l : locals) : M locals :=
  l <- read_attributes file_prefix parameter_data l ;;
  convert_record file_output_format parameter_data l ;;;
  ret l.

(** [for parameter_data in parameter_datas: ...]. *)
Fixpoint for_each (body : node -> locals -> M locals)
  (parameter_datas : list node) (l : locals) : M locals :=
  match parameter_datas with
  | [] => ret l
  | parameter_data :: rest =>
      l <- body parameter_data l ;;
      for_each body rest l
  end.

(** The input file as [mdom.parse] sees it: the exception it raises, or
    the document element of the parsed tree. *)
Definition parsed : Type := (exn + node)%type.

Definition _parse_small_oe_file (file_output_format : option pystr)
  (file_prefix : pystr) (input_file : parsed) : M unit :=
  collection <- lift input_file ;;
  let parameter_datas :=
    getElementsByTagName collection (lit "PARAMETER_DATA") in
  for_each (loop_body file_output_format file_prefix)
           parameter_datas unassigned ;;;
  ret tt.

(** *** [_run], lines 182 to 195: every exception is caught and logged;
    otherwise the summary is logged from the two globals. *)
Definition _run (file_output_format : option pystr) (description : pystr)
  (path : parsed) (w : world) : world :=
  match _parse_small_oe_file file_output_format description path w with
  | (Raise e, w') => snd (logging (ExceptionFatalError e) w')
  | (Return _, w') =>
      match file_output_format with
      | Some f =>
          if str_eqb f (lit "raw") then
            snd (logging (InfoSummaryRaw (extracted_dataset_counter w')
                                         (dataset_counter w') f) w')
          else
            snd (logging (InfoSummaryVcp (extracted_dataset_counter w')
                                         (dataset_counter w')) w')
      | None =>
          snd (logging (InfoSummaryVcp (extracted_dataset_counter w')
                                       (dataset_counter w')) w')
      end
  end.

End Odis2Vcp.
Import Odis2Vcp.

(* ================================================================= *)
(** ** The vocabulary of the specification *)

Module Spec.

(** [normalize]: the two [replace] calls of lines 256-257 and 318-319. *)
Definition normalize (payload : pystr) : pystr :=
  str_replace (str_replace payload (lit "0x") []) (lit ",") [].

(** The five metadata fields of a record. *)
Inductive field : Type :=
| DIAGNOSTIC_ADDRESS | START_ADDRESS | ZDC_NAME | ZDC_VERSION | LOGIN.

Definition attribute (f : field) : pystr :=
  match f with
  | DIAGNOSTIC_ADDRESS => lit "DIAGNOSTIC_ADDRESS"
  | START_ADDRESS => lit "START_ADDRESS"
  | ZDC_NAME => lit "ZDC_NAME"
  | ZDC_VERSION => lit "ZDC_VERSION"
  | LOGIN => lit "LOGIN"
  end.

(** The local variable that holds a field. *)
Definition local_of (f : field) (l : locals) : option pystr :=
  match f with
  | DIAGNOSTIC_ADDRESS => diagnostic_address l
  | START_ADDRESS => start_address l
  | ZDC_NAME => zdc_name l
  | ZDC_VERSION => zdc_version l
  | LOGIN => login l
  end.

(** What is stored for an attribute value: line 292 for the diagnostic
    address, the value itself for the other fields. *)
Definition stored (f : field) (v : pystr) : pystr :=
  match f with
  | DIAGNOSTIC_ADDRESS => str_replace v (lit "0x00") []
  | _ => v
  end.

Definition declares (f : field) (el : node) : bool :=
  hasAttribute el (attribute f).

(** The value of field [f] declared by the nearest element, going
    backwards from the end of [els], that carries the attribute. *)
Definition nearest (f : field) (els : list node) : option pystr :=
  match find (declares f) (rev els) with
  | Some el => Some (stored f (getAttribute el (attribute f)))
  | None => None
  end.

(** The elements up to and including the last one that satisfies [p]. *)
Fixpoint upto_last (p : node -> bool) (els : list node) : list node :=
  match els with
  | [] => []
  | el :: rest =>
      match upto_last p rest with
      | [] => if p el then [el] else []
      | r => el :: r
      end
  end.

(** The file name prefix in force after the elements [els]: composed at
    the last element that carries [LOGIN], from the start address and
    the name in force there. *)
Definition prefix_in_force (description : pystr) (els : list node)
  : option pystr :=
  let at_login := upto_last (declares LOGIN) els in
  match at_login, nearest START_ADDRESS at_login, nearest ZDC_NAME at_login with
  | _ :: _, Some sa, Some zn =>
      Some (sa ++ lit " " ++ zn ++ lit " - " ++ description)
  | _, _, _ => None
  end.

(** The file name prefix as the specification words it: the three parts
    joined with [" - "]. *)
Definition joined_prefix (startAddress zdcName description : pystr) : pystr :=
  startAddress ++ lit " - " ++ zdcName ++ lit " - " ++ description.

(** Stripping a prefix [pre] if present, as the specification words the
    normalization of the diagnostic address. *)
Definition strip_prefix (pre v : pystr) : pystr :=
  if starts_with pre v then skipn (length pre) v else v.

(** [removed old s r]: [r] is [s] without the occurrences of [old] found
    by a scan from the left that resumes after each occurrence. *)
Inductive removed (old : pystr) : pystr -> pystr -> Prop :=
| removed_nil : removed old [] []
| removed_here : forall s r,
    removed old s r -> removed old (old ++ s) r
| removed_keep : forall c s r,
    starts_with old (c :: s) = false ->
    removed old s r -> removed old (c :: s) (c :: r).

(** The text of the elements named [tag] of a document: the data of the
    first child of each, in document order. *)
Definition node_texts (doc : node) (tag : string) : list pystr :=
  flat_map
    (fun el => match childNodes el with
               | Text d :: _ => [d]
               | _ => []
               end)
    (getElementsByTagName doc (lit tag)).

(** The number written as ["0x"] and hexadecimal digits. *)
Definition digits_value (ds : pystr) : option N :=
  fold_left
    (fun acc c => match acc, hex_val c with
                  | Some a, Some d => Some (16 * a + d)%N
                  | _, _ => None
                  end)
    ds (Some 0%N).

Definition hex_value (t : pystr) : option N :=
  if starts_with (lit "0x") t then
    match skipn 2 t with
    | [] => None
    | ds => digits_value ds
    end
  else None.

Definition is_hex_digit (c : char) : bool :=
  match hex_val c with Some _ => true | None => false end.

(** A valid payload: its normalized form is a string of hexadecimal
    digits of even length. *)
Definition valid_payload (payload : pystr) : bool :=
  forallb is_hex_digit (normalize payload)
  && Nat.even (length (normalize payload)).

Definition is_ascii (c : char) : bool := (c <? 128)%N.

(** A code point that is a Unicode scalar value (no surrogate). *)
Definition is_scalar (c : char) : bool :=
  ((c <? 55296) || ((57343 <? c) && (c <? 1114112)))%N.

(** The number of bytes of a scalar value in UTF-8. *)
Definition utf8_width (c : char) : nat :=
  if (c <? 128)%N then 1
  else if (c <? 2048)%N then 2
  else if (c <? 65536)%N then 3
  else 4.

(** All nodes below [n], in document order. *)
Fixpoint descendants (n : node) : list node :=
  match n with
  | Element _ _ cs => flat_map (fun c => c :: descendants c) cs
  | _ => []
  end.

(** The record elements of a document as the specification counts them:
    the elements tagged [PARAMETER_DATA] anywhere in the document, the
    document element included, in document order. *)
Definition record_elements (root : node) : list node :=
  filter (tag_matches (lit "PARAMETER_DATA")) (root :: descendants root).

(** The elements tagged [PARAMETER_DATA] below the document element. *)
Definition records_below (root : node) : list node :=
  filter (tag_matches (lit "PARAMETER_DATA")) (descendants root).

Definition is_text (n : node) : bool :=
  match n with
  | Text _ | CDATASection _ => true
  | _ => false
  end.

(** An element with no text child. *)
Definition no_text_child (el : node) : bool :=
  negb (existsb is_text (childNodes el)).

(** The payload line 314 reads: the data of the first child. There is
    none when the child list is empty or starts with an element. *)
Definition payload_of (el : node) : option pystr :=
  match childNodes el with
  | [] => None
  | c :: _ => data_of c
  end.

Definition not_comma (c : char) : bool := negb (N.eqb 44 c).

(** A lowercase hexadecimal digit. *)
Definition is_lower_hex (c : char) : bool :=
  (((48 <=? c) && (c <=? 57)) || ((97 <=? c) && (c <=? 102)))%N.

(** The paths of the two kinds of artifact. *)
Definition raw_path (da fn : pystr) : pystr :=
  da ++ lit " " ++ fn ++ lit ".bin".

Definition vcp_path (da fn : pystr) : pystr :=
  da ++ lit " VCP " ++ fn ++ lit ".xml".

(** The operating system lets the program create the file [path] and
    write the content [a] to it. *)
Definition accepts (w : world) (path : pystr) (a : artifact) : Prop :=
  open_error (os w) path = None /\ write_error (os w) path a = None.

(** It lets the program create [path] and write to it, whatever the
    content. *)
Definition accepts_any (w : world) (path : pystr) : Prop :=
  forall a, accepts w path a.

(** The texts of a structured document. *)
Definition vcp_shape (doc : node) (lg zn zv sa size p : pystr) : Prop :=
  node_texts doc "LOGIN" = [lg]
  /\ node_texts doc "DATEIID" = [zn]
  /\ node_texts doc "VERSION-INHALT" = [zv]
  /\ node_texts doc "DATEN-NAME" = [zn]
  /\ node_texts doc "DATEN-FORMAT-NAME" = [lit "DFN_HEX"]
  /\ node_texts doc "START-ADR" = [sa]
  /\ node_texts doc "GROESSE-DEKOMPRIMIERT" = [size]
  /\ node_texts doc "DATEN" = [p].

Definition is_fatal (r : log_record) : bool :=
  match r with ExceptionFatalError _ => true | _ => false end.

(** The summary [_run] logs for the counter values [extracted] and
    [total]. *)
Definition summary (file_output_format : option pystr)
  (extracted total : nat) : log_record :=
  match file_output_format with
  | Some f =>
      if str_eqb f (lit "raw") then InfoSummaryRaw extracted total f
      else InfoSummaryVcp extracted total
  | None => InfoSummaryVcp extracted total
  end.

(** The element [el] is reached and converted, in a run over the record
    elements [pre ++ el :: _] that started in world [w0]: the loop
    returned for [pre], leaving the locals [l] and the world [w], and the
    iteration for [el] returned, leaving [l'] and [w']. *)
Definition converted (file_output_format : option pystr) (description : pystr)
  (w0 : world) (pre : list node) (el : node)
  (l : locals) (w : world) (l' : locals) (w' : world) : Prop :=
  for_each (loop_body file_output_format description) pre unassigned w0
    = (Return l, w)
  /\ loop_body file_output_format description el l w = (Return l', w').

End Spec.
Import Spec.

(* ================================================================= *)
(** ** Sample documents *)

Module Examples.

Definition parameter_data (attrs : list (pystr * pystr))
  (children : list node) : node :=
  Element (lit "PARAMETER_DATA") attrs children.

Definition document (children : list node) : node :=
  Element (lit "MESSAGE") [] children.

Definition all_five : list (pystr * pystr) :=
  [(lit "DIAGNOSTIC_ADDRESS", lit "0x0019");
   (lit "START_ADDRESS", lit "0x1");
   (lit "ZDC_NAME", lit "N");
   (lit "ZDC_VERSION", lit "V");
   (lit "LOGIN", lit "L")].

(** A record that declares the five attributes. *)
Definition first_record : node :=
  parameter_data all_five [Text (lit "0x0A,0xFF")].

(** A record that declares none. *)
Definition bare_record : node :=
  parameter_data [] [Text (lit "0xBE,0xEF")].

(** A record that declares a new start address only. *)
Definition moved_record : node :=
  parameter_data [(lit "START_ADDRESS", lit "0x2")] [Text (lit "0x01")].

(** A record whose only child is a comment. *)
Definition comment_record : node :=
  parameter_data all_five [Comment (lit "0A")].

(** A record without children. *)
Definition empty_record : node := parameter_data all_five [].

(** A record whose payload is two characters of two bytes each. *)
Definition accented_record : node :=
  parameter_data all_five [Text [233%N; 233%N]].

Definition description : pystr := lit "D".

(** An operating system that refuses nothing. *)
Definition permissive : filesystem :=
  mkFilesystem (fun _ => None) (fun _ _ => None).

(** One on which no directory exists below the working directory: a path
    with a ["/"] cannot be opened. *)
Definition no_directories : filesystem :=
  mkFilesystem
    (fun path => if existsb (N.eqb 47) path then Some OSError else None)
    (fun _ _ => None).

(** The freshly loaded module where nothing is refused. *)
Definition fresh : world := module_loaded permissive.

Definition raw : option pystr := Some (lit "raw").
Definition vcp : option pystr := Some (lit "vcp").

Definition locals_of (r : outcome locals * world) : locals :=
  match fst r with
  | Return l => l
  | Raise _ => unassigned
  end.

(** The loop over [els] in a freshly loaded module. *)
Definition looped (fmt : option pystr) (els : list node)
  : outcome locals * world :=
  for_each (loop_body fmt description) els unassigned fresh.

(** One more iteration, for [el], after the loop over [els]. *)
Definition then_body (fmt : option pystr) (els : list node) (el : node)
  : outcome locals * world :=
  loop_body fmt description el
            (locals_of (looped fmt els)) (snd (looped fmt els)).

(** The states the sample runs go through, evaluated. *)

Definition vcp_first : outcome locals * world :=
  Eval vm_compute in looped vcp [first_record].

Definition vcp_first_bare : outcome locals * world :=
  Eval vm_compute in then_body vcp [first_record] bare_record.

Definition vcp_start : outcome locals * world :=
  Eval vm_compute in looped vcp [].

Definition vcp_start_first : outcome locals * world :=
  Eval vm_compute in then_body vcp [] first_record.

Definition raw_first : outcome locals * world :=
  Eval vm_compute in looped raw [first_record].

Definition raw_moved : outcome locals * world :=
  Eval vm_compute in looped raw [first_record; moved_record].

Definition raw_moved_bare : outcome locals * world :=
  Eval vm_compute in
    then_body raw [first_record; moved_record] bare_record.

Definition first_attributes : outcome locals * world :=
  Eval vm_compute in
    read_attributes description first_record unassigned fresh.

Definition raw_two_parsed : outcome unit * world :=
  Eval vm_compute in
    _parse_small_oe_file raw description
      (inr (document [first_record; bare_record])) fresh.

Definition raw_one_run : world :=
  Eval vm_compute in
    _run raw description (inr (document [first_record])) fresh.

Definition vcp_one_run : world :=
  Eval vm_compute in
    _run vcp description (inr (document [first_record])) fresh.

Definition vcp_one_parsed_again : outcome unit * world :=
  Eval vm_compute in
    _parse_small_oe_file vcp description (inr (document [first_record]))
                         vcp_one_run.

Definition vcp_one_run_again : world :=
  Eval vm_compute in
    _run vcp description (inr (document [first_record])) vcp_one_run.

Definition vcp_comment_run : world :=
  Eval vm_compute in
    _run vcp description (inr (document [comment_record])) fresh.

Definition raw_three_run : world :=
  Eval vm_compute in
    _run raw description
      (inr (document [first_record; moved_record; bare_record])) fresh.

Definition vcp_three_run : world :=
  Eval vm_compute in
    _run vcp description
      (inr (document [first_record; moved_record; bare_record])) fresh.

Definition vcp_accented_run : world :=
  Eval vm_compute in
    _run vcp description (inr (document [accented_record])) fresh.

(** A document whose document element is itself tagged
    [PARAMETER_DATA]. *)
Definition vcp_root_record_run : world :=
  Eval vm_compute in _run vcp description (inr first_record) fresh.

End Examples.
Import Examples.

(* ================================================================= *)
(** ** The command line: [main], lines 29 to 48 *)

Module Cli.

(** What [parser.parse_args()] returns: the input (as [mdom.parse] will
    see it), the optional format, the description, and the two counted
    flags. *)
Record arguments : Type := mkArguments {
  input : parsed;
  fmt : option pystr;
  desc : pystr;
  verbose : nat;
  quiet : nat
}.

(** The numeric levels of the [logging] module. *)
Definition INFO : Z := 20.
Definition WARN : Z := 30.
Definition ERROR : Z := 40.

(** The level of a logging call: [logging.exception] logs at [ERROR],
    [logging.info] at [INFO]. *)
Definition levelno (r : log_record) : Z :=
  match r with
  | ExceptionFatalError _ => ERROR
  | _ => INFO
  end.

(** [Logger.isEnabledFor] on the root logger configured with [level]. *)
Definition isEnabledFor (level : Z) (r : log_record) : bool :=
  (level <=? levelno r)%Z.

(** [main] when arguments were given: the level is computed from the two
    flags, the root logger is configured with it and the run is made in
    the freshly loaded module, on the operating system [o]. The result is
    the final state and the records the handler writes to the stream. *)
Definition main (o : filesystem) (args : arguments)
  : world * list log_record :=
  let level := (WARN + (Z.of_nat (quiet args) - Z.of_nat (verbose args)) * 10)%Z in
  let w := _run (fmt args) (desc args) (input args) (module_loaded o) in
  (w, filter (isEnabledFor level) (log w)).

End Cli.

(* ================================================================= *)
(** ** The slot [_Model.run], lines 129 to 134 *)

Module Gui.

(** The private fields of [_Model] that [run] reads. *)
Record _Model : Type := mk_Model {
  __path : pystr;
  __description : pystr;
  __is_raw : bool
}.

(** [bool(s)] for a string. *)
Definition truthy (s : pystr) : bool :=
  match s with
  | [] => false
  | _ :: _ => true
  end.

(** The property [isValid], line 80. *)
Definition isValid (self : _Model) : bool :=
  truthy (__path self) && truthy (__description self).

(** The slot [run]; [parse] gives what [mdom.parse] yields for a path. *)
Definition run (parse : pystr -> parsed) (self : _Model) (w : world)
  : world :=
  if negb (isValid self) then w
  else _run (Some (if __is_raw self then lit "raw" else lit "vcp"))
            (__description self) (parse (__path self)) w.

End Gui.

(* ================================================================= *)
(** ** Vocabulary for the effects of a run *)

Module Effects.

(** The path a logging call announces. *)
Definition announced (r : log_record) : list pystr :=
  match r with
  | InfoExtractingRaw p | InfoExtractingVcp p => [p]
  | _ => []
  end.

Definition announced_paths (records : list log_record) : list pystr :=
  flat_map announced records.

(** The records that end a run: a summary or the fatal error. *)
Definition is_terminal (r : log_record) : bool :=
  match r with
  | InfoSummaryRaw _ _ _ | InfoSummaryVcp _ _ | ExceptionFatalError _ => true
  | _ => false
  end.

Definition progress (records : list log_record) : bool :=
  forallb (fun r => negb (is_terminal r)) records.

(** A payload in the form of the export: each byte as ["0x"] and two
    hexadecimal digits, the bytes separated by commas. *)
Fixpoint odis_payload (items : list (char * char)) : pystr :=
  match items with
  | [] => []
  | (h, l) :: rest =>
      lit "0x" ++ [h; l]
      ++ match rest with
         | [] => []
         | _ :: _ => lit "," ++ odis_payload rest
         end
  end.

Definition digit_pair (item : char * char) : bool :=
  is_hex_digit (fst item) && is_hex_digit (snd item).

Definition digit_value (c : char) : N :=
  match hex_val c with
  | Some d => d
  | None => 0
  end.

(** The byte two digits stand for. *)
Definition byte_of (item : char * char) : N :=
  (16 * digit_value (fst item) + digit_value (snd item))%N.

(** The document lines 219 to 269 build, for the size text [size]. *)
Definition vcp_document (login zdc_name zdc_version start_address size
                           dataset_data : pystr) : node :=
  createElement "SW-CNT"
    [createElement "IDENT"
       [createElement "LOGIN" [Text login];
        createElement "DATEIID" [Text zdc_name];
        createElement "VERSION-INHALT" [Text zdc_version]];
     createElement "DATENBEREICHE"
       [createElement "DATENBEREICH"
          [createElement "DATEN-NAME" [Text zdc_name];
           createElement "DATEN-FORMAT-NAME" [Text (lit "DFN_HEX")];
           createElement "START-ADR" [Text start_address];
           createElement "GROESSE-DEKOMPRIMIERT" [Text size];
           createElement "DATEN" [Text dataset_data]]]].

(** The file a structured conversion writes. *)
Definition vcp_file (login zdc_name zdc_version start_address size
                       dataset_data : pystr) : artifact :=
  XmlFile (vcp_document login zdc_name zdc_version start_address size
                        dataset_data)
          (lit "  ") (lit "  ") [10%N].

(** The world a converter leaves behind in [w]: the record counted as
    extracted, the logging call [r] made, the files [fs] added. *)
Definition extracted_with (w : world) (r : log_record)
  (fs : list (pystr * artifact)) : world :=
  mkWorld (dataset_counter w) (extracted_dataset_counter w + 1)
          (files w ++ fs) (log w ++ [r]) (os w).

(** The paths announced without a file being opened: none, or the one
    path for which [open] raised the exception that ended the
    computation. *)
Definition refusal {A : Type} (w : world) (o : outcome A)
  (refused : list pystr) : Prop :=
  refused = []
  \/ exists p e, refused = [p] /\ open_error (os w) p = Some e /\ o = Raise e.

(** A node that is not an element. *)
Definition is_leaf (n : node) : bool :=
  match n with
  | Element _ _ _ => false
  | _ => true
  end.

(** The record a run ends its log with: the summary computed from the
    counters the pipeline left, or the exception it raised. *)
Definition terminal_record (file_output_format : option pystr)
  (r : outcome unit * world) : log_record :=
  match r with
  | (Return _, w') =>
      summary file_output_format (extracted_dataset_counter w')
              (dataset_counter w')
  | (Raise e, _) => ExceptionFatalError e
  end.

End Effects.
Import Effects.

Unset Implicit Arguments.

(* ================================================================= *)
(** ** Facts about [str.replace] *)

Section Replace.

Variables old new : pystr.

Lemma starts_with_app (t : pystr) : starts_with old (old ++ t) = true.
Proof.
  induction old as [|a o IH]; simpl; [reflexivity|].
  now rewrite N.eqb_refl, IH.
Qed.

Lemma starts_with_split (s : pystr) :
  starts_with old s = true -> s = old ++ skipn (length old) s.
Proof.
  revert s; induction old as [|a o IH]; intros s H; simpl in *.
  - reflexivity.
  - destruct s as [|c r]; [discriminate|].
    apply andb_prop in H as [Hc Hr].
    apply N.eqb_eq in Hc; subst c.
    simpl. f_equal. now apply IH.
Qed.

Lemma replace_from_skip (k : nat) (s : pystr) :
  replace_from old new k s = replace_from old new 0 (skipn k s).
Proof.
  revert k; induction s as [|c r IH]; intros k.
  - now destruct k.
  - destruct k as [|k]; [reflexivity|].
    simpl replace_from at 1. now rewrite IH.
Qed.

Lemma replace_from_cons (c : char) (s : pystr) :
  replace_from old new 0 (c :: s) =
  if starts_with old (c :: s)
  then new ++ replace_from old new (length old - 1) s
  else c :: replace_from old new 0 s.
Proof. reflexivity. Qed.

Lemma replace_from_keep (c : char) (s : pystr) :
  starts_with old (c :: s) = false ->
  replace_from old new 0 (c :: s) = c :: replace_from old new 0 s.
Proof. intros H. now rewrite replace_from_cons, H. Qed.

Hypothesis old_nonempty : old <> [].

Lemma replace_from_here (t : pystr) :
  replace_from old new 0 (old ++ t) = new ++ replace_from old new 0 t.
Proof.
  pose proof (starts_with_app t) as Hs.
  assert (Hk : skipn (length old) (old ++ t) = t)
    by (rewrite skipn_app, skipn_all, Nat.sub_diag; reflexivity).
  assert (Hpos : length old = S (length old - 1))
    by (destruct old; [congruence | simpl; lia]).
  destruct (old ++ t) as [|c r] eqn:E.
  - apply app_eq_nil in E as [E _]. congruence.
  - rewrite replace_from_cons, Hs. f_equal.
    rewrite replace_from_skip. f_equal.
    rewrite Hpos in Hk. exact Hk.
Qed.

Lemma replace_from_unchanged (s : pystr) :
  occurs old s = false -> replace_from old new 0 s = s.
Proof.
  induction s as [|c r IH]; intros H; [reflexivity|].
  simpl in H. apply orb_false_elim in H as [H1 H2].
  rewrite replace_from_keep by exact H1.
  f_equal. now apply IH.
Qed.

End Replace.

Section Removal.

Variable old : pystr.
Hypothesis old_nonempty : old <> [].

Lemma length_old_pos : 0 < length old.
Proof. destruct old; [congruence | simpl; lia]. Qed.

(** Removing the occurrences never lengthens the string, and shortens it
    when there is an occurrence. *)
Lemma removal_length (n : nat) : forall s : pystr,
  length s <= n ->
  length (replace_from old [] 0 s) <= length s
  /\ (occurs old s = true -> length (replace_from old [] 0 s) < length s).
Proof.
  pose proof length_old_pos as Hpos.
  induction n as [|n IH]; intros s Hn.
  - destruct s; [|simpl in Hn; lia]. simpl. split; [lia|].
    destruct old; [congruence | discriminate].
  - destruct s as [|c r]; [simpl; split; [lia|]; destruct old; [congruence | discriminate]|].
    destruct (starts_with old (c :: r)) eqn:Hs.
    + pose proof (starts_with_split _ _ Hs) as Hsplit.
      set (t := skipn (length old) (c :: r)) in *.
      assert (Hlen : length (c :: r) = length old + length t)
        by (rewrite Hsplit at 1; apply length_app).
      rewrite Hsplit, (replace_from_here old [] old_nonempty). simpl app.
      rewrite length_app.
      destruct (IH t) as [Ht _]; [simpl in *; lia|].
      split; intros; lia.
    + rewrite replace_from_keep by exact Hs.
      destruct (IH r) as [Hr1 Hr2]; [simpl in Hn; lia|].
      simpl length. split; [lia|].
      intros Ho. simpl in Ho. unfold char in *. rewrite Hs in Ho. simpl in Ho.
      specialize (Hr2 Ho). lia.
Qed.

(** The scan of [str.replace] is the scan of [removed]. *)
Lemma replace_removed (n : nat) : forall s : pystr,
  length s <= n -> removed old s (replace_from old [] 0 s).
Proof.
  pose proof length_old_pos as Hpos.
  induction n as [|n IH]; intros s Hn.
  - destruct s; [constructor | simpl in Hn; lia].
  - destruct s as [|c r]; [constructor|].
    destruct (starts_with old (c :: r)) eqn:Hs.
    + pose proof (starts_with_split _ _ Hs) as Hsplit.
      set (t := skipn (length old) (c :: r)) in *.
      assert (Hlen : length (c :: r) = length old + length t)
        by (rewrite Hsplit at 1; apply length_app).
      rewrite Hsplit, (replace_from_here old [] old_nonempty). simpl app.
      apply removed_here. apply IH. simpl in *; lia.
    + rewrite replace_from_keep by exact Hs.
      apply removed_keep; [exact Hs|]. apply IH. simpl in Hn; lia.
Qed.

Lemma removed_replace (s r : pystr) :
  removed old s r -> r = replace_from old [] 0 s.
Proof.
  induction 1 as [|s r _ IH|c s r Hs _ IH].
  - reflexivity.
  - now rewrite (replace_from_here old [] old_nonempty).
  - rewrite replace_from_keep by exact Hs. now f_equal.
Qed.

End Removal.

(** Removing a one-character string is a filter. *)
Lemma replace_char_filter (c : char) (s : pystr) :
  replace_from [c] [] 0 s = filter (fun x => negb (N.eqb c x)) s.
Proof.
  induction s as [|x r IH]; [reflexivity|].
  simpl. rewrite andb_true_r.
  destruct (N.eqb c x); simpl; now rewrite IH.
Qed.

Lemma replace_from_forallb (P : char -> bool) (old : pystr) (s : pystr) :
  forall k, forallb P s = true -> forallb P (replace_from old [] k s) = true.
Proof.
  induction s as [|c r IH]; intros k H; [reflexivity|].
  simpl in H. apply andb_prop in H as [Hc Hr].
  simpl. destruct k.
  - destruct (starts_with old (c :: r)); simpl; [now apply IH|].
    rewrite Hc. now apply IH.
  - now apply IH.
Qed.

(* ================================================================= *)
(** ** Facts about [hex], [unhexlify] and [encode] *)

Ltac split_tests :=
  repeat match goal with
    | |- context [(?a <? ?b)%N] => destruct (N.ltb_spec a b)
    | |- context [(?a <=? ?b)%N] => destruct (N.leb_spec a b)
    | H : context [(?a <? ?b)%N] |- _ => destruct (N.ltb_spec a b)
    | H : context [(?a <=? ?b)%N] |- _ => destruct (N.leb_spec a b)
    end; cbn [andb orb negb] in *.

Lemma hex_val_hex_digit (d : N) :
  (d < 16)%N -> hex_val (hex_digit d) = Some d.
Proof.
  intros H. unfold hex_val, hex_digit.
  split_tests; try lia; f_equal; lia.
Qed.

Lemma hex_digit_lower (d : N) :
  (d < 16)%N -> is_lower_hex (hex_digit d) = true.
Proof.
  intros H. unfold is_lower_hex, hex_digit.
  split_tests; try reflexivity; lia.
Qed.

Lemma hex_digits_acc (fuel : nat) : forall n acc,
  hex_digits fuel n acc = hex_digits fuel n [] ++ acc.
Proof.
  induction fuel as [|f IH]; intros n acc; simpl; [reflexivity|].
  destruct (n <? 16)%N; [reflexivity|].
  rewrite (IH _ (_ :: acc)), (IH _ [_]), <- app_assoc. reflexivity.
Qed.

Lemma digits_value_snoc (ds : pystr) (c : char) :
  digits_value (ds ++ [c]) =
  match digits_value ds, hex_val c with
  | Some a, Some d => Some (16 * a + d)%N
  | _, _ => None
  end.
Proof. unfold digits_value. now rewrite fold_left_app. Qed.

Lemma hex_digits_spec (fuel : nat) : forall n,
  N.to_nat n < fuel ->
  hex_digits fuel n [] <> []
  /\ forallb is_lower_hex (hex_digits fuel n []) = true
  /\ digits_value (hex_digits fuel n []) = Some n.
Proof.
  induction fuel as [|f IH]; intros n Hn; [lia|].
  simpl. destruct (N.ltb_spec n 16) as [Hlt|Hge].
  - split; [discriminate|]. split.
    + simpl. now rewrite hex_digit_lower.
    + unfold digits_value. simpl. now rewrite hex_val_hex_digit.
  - assert (Hmod : (n mod 16 < 16)%N) by (apply N.mod_lt; lia).
    assert (Hdiv : (n / 16 < n)%N) by (apply N.div_lt; lia).
    destruct (IH (n / 16)%N) as (_ & Hl & Hv); [lia|].
    rewrite hex_digits_acc. split; [|split].
    + intros E. apply app_eq_nil in E as [_ E]. discriminate.
    + rewrite forallb_app, Hl. simpl. now rewrite hex_digit_lower.
    + rewrite digits_value_snoc, Hv, hex_val_hex_digit by exact Hmod.
      f_equal. rewrite (N.div_mod n 16) at 3 by lia. reflexivity.
Qed.

(** [hex n] is ["0x"] followed by the lowercase digits of [n]. *)
Lemma hex_spec (n : N) :
  exists ds, hex n = lit "0x" ++ ds /\ ds <> []
             /\ forallb is_lower_hex ds = true
             /\ digits_value ds = Some n.
Proof.
  unfold hex. eexists. split; [reflexivity|].
  apply hex_digits_spec. lia.
Qed.

Lemma hex_value_hex (n : N) : hex_value (hex n) = Some n.
Proof.
  destruct (hex_spec n) as (ds & E & Hne & _ & Hv).
  rewrite E. unfold hex_value.
  change (lit "0x" ++ ds) with (48%N :: 120%N :: ds).
  simpl. destruct ds; [congruence | exact Hv].
Qed.

Lemma hex_val_ascii (c : char) :
  is_hex_digit c = true -> is_ascii c = true.
Proof.
  unfold is_hex_digit, hex_val, is_ascii.
  split_tests; try discriminate; intros _; try reflexivity; lia.
Qed.

Lemma unhex_pairs_valid (n : nat) : forall s : pystr,
  length s <= n ->
  forallb is_hex_digit s = true -> Nat.even (length s) = true ->
  exists bs, unhex_pairs s = Some bs /\ 2 * length bs = length s.
Proof.
  induction n as [|n IH]; intros s Hn Hd He.
  - destruct s; [|simpl in Hn; lia]. exists []. now split.
  - destruct s as [|h [|l r]].
    + exists []. now split.
    + discriminate.
    + simpl in Hd.
      apply andb_prop in Hd as [Hh Hd]. apply andb_prop in Hd as [Hl Hr].
      change (Nat.even (length r) = true) in He.
      destruct (IH r) as (bs & Hbs & Hlen); [simpl in Hn; lia | assumption ..|].
      unfold is_hex_digit in Hh, Hl.
      simpl. destruct (hex_val h); [|discriminate].
      destruct (hex_val l); [|discriminate].
      rewrite Hbs. eexists. split; [reflexivity|]. simpl. lia.
Qed.

Lemma unhexlify_valid (s : pystr) :
  forallb is_hex_digit s = true -> Nat.even (length s) = true ->
  exists bs, unhexlify s = inr bs /\ 2 * length bs = length s.
Proof.
  intros Hd He.
  destruct (unhex_pairs_valid _ s (le_n _) Hd He) as (bs & Hbs & Hlen).
  exists bs. split; [|exact Hlen].
  unfold unhexlify.
  assert (Ha : forallb (fun c => (c <? 128)%N) s = true).
  { apply forallb_forall. intros c Hc.
    apply (hex_val_ascii c). rewrite forallb_forall in Hd. now apply Hd. }
  rewrite Ha. simpl.
  rewrite <- Nat.negb_even, He. simpl. now rewrite Hbs.
Qed.

Lemma encode_char_width (c : char) (bs : bytes) :
  encode_char c = Some bs -> length bs = utf8_width c.
Proof.
  unfold encode_char, utf8_width.
  destruct (c <? 128)%N; [intros [= <-]; reflexivity|].
  destruct (c <? 2048)%N; [intros [= <-]; reflexivity|].
  destruct (c <? 65536)%N.
  - destruct ((55296 <=? c)%N && (c <=? 57343)%N); [discriminate|].
    intros [= <-]; reflexivity.
  - destruct (c <? 1114112)%N; [intros [= <-]; reflexivity | discriminate].
Qed.

Lemma encode_char_scalar (c : char) :
  is_scalar c = true -> exists bs, encode_char c = Some bs.
Proof.
  unfold is_scalar, encode_char.
  split_tests; intros Hs; try discriminate; eauto; lia.
Qed.

(** The encoded length is the sum of the widths of the characters. *)
Lemma encode_utf8_length (s : pystr) : forall enc,
  encode_utf8 s = inr enc -> length enc = list_sum (map utf8_width s).
Proof.
  induction s as [|c r IH]; intros enc H; simpl in H.
  - now inversion H.
  - destruct (encode_char c) as [bs|] eqn:Ec; [|discriminate].
    destruct (encode_utf8 r) as [e|bs'] eqn:Er; [discriminate|].
    inversion H; subst enc. rewrite length_app. simpl.
    rewrite (encode_char_width c bs Ec), (IH bs' eq_refl). reflexivity.
Qed.

Lemma encode_utf8_scalar (s : pystr) :
  forallb is_scalar s = true -> exists enc, encode_utf8 s = inr enc.
Proof.
  induction s as [|c r IH]; intros H; simpl in *.
  - eauto.
  - apply andb_prop in H as [Hc Hr].
    destruct (encode_char_scalar c Hc) as [bs ->].
    destruct (IH Hr) as [enc ->]. eauto.
Qed.

Lemma utf8_width_ascii (s : pystr) :
  forallb is_ascii s = true -> list_sum (map utf8_width s) = length s.
Proof.
  induction s as [|c r IH]; intros H; simpl in *; [reflexivity|].
  apply andb_prop in H as [Hc Hr].
  unfold is_ascii in Hc. unfold utf8_width at 1. rewrite Hc.
  simpl. f_equal. now apply IH.
Qed.

Lemma ascii_scalar (c : char) : is_ascii c = true -> is_scalar c = true.
Proof.
  unfold is_ascii, is_scalar. split_tests; intros; try reflexivity; try discriminate; lia.
Qed.

(* ================================================================= *)
(** ** Facts about [normalize] *)

Lemma normalize_filter (p : pystr) :
  normalize p = filter not_comma (replace_from (lit "0x") [] 0 p).
Proof. unfold normalize. apply replace_char_filter. Qed.

Lemma normalize_no_comma (p : pystr) :
  forallb not_comma (normalize p) = true.
Proof.
  rewrite normalize_filter. apply forallb_forall.
  intros c Hc. now apply filter_In in Hc.
Qed.

Lemma filter_all (P : char -> bool) (s : pystr) :
  forallb P s = true -> filter P s = s.
Proof.
  induction s as [|c r IH]; simpl; intros H; [reflexivity|].
  apply andb_prop in H as [Hc Hr]. rewrite Hc. f_equal. now apply IH.
Qed.

Lemma filter_length_le (P : char -> bool) (s : pystr) :
  length (filter P s) <= length s.
Proof.
  induction s as [|c r IH]; simpl; [lia|].
  destruct (P c); simpl; lia.
Qed.

Lemma lit_0x_nonempty : lit "0x" <> [].
Proof. discriminate. Qed.

(** A second normalization changes nothing exactly when the normalized
    payload holds no ["0x"]. *)
Lemma normalize_twice (p : pystr) :
  normalize (normalize p) = normalize p
  <-> occurs (lit "0x") (normalize p) = false.
Proof.
  set (q := normalize p).
  assert (Hq : forallb not_comma q = true) by apply normalize_no_comma.
  rewrite (normalize_filter q). split.
  - intros E. destruct (occurs (lit "0x") q) eqn:Ho; [|reflexivity].
    exfalso.
    destruct (removal_length (lit "0x") lit_0x_nonempty _ q (le_n _))
      as [_ Hlt].
    specialize (Hlt Ho).
    pose proof (filter_length_le not_comma (replace_from (lit "0x") [] 0 q)).
    rewrite E in H. lia.
  - intros Ho. rewrite replace_from_unchanged by exact Ho.
    now apply filter_all.
Qed.

Lemma normalize_forallb (P : char -> bool) (p : pystr) :
  forallb P p = true -> forallb P (normalize p) = true.
Proof.
  intros H. rewrite normalize_filter. apply forallb_forall.
  intros c Hc. apply filter_In in Hc as [Hc _].
  pose proof (replace_from_forallb P (lit "0x") p 0 H) as Hr.
  rewrite forallb_forall in Hr. now apply Hr.
Qed.

Lemma hex_digits_no_0x (s : pystr) :
  forallb is_hex_digit s = true -> occurs (lit "0x") s = false.
Proof.
  change (lit "0x") with [48%N; 120%N].
  induction s as [|c r IH]; intros H; [reflexivity|].
  simpl in H. apply andb_prop in H as [Hc Hr].
  cbn [occurs]. rewrite (IH Hr), orb_false_r.
  cbn [starts_with].
  destruct r as [|d r']; [now rewrite andb_false_r|].
  simpl in Hr. apply andb_prop in Hr as [Hd _].
  destruct (N.eqb_spec 120 d) as [<-|]; [discriminate Hd|].
  now rewrite andb_false_r.
Qed.

(* ================================================================= *)
(** ** Facts about the document tree *)

Lemma node_induction (P : node -> Prop) :
  (forall t a cs, Forall P cs -> P (Element t a cs)) ->
  (forall d, P (Text d)) ->
  (forall d, P (CDATASection d)) ->
  (forall d, P (Comment d)) ->
  (forall t d, P (ProcessingInstruction t d)) ->
  forall n, P n.
Proof.
  intros HE HT HC HM HP.
  fix IH 1.
  intros [t a cs|d|d|d|t d];
    [|apply HT|apply HC|apply HM|apply HP].
  apply HE. induction cs as [|c r IHr]; constructor; [apply IH | exact IHr].
Qed.

(** [getElementsByTagName] selects, in document order, the matching
    elements below the node. *)
Lemma elements_in_document_order (name : pystr) (n : node) :
  getElementsByTagName n name = filter (tag_matches name) (descendants n).
Proof.
  unfold getElementsByTagName.
  induction n as [t a cs IH| | | |] using node_induction; try reflexivity.
  simpl. induction IH as [|c r Hc _ IHr]; [reflexivity|].
  simpl. rewrite filter_app, IHr, Hc.
  destruct (tag_matches name c); reflexivity.
Qed.

(* ================================================================= *)
(** ** Facts about the values in force *)

Lemma nearest_snoc (f : field) (els : list node) (el : node) :
  nearest f (els ++ [el]) =
  if declares f el then Some (stored f (getAttribute el (attribute f)))
  else nearest f els.
Proof.
  unfold nearest. rewrite rev_unit. simpl.
  now destruct (declares f el).
Qed.

Lemma nearest_nil (f : field) : nearest f [] = None.
Proof. reflexivity. Qed.

(** [nearest] names the last element of the list that declares the
    field. *)
Lemma nearest_Some (f : field) (els : list node) (v : pystr) :
  nearest f els = Some v ->
  exists before e after,
    els = before ++ e :: after
    /\ declares f e = true
    /\ forallb (fun x => negb (declares f x)) after = true
    /\ v = stored f (getAttribute e (attribute f)).
Proof.
  induction els as [|el els IH] using rev_ind; [discriminate|].
  rewrite nearest_snoc. destruct (declares f el) eqn:Hd.
  - intros [= <-]. exists els, el, []. now repeat split.
  - intros H. destruct (IH H) as (b & e & a & -> & He & Ha & Hv).
    exists b, e, (a ++ [el]). repeat split; auto.
    + now rewrite <- app_assoc.
    + rewrite forallb_app, Ha. simpl. now rewrite Hd.
Qed.

Lemma upto_last_snoc (p : node -> bool) (els : list node) (el : node) :
  upto_last p (els ++ [el]) = if p el then els ++ [el] else upto_last p els.
Proof.
  induction els as [|e r IH]; simpl.
  - now destruct (p el).
  - rewrite IH. destruct (p el); [|reflexivity].
    now destruct r.
Qed.

Lemma prefix_in_force_keep (desc : pystr) (els : list node) (el : node) :
  declares LOGIN el = false ->
  prefix_in_force desc (els ++ [el]) = prefix_in_force desc els.
Proof.
  intros H. unfold prefix_in_force. now rewrite upto_last_snoc, H.
Qed.

Lemma prefix_in_force_login (desc : pystr) (els : list node) (el : node) :
  declares LOGIN el = true ->
  prefix_in_force desc (els ++ [el]) =
  match nearest START_ADDRESS (els ++ [el]), nearest ZDC_NAME (els ++ [el]) with
  | Some sa, Some zn => Some (sa ++ lit " " ++ zn ++ lit " - " ++ desc)
  | _, _ => None
  end.
Proof.
  intros H. unfold prefix_in_force. rewrite upto_last_snoc, H.
  destruct (els ++ [el]) eqn:E; [now destruct els|].
  reflexivity.
Qed.

(* ================================================================= *)
(** ** Facts about the loop *)

Lemma for_each_app (body : node -> locals -> M locals)
  (a b : list node) : forall l w,
  for_each body (a ++ b) l w =
  match for_each body a l w with
  | (Return l1, w1) => for_each body b l1 w1
  | (Raise e, w1) => (Raise e, w1)
  end.
Proof.
  induction a as [|x a IH]; intros l w; [reflexivity|].
  simpl. unfold bind.
  destruct (body x l w) as [[l1|e] w1]; [apply IH | reflexivity].
Qed.

(** The attribute blocks touch the log only; a field declared by the
    element is assigned, any other keeps its value; the file name prefix is
    composed when the element declares [LOGIN]. *)
Lemma read_attributes_spec (desc : pystr) (el : node) (l : locals)
  (w : world) (o : outcome locals) (w' : world) :
  read_attributes desc el l w = (o, w') ->
  dataset_counter w' = dataset_counter w
  /\ extracted_dataset_counter w' = extracted_dataset_counter w
  /\ files w' = files w
  /\ forall l', o = Return l' ->
       (forall f, local_of f l' =
                  if declares f el
                  then Some (stored f (getAttribute el (attribute f)))
                  else local_of f l)
       /\ filename l' =
            if declares LOGIN el
            then match local_of START_ADDRESS l', local_of ZDC_NAME l' with
                 | Some sa, Some zn =>
                     Some (sa ++ lit " " ++ zn ++ lit " - " ++ desc)
                 | _, _ => None
                 end
            else filename l.
Proof.
  unfold read_attributes, declares, bind.
  destruct (hasAttribute el (lit "DIAGNOSTIC_ADDRESS")) eqn:H1;
  destruct (hasAttribute el (lit "START_ADDRESS")) eqn:H2;
  destruct (hasAttribute el (lit "ZDC_NAME")) eqn:H3;
  destruct (hasAttribute el (lit "ZDC_VERSION")) eqn:H4;
  destruct (hasAttribute el (lit "LOGIN")) eqn:H5;
  cbn -[app];
  try destruct (start_address l) eqn:Hsa; try destruct (zdc_name l) eqn:Hzn;
  cbn -[app];
  intros [= <- <-]; cbn -[app];
  (split; [reflexivity|split; [reflexivity|split; [reflexivity|]]]);
  intros l' [= <-];
  (split; [intros []; cbn -[app]; rewrite ?H1, ?H2, ?H3, ?H4, ?H5; try reflexivity; auto
          | cbn -[app]; rewrite ?H5, ?Hsa, ?Hzn; reflexivity]).
Qed.

Lemma read_attributes_os (desc : pystr) (el : node) (l : locals)
  (w : world) (o : outcome locals) (w' : world) :
  read_attributes desc el l w = (o, w') -> os w' = os w.
Proof.
  unfold read_attributes, bind.
  destruct (hasAttribute el (lit "DIAGNOSTIC_ADDRESS"));
  destruct (hasAttribute el (lit "START_ADDRESS"));
  destruct (hasAttribute el (lit "ZDC_NAME"));
  destruct (hasAttribute el (lit "ZDC_VERSION"));
  destruct (hasAttribute el (lit "LOGIN"));
  cbn -[app];
  try destruct (start_address l); try destruct (zdc_name l);
  cbn -[app];
  intros [= <- <-]; reflexivity.
Qed.

(* ================================================================= *)
(** ** Facts about the two converters *)

(** [_extract_to_raw], case by case: [open] raises; [unhexlify] raises;
    the write raises; the bytes are written. *)
Lemma extract_to_raw_spec (dataset fn da : pystr) (w : world) :
  _extract_to_raw dataset fn da w =
  match open_error (os w) (raw_path da fn) with
  | Some e =>
      (Raise e, extracted_with w (InfoExtractingRaw (raw_path da fn)) [])
  | None =>
      match unhexlify dataset with
      | inl e =>
          (Raise e,
           extracted_with w (InfoExtractingRaw (raw_path da fn))
                          [(raw_path da fn, BinaryFile [])])
      | inr bs =>
          match write_error (os w) (raw_path da fn) (BinaryFile bs) with
          | Some e =>
              (Raise e,
               extracted_with w (InfoExtractingRaw (raw_path da fn))
                              [(raw_path da fn, Unfinished)])
          | None =>
              (Return tt,
               extracted_with w (InfoExtractingRaw (raw_path da fn))
                              [(raw_path da fn, BinaryFile bs)])
          end
      end
  end.
Proof.
  unfold _extract_to_raw, bind, open_file, write_file, extracted_with,
    raw_path.
  cbn -[app unhexlify removelast].
  destruct (open_error (os w) _) as [e|]; cbn -[app unhexlify removelast].
  - now rewrite app_nil_r.
  - destruct (unhexlify dataset) as [e|bs]; cbn -[app removelast];
      [reflexivity|].
    destruct (write_error (os w) _ _) as [e|];
      cbn -[app removelast]; now rewrite removelast_last.
Qed.

(** The document built has the shape of the container. *)
Lemma vcp_document_shape (lg zn zv sa size p : pystr) :
  vcp_shape (vcp_document lg zn zv sa size p) lg zn zv sa size p.
Proof. repeat split. Qed.

(** [_convert_to_vcp], case by case: the payload cannot be encoded;
    [open] raises; [writexml] raises; the document is written. *)
Lemma convert_to_vcp_spec (p da sa zn zv lg fn : pystr) (w : world) :
  _convert_to_vcp p da sa zn zv lg fn w =
  match encode_utf8 (normalize p) with
  | inl e =>
      (Raise e,
       mkWorld (dataset_counter w) (extracted_dataset_counter w + 1)
               (files w) (log w) (os w))
  | inr enc =>
      match open_error (os w) (vcp_path da fn) with
      | Some e =>
          (Raise e, extracted_with w (InfoExtractingVcp (vcp_path da fn)) [])
      | None =>
          match write_error (os w) (vcp_path da fn)
                  (vcp_file lg zn zv sa (hex (N.of_nat (length enc) / 2)) p)
          with
          | Some e =>
              (Raise e,
               extracted_with w (InfoExtractingVcp (vcp_path da fn))
                              [(vcp_path da fn, Unfinished)])
          | None =>
              (Return tt,
               extracted_with w (InfoExtractingVcp (vcp_path da fn))
                 [(vcp_path da fn,
                   vcp_file lg zn zv sa (hex (N.of_nat (length enc) / 2)) p)])
          end
      end
  end.
Proof.
  unfold _convert_to_vcp, bind, normalize, open_file, write_file,
    extracted_with, vcp_path, vcp_file, vcp_document.
  cbn -[app encode_utf8 str_replace hex N.div removelast].
  destruct (encode_utf8 _) as [e|enc]; cbn -[app hex N.div removelast].
  - reflexivity.
  - destruct (open_error (os w) _) as [e|]; cbn -[app hex N.div removelast].
    + now rewrite app_nil_r.
    + destruct (write_error (os w) _ _) as [e|];
        cbn -[app hex N.div removelast]; now rewrite removelast_last.
Qed.

(** What one call of [convert_record] does. *)
Lemma convert_record_spec (fmt : option pystr) (el : node) (l : locals)
  (w : world) (o : outcome unit) (w' : world) :
  convert_record fmt el l w = (o, w') ->
  dataset_counter w' = dataset_counter w + 1
  /\ extracted_dataset_counter w <= extracted_dataset_counter w'
       <= extracted_dataset_counter w + 1
  /\ (payload_of el = None ->
      (o = Raise IndexError \/ o = Raise AttributeError)
      /\ extracted_dataset_counter w' = extracted_dataset_counter w
      /\ files w' = files w /\ log w' = log w)
  /\ (o = Return tt ->
      extracted_dataset_counter w' = extracted_dataset_counter w + 1
      /\ exists p da fn,
           payload_of el = Some p
           /\ diagnostic_address l = Some da /\ filename l = Some fn
           /\ if is_raw fmt then
                exists bs, unhexlify (normalize p) = inr bs
                  /\ files w' = files w ++ [(raw_path da fn, BinaryFile bs)]
              else
                exists sa zn zv lg enc doc,
                  start_address l = Some sa /\ zdc_name l = Some zn
                  /\ zdc_version l = Some zv /\ login l = Some lg
                  /\ encode_utf8 (normalize p) = inr enc
                  /\ files w' =
                       files w ++ [(vcp_path da fn,
                                    XmlFile doc (lit "  ") (lit "  ") [10%N])]
                  /\ vcp_shape doc lg zn zv sa
                               (hex (N.of_nat (length enc) / 2)) p).
Proof.
  unfold convert_record, first_child_data, payload_of, bind, local.
  cbn -[app _extract_to_raw _convert_to_vcp str_replace].
  destruct (childNodes el) as [|c cs].
  { intros [= <- <-]. cbn. repeat split; auto; try lia; discriminate. }
  destruct (data_of c) as [p|].
  2:{ intros [= <- <-]. cbn. repeat split; auto; try lia; discriminate. }
  cbn -[app _extract_to_raw _convert_to_vcp str_replace].
  destruct (is_raw fmt).
  - destruct (filename l) as [fn|];
      [|intros [= <- <-]; cbn; repeat split; try lia; discriminate].
    destruct (diagnostic_address l) as [da|];
      [|intros [= <- <-]; cbn; repeat split; try lia; discriminate].
    cbn -[app _extract_to_raw str_replace].
    rewrite extract_to_raw_spec.
    change (str_replace (str_replace p (lit "0x") []) (lit ",") [])
      with (normalize p).
    unfold extracted_with. cbn -[app normalize].
    destruct (open_error (os w) (raw_path da fn)) as [e|];
      [|destruct (unhexlify (normalize p)) as [e|bs] eqn:Hu;
        [|destruct (write_error (os w) (raw_path da fn) (BinaryFile bs))
            as [e|]]];
      intros [= <- <-]; cbn -[app]; repeat split; try lia; try discriminate.
    exists p, da, fn. repeat split. exists bs. now split.
  - destruct (diagnostic_address l) as [da|];
      [|intros [= <- <-]; cbn; repeat split; try lia; discriminate].
    destruct (start_address l) as [sa|];
      [|intros [= <- <-]; cbn; repeat split; try lia; discriminate].
    destruct (zdc_name l) as [zn|];
      [|intros [= <- <-]; cbn; repeat split; try lia; discriminate].
    destruct (zdc_version l) as [zv|];
      [|intros [= <- <-]; cbn; repeat split; try lia; discriminate].
    destruct (login l) as [lg|];
      [|intros [= <- <-]; cbn; repeat split; try lia; discriminate].
    destruct (filename l) as [fn|];
      [|intros [= <- <-]; cbn; repeat split; try lia; discriminate].
    cbn -[app _convert_to_vcp].
    rewrite convert_to_vcp_spec.
    unfold extracted_with. cbn -[app normalize hex N.div vcp_file].
    destruct (encode_utf8 (normalize p)) as [e|enc] eqn:Hu;
      [|destruct (open_error (os w) (vcp_path da fn)) as [e|];
        [|destruct (write_error (os w) (vcp_path da fn) _) as [e|]]];
      intros [= <- <-]; cbn -[app hex N.div vcp_file];
      repeat split; try lia; try discriminate.
    exists p, da, fn. repeat split.
    exists sa, zn, zv, lg, enc. eexists.
    repeat split; auto; apply vcp_document_shape.
Qed.

(** Nothing the program does changes the operating system. *)
Lemma convert_record_os (fmt : option pystr) (el : node) (l : locals)
  (w : world) (o : outcome unit) (w' : world) :
  convert_record fmt el l w = (o, w') -> os w' = os w.
Proof.
  unfold convert_record, first_child_data, bind, local.
  cbn -[app _extract_to_raw _convert_to_vcp str_replace].
  destruct (childNodes el) as [|c cs]; [now intros [= <- <-]|].
  destruct (data_of c) as [p|]; [|now intros [= <- <-]].
  cbn -[app _extract_to_raw _convert_to_vcp str_replace].
  destruct (is_raw fmt).
  - destruct (filename l) as [fn|]; [|now intros [= <- <-]].
    destruct (diagnostic_address l) as [da|]; [|now intros [= <- <-]].
    cbn -[app _extract_to_raw str_replace].
    rewrite extract_to_raw_spec. unfold extracted_with.
    cbn -[app str_replace unhexlify].
    destruct (open_error (os w) _) as [e|];
      [|destruct (unhexlify _) as [e|bs];
        [|destruct (write_error (os w) _ _) as [e|]]];
      now intros [= <- <-].
  - destruct (diagnostic_address l) as [da|]; [|now intros [= <- <-]].
    destruct (start_address l) as [sa|]; [|now intros [= <- <-]].
    destruct (zdc_name l) as [zn|]; [|now intros [= <- <-]].
    destruct (zdc_version l) as [zv|]; [|now intros [= <- <-]].
    destruct (login l) as [lg|]; [|now intros [= <- <-]].
    destruct (filename l) as [fn|]; [|now intros [= <- <-]].
    cbn -[app _convert_to_vcp].
    rewrite convert_to_vcp_spec. unfold extracted_with.
    cbn -[app normalize hex N.div vcp_file encode_utf8].
    destruct (encode_utf8 _) as [e|enc];
      [|destruct (open_error (os w) _) as [e|];
        [|destruct (write_error (os w) _ _) as [e|]]];
      now intros [= <- <-].
Qed.

Lemma loop_body_inv (fmt : option pystr) (desc : pystr) (el : node)
  (l : locals) (w : world) (o : outcome locals) (w' : world) :
  loop_body fmt desc el l w = (o, w') ->
  (exists l1 w1 o1,
     read_attributes desc el l w = (Return l1, w1)
     /\ convert_record fmt el l1 w1 = (o1, w')
     /\ o = match o1 with Return _ => Return l1 | Raise e => Raise e end)
  \/ (exists e, read_attributes desc el l w = (Raise e, w') /\ o = Raise e).
Proof.
  unfold loop_body, bind.
  destruct (read_attributes desc el l w) as [[l1|e] w1].
  - destruct (convert_record fmt el l1 w1) as [[[]|e] w2] eqn:Hc;
      intros [= <- <-]; left; exists l1, w1; eexists; repeat split; eauto.
  - intros [= <- <-]. right. eauto.
Qed.

Lemma loop_body_os (fmt : option pystr) (desc : pystr) (el : node)
  (l : locals) (w : world) (o : outcome locals) (w' : world) :
  loop_body fmt desc el l w = (o, w') -> os w' = os w.
Proof.
  intros H. apply loop_body_inv in H
    as [(l1 & w1 & o1 & Hr & Hc & _)|(e & Hr & _)].
  - apply read_attributes_os in Hr. apply convert_record_os in Hc.
    congruence.
  - now apply read_attributes_os in Hr.
Qed.

Lemma for_each_os (fmt : option pystr) (desc : pystr)
  (els : list node) : forall l w o w',
  for_each (loop_body fmt desc) els l w = (o, w') -> os w' = os w.
Proof.
  induction els as [|el els IH]; intros l w o w' H.
  - cbn in H. now injection H as <- <-.
  - cbn [for_each] in H. unfold bind in H.
    destruct (loop_body fmt desc el l w) as [[l1|e] w1] eqn:Hb.
    + apply loop_body_os in Hb. apply IH in H. congruence.
    + injection H as <- <-. now apply loop_body_os in Hb.
Qed.

(** One iteration: the counters. *)
Lemma loop_body_counters (fmt : option pystr) (desc : pystr) (el : node)
  (l : locals) (w : world) (o : outcome locals) (w' : world) :
  loop_body fmt desc el l w = (o, w') ->
  dataset_counter w <= dataset_counter w' <= dataset_counter w + 1
  /\ extracted_dataset_counter w' - extracted_dataset_counter w
     <= dataset_counter w' - dataset_counter w
  /\ extracted_dataset_counter w <= extracted_dataset_counter w'
  /\ (forall l', o = Return l' ->
        dataset_counter w' = dataset_counter w + 1
        /\ extracted_dataset_counter w' = extracted_dataset_counter w + 1).
Proof.
  intros H. apply loop_body_inv in H
    as [(l1 & w1 & o1 & Hr & Hc & ->)|(e & Hr & ->)].
  - apply read_attributes_spec in Hr as (Hd & He & _ & _).
    apply convert_record_spec in Hc as (Hd' & He' & _ & Hok).
    split; [lia|]. split; [lia|]. split; [lia|].
    intros l' Ho. destruct o1 as [[]|]; [|discriminate].
    destruct (Hok eq_refl) as [Hx _]. lia.
  - apply read_attributes_spec in Hr as (Hd & He & _ & _).
    split; [lia|]. split; [lia|]. split; [lia|]. discriminate.
Qed.

(** The loop: the counters. *)
Lemma for_each_counters (fmt : option pystr) (desc : pystr)
  (els : list node) : forall l w o w',
  for_each (loop_body fmt desc) els l w = (o, w') ->
  dataset_counter w <= dataset_counter w' <= dataset_counter w + length els
  /\ extracted_dataset_counter w' - extracted_dataset_counter w
     <= dataset_counter w' - dataset_counter w
  /\ extracted_dataset_counter w <= extracted_dataset_counter w'
  /\ (forall l', o = Return l' ->
        dataset_counter w' = dataset_counter w + length els
        /\ extracted_dataset_counter w' =
           extracted_dataset_counter w + length els).
Proof.
  induction els as [|el els IH]; intros l w o w' H.
  - cbn in H. injection H as <- <-. cbn.
    split; [lia|]. split; [lia|]. split; [lia|]. intros; lia.
  - cbn [for_each] in H. unfold bind in H.
    destruct (loop_body fmt desc el l w) as [[l1|e] w1] eqn:Hb.
    + apply loop_body_counters in Hb as (Hd & He & Hm & Hok).
      destruct (Hok l1 eq_refl) as [Hd1 He1].
      apply IH in H as (Hd' & He' & Hm' & Hok').
      cbn [length]. split; [lia|]. split; [lia|]. split; [lia|].
      intros l' Ho. destruct (Hok' l' Ho). lia.
    + injection H as <- <-.
      apply loop_body_counters in Hb as (Hd & He & Hm & _).
      cbn [length]. split; [lia|]. split; [lia|]. split; [lia|]. discriminate.
Qed.

(** The loop: the locals hold the values in force. *)
Lemma for_each_locals (fmt : option pystr) (desc : pystr)
  (els : list node) : forall w0 l w,
  for_each (loop_body fmt desc) els unassigned w0 = (Return l, w) ->
  (forall f, local_of f l = nearest f els)
  /\ filename l = prefix_in_force desc els.
Proof.
  induction els as [|el els IH] using rev_ind; intros w0 l w H.
  - cbn in H. injection H as <- <-. split; [intros []; reflexivity|reflexivity].
  - rewrite for_each_app in H.
    destruct (for_each (loop_body fmt desc) els unassigned w0)
      as [[l1|e] w1] eqn:Hpre; [|discriminate].
    destruct (IH _ _ _ Hpre) as [Hl1 Hf1].
    cbn [for_each] in H. unfold bind in H.
    destruct (loop_body fmt desc el l1 w1) as [[l2|e] w2] eqn:Hb;
      [|discriminate].
    cbn in H. injection H as <- <-.
    apply loop_body_inv in Hb
      as [(l3 & w3 & o1 & Hr & Hc & Ho)|(e & _ & Ho)]; [|discriminate].
    destruct o1; [|discriminate]. injection Ho as ->.
    apply read_attributes_spec in Hr as (_ & _ & _ & Hr).
    destruct (Hr l3 eq_refl) as [Hl Hf].
    assert (Hall : forall f, local_of f l3 = nearest f (els ++ [el])).
    { intros f. rewrite Hl, nearest_snoc, Hl1. reflexivity. }
    split; [exact Hall|].
    rewrite Hf. destruct (declares LOGIN el) eqn:Hlogin.
    + rewrite prefix_in_force_login by exact Hlogin.
      now rewrite !Hall.
    + rewrite prefix_in_force_keep by exact Hlogin. exact Hf1.
Qed.

(** The converter [convert_record] calls, mode by mode, once the payload
    and the locals can be read. *)
Lemma convert_record_raw_run (fmt : option pystr) (el : node) (l : locals)
  (w : world) (p fn da : pystr) :
  is_raw fmt = true -> payload_of el = Some p ->
  filename l = Some fn -> diagnostic_address l = Some da ->
  convert_record fmt el l w =
  _extract_to_raw (normalize p) fn da
    (mkWorld (dataset_counter w + 1) (extracted_dataset_counter w)
             (files w) (log w) (os w)).
Proof.
  intros Hraw Hp Hfn Hda.
  unfold convert_record, first_child_data, payload_of, bind, local in *.
  cbn -[app _extract_to_raw str_replace].
  destruct (childNodes el) as [|c cs]; [discriminate|].
  rewrite Hp, Hraw, Hfn, Hda. reflexivity.
Qed.

Lemma convert_record_vcp_run (fmt : option pystr) (el : node) (l : locals)
  (w : world) (p da sa zn zv lg fn : pystr) :
  is_raw fmt = false -> payload_of el = Some p ->
  diagnostic_address l = Some da -> start_address l = Some sa ->
  zdc_name l = Some zn -> zdc_version l = Some zv ->
  login l = Some lg -> filename l = Some fn ->
  convert_record fmt el l w =
  _convert_to_vcp p da sa zn zv lg fn
    (mkWorld (dataset_counter w + 1) (extracted_dataset_counter w)
             (files w) (log w) (os w)).
Proof.
  intros Hraw Hp Hda Hsa Hzn Hzv Hlg Hfn.
  unfold convert_record, first_child_data, payload_of, bind, local in *.
  cbn -[app _convert_to_vcp].
  destruct (childNodes el) as [|c cs]; [discriminate|].
  rewrite Hp, Hraw, Hda, Hsa, Hzn, Hzv, Hlg, Hfn. reflexivity.
Qed.

Lemma halved_floor (t : N) : (2 * (t / 2) <= t < 2 * (t / 2) + 2)%N.
Proof.
  pose proof (N.div_mod t 2 ltac:(discriminate)) as Hdm.
  pose proof (N.mod_lt t 2 ltac:(discriminate)) as Hlt.
  split.
  - rewrite Hdm at 2. apply N.le_add_r.
  - rewrite Hdm at 1. apply N.add_lt_mono_l. exact Hlt.
Qed.

(* ================================================================= *)
(** ** The run *)

Lemma parse_unfold (fmt : option pystr) (desc : pystr) (root : node)
  (w : world) :
  _parse_small_oe_file fmt desc (inr root) w =
  match for_each (loop_body fmt desc)
                 (getElementsByTagName root (lit "PARAMETER_DATA"))
                 unassigned w with
  | (Return _, w') => (Return tt, w')
  | (Raise e, w') => (Raise e, w')
  end.
Proof.
  unfold _parse_small_oe_file, bind, lift, ret.
  destruct (for_each _ _ _ _) as [[l|e] w']; reflexivity.
Qed.

Lemma run_returned (fmt : option pystr) (desc : pystr) (input : parsed)
  (w w' : world) (r : unit) :
  _parse_small_oe_file fmt desc input w = (Return r, w') ->
  _run fmt desc input w =
  mkWorld (dataset_counter w') (extracted_dataset_counter w')
          (files w')
          (log w' ++ [summary fmt (extracted_dataset_counter w')
                              (dataset_counter w')])
          (os w').
Proof.
  intros H. unfold _run, summary. rewrite H.
  destruct fmt as [f|]; [destruct (str_eqb f (lit "raw"))|]; reflexivity.
Qed.

Lemma run_raised (fmt : option pystr) (desc : pystr) (input : parsed)
  (w w' : world) (e : exn) :
  _parse_small_oe_file fmt desc input w = (Raise e, w') ->
  _run fmt desc input w =
  mkWorld (dataset_counter w') (extracted_dataset_counter w')
          (files w') (log w' ++ [ExceptionFatalError e]) (os w').
Proof. intros H. unfold _run. rewrite H. reflexivity. Qed.

Lemma parse_os (fmt : option pystr) (desc : pystr) (input : parsed)
  (w : world) (o : outcome unit) (w' : world) :
  _parse_small_oe_file fmt desc input w = (o, w') -> os w' = os w.
Proof.
  destruct input as [e|root].
  - cbn. now intros [= <- <-].
  - rewrite parse_unfold.
    destruct (for_each _ _ _ _) as [o1 w1] eqn:Hloop.
    apply for_each_os in Hloop.
    intros H. assert (w1 = w') as -> by (destruct o1; now injection H).
    exact Hloop.
Qed.

Lemma converted_whole (fmt : option pystr) (desc : pystr) (w0 : world)
  (pre : list node) (el : node) (l : locals) (w : world)
  (l' : locals) (w' : world) :
  converted fmt desc w0 pre el l w l' w' ->
  for_each (loop_body fmt desc) (pre ++ [el]) unassigned w0 = (Return l', w').
Proof.
  intros [Hpre Hel]. rewrite for_each_app, Hpre.
  cbn [for_each]. unfold bind. now rewrite Hel.
Qed.

(** What a converted element leaves behind. *)
Lemma converted_spec (fmt : option pystr) (desc : pystr) (w0 : world)
  (pre : list node) (el : node) (l : locals) (w : world)
  (l' : locals) (w' : world) :
  converted fmt desc w0 pre el l w l' w' ->
  (forall f, local_of f l' = nearest f (pre ++ [el]))
  /\ filename l' = prefix_in_force desc (pre ++ [el])
  /\ exists p da fn,
       payload_of el = Some p
       /\ diagnostic_address l' = Some da /\ filename l' = Some fn
       /\ if is_raw fmt then
            exists bs, unhexlify (normalize p) = inr bs
              /\ files w' = files w ++ [(raw_path da fn, BinaryFile bs)]
          else
            exists sa zn zv lg enc doc,
              start_address l' = Some sa /\ zdc_name l' = Some zn
              /\ zdc_version l' = Some zv /\ login l' = Some lg
              /\ encode_utf8 (normalize p) = inr enc
              /\ files w' =
                   files w ++ [(vcp_path da fn,
                                XmlFile doc (lit "  ") (lit "  ") [10%N])]
              /\ vcp_shape doc lg zn zv sa
                           (hex (N.of_nat (length enc) / 2)) p.
Proof.
  intros Hc. pose proof (converted_whole _ _ _ _ _ _ _ _ _ Hc) as Hall.
  apply for_each_locals in Hall as [Hl Hf].
  split; [exact Hl|]. split; [exact Hf|].
  destruct Hc as [_ Hel].
  apply loop_body_inv in Hel
    as [(l1 & w1 & o1 & Hr & Hcv & Ho)|(e & _ & Ho)]; [|discriminate].
  destruct o1 as [[]|]; [|discriminate]. injection Ho as ->.
  apply read_attributes_spec in Hr as (_ & _ & Hfiles & _).
  apply convert_record_spec in Hcv as (_ & _ & _ & Hok).
  destruct (Hok eq_refl) as (_ & p & da & fn & Hp & Hda & Hfn & Hrest).
  exists p, da, fn. rewrite <- Hfiles. repeat split; assumption.
Qed.

(* ================================================================= *)
(** ** The claims of the specification *)

(** C1, as stated, fails: the file name is composed only at an element
    that carries [LOGIN]. In a document of three records, of which the
    second declares the start address ["0x2"] without [LOGIN] and the third
    declares nothing, the third is converted in raw mode to a file whose
    name shows the start address ["0x1"] of the first record: the value of
    the nearest preceding record that declares one, ["0x2"], is nowhere in
    the output. In structured mode the files are named alike. *)
Lemma carry_over_misses_file_name :
  let els := [first_record; moved_record; bare_record] in
  getElementsByTagName (document els) (lit "PARAMETER_DATA") = els
  /\ declares START_ADDRESS bare_record = false
  /\ nearest START_ADDRESS [first_record; moved_record] = Some (lit "0x2")
  /\ _run raw description (inr (document els)) fresh = raw_three_run
  /\ files raw_three_run
     = [(lit "19 0x1 N - D.bin", BinaryFile [10%N; 255%N]);
        (lit "19 0x1 N - D.bin", BinaryFile [1%N]);
        (lit "19 0x1 N - D.bin", BinaryFile [190%N; 239%N])]
  /\ occurs (lit "0x2") (lit "19 0x1 N - D.bin") = false
  /\ lit "19 0x1 N - D.bin" <> raw_path (lit "19") (lit "0x2 N - D")
  /\ _run vcp description (inr (document els)) fresh = vcp_three_run
  /\ map fst (files vcp_three_run)
     = [lit "19 VCP 0x1 N - D.xml"; lit "19 VCP 0x1 N - D.xml";
        lit "19 VCP 0x1 N - D.xml"].
Proof. repeat split. discriminate. Qed.

(** C1, amended. When an element is converted, every field the element
    does not declare has kept its value, which is the value declared by
    the nearest preceding record element that declares it. The path starts
    with the diagnostic address in force, and in structured mode the
    document shows the values in force in [LOGIN], [DATEIID],
    [VERSION-INHALT], [DATEN-NAME] and [START-ADR]. The file name prefix,
    however, is the one composed at the nearest element, up to the
    converted one, that carries [LOGIN]: it shows the start address and
    the name in force at the converted element when that element carries
    [LOGIN], and is the prefix of the element before otherwise. A second
    record without [START_ADDRESS] is converted with the start address of
    the first record, in the document and in the file name. *)
Theorem attribute_carry_over (fmt : option pystr) (desc : pystr)
  (w0 : world) (pre : list node) (el : node) (l : locals) (w : world)
  (l' : locals) (w' : world) :
  converted fmt desc w0 pre el l w l' w' ->
  (forall f, declares f el = false ->
     local_of f l' = local_of f l /\ local_of f l' = nearest f pre)
  /\ (exists da fn a,
        nearest DIAGNOSTIC_ADDRESS (pre ++ [el]) = Some da
        /\ prefix_in_force desc (pre ++ [el]) = Some fn
        /\ files w' =
             files w ++ [((if is_raw fmt then raw_path da else vcp_path da) fn,
                          a)]
        /\ (declares LOGIN el = true ->
            exists sa zn,
              nearest START_ADDRESS (pre ++ [el]) = Some sa
              /\ nearest ZDC_NAME (pre ++ [el]) = Some zn
              /\ fn = sa ++ lit " " ++ zn ++ lit " - " ++ desc)
        /\ (declares LOGIN el = false -> prefix_in_force desc pre = Some fn)
        /\ (is_raw fmt = true ->
            exists p bs,
              payload_of el = Some p /\ unhexlify (normalize p) = inr bs
              /\ a = BinaryFile bs)
        /\ (is_raw fmt = false ->
            exists (v : field -> pystr) doc size p,
              (forall f, nearest f (pre ++ [el]) = Some (v f))
              /\ (forall f, declares f el = false ->
                            nearest f pre = Some (v f))
              /\ a = XmlFile doc (lit "  ") (lit "  ") [10%N]
              /\ vcp_shape doc (v LOGIN) (v ZDC_NAME) (v ZDC_VERSION)
                           (v START_ADDRESS) size p))
  /\ (forall first,
        pre = [first] -> declares START_ADDRESS el = false ->
        let sa := getAttribute first (lit "START_ADDRESS") in
        declares START_ADDRESS first = true
        /\ start_address l' = Some sa
        /\ exists da zn a,
             files w' =
               files w ++
               [((if is_raw fmt then raw_path da else vcp_path da)
                   (sa ++ lit " " ++ zn ++ lit " - " ++ desc), a)]
             /\ (is_raw fmt = false ->
                 exists doc i ai n,
                   a = XmlFile doc i ai n
                   /\ node_texts doc "START-ADR" = [sa])).
Proof.
  intros Hc.
  destruct (converted_spec _ _ _ _ _ _ _ _ _ Hc)
    as (Hl & Hf & p & da & fn & Hp & Hda & Hfn & Hmode).
  assert (Hpre : forall f, local_of f l = nearest f pre).
  { destruct Hc as [Hpre _]. now apply for_each_locals in Hpre. }
  assert (Hkeep : forall f, declares f el = false ->
                            nearest f (pre ++ [el]) = nearest f pre).
  { intros f Hd. now rewrite nearest_snoc, Hd. }
  split; [|split].
  - intros f Hd. rewrite Hl, Hpre, Hkeep by exact Hd. now split.
  - assert (Hfiles : exists a,
              files w' =
                files w
                ++ [((if is_raw fmt then raw_path da else vcp_path da) fn, a)]
              /\ (is_raw fmt = true ->
                  exists p bs,
                    payload_of el = Some p /\ unhexlify (normalize p) = inr bs
                    /\ a = BinaryFile bs)
              /\ (is_raw fmt = false ->
                  exists (v : field -> pystr) doc size p,
                    (forall f, nearest f (pre ++ [el]) = Some (v f))
                    /\ (forall f, declares f el = false ->
                                  nearest f pre = Some (v f))
                    /\ a = XmlFile doc (lit "  ") (lit "  ") [10%N]
                    /\ vcp_shape doc (v LOGIN) (v ZDC_NAME) (v ZDC_VERSION)
                                 (v START_ADDRESS) size p)).
    { destruct (is_raw fmt).
      - destruct Hmode as (bs & Hbs & Hfiles). exists (BinaryFile bs).
        split; [exact Hfiles|]. split; [|discriminate].
        intros _. exists p, bs. now repeat split.
      - destruct Hmode as (sa & zn & zv & lg & enc & doc & Hsa & Hzn & Hzv
                           & Hlg & _ & Hfiles & Hshape).
        eexists. split; [exact Hfiles|]. split; [discriminate|].
        intros _.
        exists (fun f => match f with
                         | DIAGNOSTIC_ADDRESS => da | START_ADDRESS => sa
                         | ZDC_NAME => zn | ZDC_VERSION => zv | LOGIN => lg
                         end), doc, (hex (N.of_nat (length enc) / 2)), p.
        assert (Hv : forall f, local_of f l' = Some
                  (match f with
                   | DIAGNOSTIC_ADDRESS => da | START_ADDRESS => sa
                   | ZDC_NAME => zn | ZDC_VERSION => zv | LOGIN => lg
                   end)) by (intros []; assumption).
        split; [intros f; now rewrite <- Hl|].
        split; [|split; [reflexivity | exact Hshape]].
        intros f Hd. now rewrite <- Hkeep, <- Hl by exact Hd. }
    destruct Hfiles as (a & Hfiles & Hrawa & Hvcpa).
    exists da, fn, a.
    split; [now rewrite <- (Hl DIAGNOSTIC_ADDRESS)|].
    split; [now rewrite <- Hf|].
    split; [exact Hfiles|].
    split; [|split; [|split; assumption]].
    + intros Hlogin. rewrite Hf in Hfn.
      rewrite prefix_in_force_login in Hfn by exact Hlogin.
      destruct (nearest START_ADDRESS (pre ++ [el])) as [sa|]; [|discriminate].
      destruct (nearest ZDC_NAME (pre ++ [el])) as [zn|]; [|discriminate].
      injection Hfn as <-. exists sa, zn. now repeat split.
    + intros Hlogin. rewrite <- Hfn, Hf.
      symmetry. now apply prefix_in_force_keep.
  - intros first -> Hd sa.
    pose proof (Hl START_ADDRESS) as Hsa. cbn [local_of] in Hsa.
    rewrite Hkeep in Hsa by exact Hd.
    (* the first record declared a start address, else no file name *)
    assert (Hfirst : declares START_ADDRESS first = true
                     /\ exists zn, fn = sa ++ lit " " ++ zn ++ lit " - " ++ desc).
    { rewrite Hf in Hfn. unfold prefix_in_force in Hfn.
      change ([first] ++ [el]) with [first; el] in Hfn.
      unfold nearest in Hfn. cbn [upto_last] in Hfn.
      destruct (declares LOGIN el) eqn:Hlogin;
        [|destruct (declares LOGIN first) eqn:Hlogin1; [|discriminate]];
        cbn [rev app find] in Hfn; unfold sa;
        change (lit "START_ADDRESS") with (attribute START_ADDRESS);
        rewrite ?Hd in Hfn;
        destruct (declares START_ADDRESS first); try discriminate;
        cbn [stored] in Hfn;
        destruct (declares ZDC_NAME el); try destruct (declares ZDC_NAME first);
        try discriminate; injection Hfn as <-;
        (split; [reflexivity | eexists; reflexivity]). }
    destruct Hfirst as [Hdecl [zn ->]].
    split; [exact Hdecl|].
    assert (Hsa' : start_address l' = Some sa).
    { rewrite Hsa. unfold nearest. cbn [rev app find]. now rewrite Hdecl. }
    split; [exact Hsa'|].
    destruct (is_raw fmt).
    + destruct Hmode as (bs & _ & Hfiles). exists da, zn. eexists.
      split; [exact Hfiles | discriminate].
    + destruct Hmode as (sa2 & zn2 & zv & lg & enc & doc & Hsa2 & _ & _ & _
                         & _ & Hfiles & Hshape).
      exists da, zn. eexists. split; [exact Hfiles|].
      intros _. do 4 eexists. split; [reflexivity|].
      assert (sa2 = sa) as -> by congruence.
      apply Hshape.
Qed.

(** A second record that declares nothing has the start address of the
    first; a third record after one that moved the start address without
    [LOGIN] has the new start address in its locals and the old one in its
    file name. *)
Lemma attribute_carry_over_witness :
  start_address (locals_of vcp_first_bare) = Some (lit "0x1")
  /\ start_address (locals_of raw_moved_bare) = Some (lit "0x2")
  /\ exists a,
       files (snd raw_moved_bare)
       = files (snd raw_moved) ++ [(lit "19 0x1 N - D.bin", a)].
Proof.
  split; [|split].
  - destruct (attribute_carry_over vcp description fresh
                [first_record] bare_record
                (locals_of vcp_first) (snd vcp_first)
                (locals_of vcp_first_bare) (snd vcp_first_bare)
                (conj eq_refl eq_refl)) as (_ & _ & H).
    destruct (H first_record eq_refl eq_refl) as (_ & Hs & _).
    exact Hs.
  - destruct (attribute_carry_over raw description fresh
                [first_record; moved_record] bare_record
                (locals_of raw_moved) (snd raw_moved)
                (locals_of raw_moved_bare) (snd raw_moved_bare)
                (conj eq_refl eq_refl)) as (H & _).
    exact (proj2 (H START_ADDRESS eq_refl)).
  - destruct (attribute_carry_over raw description fresh
                [first_record; moved_record] bare_record
                (locals_of raw_moved) (snd raw_moved)
                (locals_of raw_moved_bare) (snd raw_moved_bare)
                (conj eq_refl eq_refl))
      as (_ & (da & fn & a & Hda & Hfn & Hfiles & _) & _).
    exists a. injection Hda as <-. injection Hfn as <-. exact Hfiles.
Defined.

(** C2, as stated, fails: the counters are not reset between runs. A
    second run over a document with one record reports two of two. *)
Lemma counters_shared_across_runs :
  length (getElementsByTagName (document [first_record])
                               (lit "PARAMETER_DATA")) = 1
  /\ _run vcp description (inr (document [first_record])) fresh
     = vcp_one_run
  /\ last (log vcp_one_run) (InfoSummaryVcp 0 0) = InfoSummaryVcp 1 1
  /\ _run vcp description (inr (document [first_record])) vcp_one_run
     = vcp_one_run_again
  /\ last (log vcp_one_run_again) (InfoSummaryVcp 0 0) = InfoSummaryVcp 2 2.
Proof. repeat split. Qed.

(** C2, amended. The counters are module globals, zero when the module
    is loaded and never reset: a run that returns adds the number of
    record elements of its document to both, and its summary reports the
    totals reached, which are the numbers of that document alone only
    when both counters were zero before the run. *)
Theorem counters_accumulate (fmt : option pystr) (desc : pystr)
  (root : node) (w w' : world) (r : unit) :
  _parse_small_oe_file fmt desc (inr root) w = (Return r, w') ->
  let n := length (getElementsByTagName root (lit "PARAMETER_DATA")) in
  (forall o, dataset_counter (module_loaded o) = 0)
  /\ (forall o, extracted_dataset_counter (module_loaded o) = 0)
  /\ dataset_counter w' = dataset_counter w + n
  /\ extracted_dataset_counter w' = extracted_dataset_counter w + n
  /\ dataset_counter (_run fmt desc (inr root) w) = dataset_counter w + n
  /\ extracted_dataset_counter (_run fmt desc (inr root) w)
     = extracted_dataset_counter w + n
  /\ log (_run fmt desc (inr root) w)
     = log w' ++ [summary fmt (extracted_dataset_counter w + n)
                          (dataset_counter w + n)].
Proof.
  intros H n.
  pose proof (run_returned _ _ _ _ _ _ H) as Hrun.
  rewrite parse_unfold in H.
  destruct (for_each _ _ _ _) as [[l1|e] w1] eqn:Hloop; [|discriminate].
  injection H as _ <-.
  apply for_each_counters in Hloop as (_ & _ & _ & Hok).
  destruct (Hok l1 eq_refl) as [Hd He]. fold n in Hd, He.
  rewrite Hrun. cbn [dataset_counter extracted_dataset_counter log].
  rewrite Hd, He. repeat split.
Qed.

Lemma counters_accumulate_witness :
  log (_run vcp description (inr (document [first_record])) vcp_one_run)
  = log (snd vcp_one_parsed_again) ++ [summary vcp 2 2].
Proof.
  exact (proj2 (proj2 (proj2 (proj2 (proj2 (proj2
    (counters_accumulate vcp description (document [first_record])
       vcp_one_run (snd vcp_one_parsed_again) tt eq_refl))))))).
Defined.

(** C3, as stated, fails: the start address and the name are joined by
    one space, not by [" - "]. *)
Lemma path_not_joined_by_dashes :
  _run raw description (inr (document [first_record])) fresh
  = raw_one_run
  /\ files raw_one_run = [(lit "19 0x1 N - D.bin", BinaryFile [10%N; 255%N])]
  /\ _run vcp description (inr (document [first_record])) fresh
     = vcp_one_run
  /\ map fst (files vcp_one_run) = [lit "19 VCP 0x1 N - D.xml"]
  /\ lit "19 0x1 N - D.bin"
     <> raw_path (lit "19") (joined_prefix (lit "0x1") (lit "N") description)
  /\ lit "19 VCP 0x1 N - D.xml"
     <> vcp_path (lit "19") (joined_prefix (lit "0x1") (lit "N") description).
Proof. repeat split; discriminate. Qed.

(** C3, amended. The path of a converted record is
    [<diagnosticAddress> <prefix>.bin] in raw mode and
    [<diagnosticAddress> VCP <prefix>.xml] in structured mode, where the
    prefix is [<startAddress> <zdcName> - <description>]: one space between
    start address and name, [" - "] before the description; the start
    address and the name are those in force at the last element, up to the
    converted one, that carries [LOGIN], and the diagnostic address is the
    one in force at the converted element. *)
Theorem artifact_path (fmt : option pystr) (desc : pystr)
  (w0 : world) (pre : list node) (el : node) (l : locals) (w : world)
  (l' : locals) (w' : world) :
  converted fmt desc w0 pre el l w l' w' ->
  exists da sa zn a,
    nearest DIAGNOSTIC_ADDRESS (pre ++ [el]) = Some da
    /\ nearest START_ADDRESS (upto_last (declares LOGIN) (pre ++ [el]))
       = Some sa
    /\ nearest ZDC_NAME (upto_last (declares LOGIN) (pre ++ [el])) = Some zn
    /\ files w' =
         files w ++
         [(if is_raw fmt
           then da ++ lit " "
                   ++ (sa ++ lit " " ++ zn ++ lit " - " ++ desc) ++ lit ".bin"
           else da ++ lit " VCP "
                   ++ (sa ++ lit " " ++ zn ++ lit " - " ++ desc) ++ lit ".xml",
           a)].
Proof.
  intros Hc.
  destruct (converted_spec _ _ _ _ _ _ _ _ _ Hc)
    as (Hl & Hf & p & da & fn & Hp & Hda & Hfn & Hmode).
  rewrite Hf in Hfn. unfold prefix_in_force in Hfn.
  destruct (upto_last (declares LOGIN) (pre ++ [el])) as [|x xs] eqn:Hu;
    [discriminate|].
  destruct (nearest START_ADDRESS (x :: xs)) as [sa|]; [|discriminate].
  destruct (nearest ZDC_NAME (x :: xs)) as [zn|]; [|discriminate].
  injection Hfn as <-.
  exists da, sa, zn.
  rewrite <- (Hl DIAGNOSTIC_ADDRESS). cbn [local_of].
  destruct (is_raw fmt).
  - destruct Hmode as (bs & _ & Hfiles). eexists.
    repeat split; [exact Hda | exact Hfiles].
  - destruct Hmode as (_ & _ & _ & _ & _ & doc & _ & _ & _ & _ & _
                       & Hfiles & _).
    eexists. repeat split; [exact Hda | exact Hfiles].
Qed.

(** The third of three records: it declares nothing, the second moved the
    start address without [LOGIN]; the file name still shows the start
    address of the first. *)
Lemma artifact_path_witness :
  exists a,
    files (snd raw_moved_bare)
    = files (snd raw_moved) ++ [(lit "19 0x1 N - D.bin", a)].
Proof.
  destruct (artifact_path raw description fresh
              [first_record; moved_record] bare_record
              (locals_of raw_moved) (snd raw_moved)
              (locals_of raw_moved_bare) (snd raw_moved_bare)
              (conj eq_refl eq_refl))
    as (da & sa & zn & a & Hda & Hsa & Hzn & Hfiles).
  exists a.
  injection Hda as <-. injection Hsa as <-. injection Hzn as <-.
  exact Hfiles.
Defined.

(** C4, as stated, fails: the value ["0x0019"] is stored as ["19"], which
    is the value without two leading characters for no two-character
    prefix, and is not the value unchanged. *)
Lemma diagnostic_address_not_prefix_stripped :
  let el := parameter_data [(lit "DIAGNOSTIC_ADDRESS", lit "0x0019")] [] in
  exists l w,
    read_attributes description el unassigned fresh = (Return l, w)
    /\ diagnostic_address l = Some (lit "19")
    /\ forall pre, length pre = 2 ->
                   strip_prefix pre (lit "0x0019") <> lit "19".
Proof.
  do 2 eexists. split; [reflexivity|]. split; [reflexivity|].
  intros pre Hlen. unfold strip_prefix. rewrite Hlen.
  destruct (starts_with pre (lit "0x0019")); discriminate.
Qed.

(** C4, amended. The stored diagnostic address is the attribute value
    without the occurrences of the four characters ["0x00"], found by a
    scan from the left anywhere in the value; it is the value unchanged
    when ["0x00"] does not occur in it. *)
Theorem diagnostic_address_stored (desc : pystr) (el : node) (l : locals)
  (w : world) (l' : locals) (w' : world) :
  hasAttribute el (lit "DIAGNOSTIC_ADDRESS") = true ->
  read_attributes desc el l w = (Return l', w') ->
  exists d,
    diagnostic_address l' = Some d
    /\ removed (lit "0x00") (getAttribute el (lit "DIAGNOSTIC_ADDRESS")) d
    /\ (occurs (lit "0x00") (getAttribute el (lit "DIAGNOSTIC_ADDRESS"))
        = false ->
        d = getAttribute el (lit "DIAGNOSTIC_ADDRESS")).
Proof.
  intros Hattr Hr.
  apply read_attributes_spec in Hr as (_ & _ & _ & Hr).
  destruct (Hr l' eq_refl) as [Hl _].
  specialize (Hl DIAGNOSTIC_ADDRESS).
  unfold declares in Hl. cbn [attribute local_of stored] in Hl.
  rewrite Hattr in Hl.
  eexists. split; [exact Hl|]. split.
  - apply (replace_removed (lit "0x00")) with (n := length (getAttribute el (lit "DIAGNOSTIC_ADDRESS")));
      [discriminate | apply le_n].
  - intros Ho. now apply replace_from_unchanged.
Qed.

Lemma diagnostic_address_stored_witness :
  exists d,
    diagnostic_address (locals_of first_attributes) = Some d
    /\ removed (lit "0x00") (lit "0x0019") d
    /\ (occurs (lit "0x00") (lit "0x0019") = false -> d = lit "0x0019").
Proof.
  exact (diagnostic_address_stored description first_record unassigned
           fresh (locals_of first_attributes) (snd first_attributes)
           eq_refl eq_refl).
Defined.

(** C5, as stated, fails: the size is taken from the bytes of the UTF-8
    encoding, not from the characters. A record whose payload is two
    characters U+00E9 is converted in structured mode; half the length of
    its payload is one, and the size written is ["0x2"]. *)
Lemma size_counts_bytes_not_characters :
  payload_of accented_record = Some [233%N; 233%N]
  /\ normalize [233%N; 233%N] = [233%N; 233%N]
  /\ hex (N.of_nat (length (normalize [233%N; 233%N])) / 2) = lit "0x1"
  /\ _run vcp description (inr (document [accented_record])) fresh
     = vcp_accented_run
  /\ last (log vcp_accented_run) (InfoSummaryVcp 0 0) = InfoSummaryVcp 1 1
  /\ exists doc,
       files vcp_accented_run
       = [(lit "19 VCP 0x1 N - D.xml",
           XmlFile doc (lit "  ") (lit "  ") [10%N])]
       /\ node_texts doc "GROESSE-DEKOMPRIMIERT" = [lit "0x2"]
       /\ node_texts doc "DATEN" = [[233%N; 233%N]].
Proof.
  do 5 (split; [reflexivity|]). eexists. repeat split.
Qed.

(** C5, amended. For every record converted in structured mode the
    [GROESSE-DEKOMPRIMIERT] text is ["0x"] followed by the lowercase
    hexadecimal digits of half the number of bytes of the UTF-8 encoding
    of the normalized payload, the remainder dropped; that number of bytes
    is the length of the normalized payload when the normalized payload is
    ASCII, as a string of hexadecimal digits is. The [DATEN] text is the
    payload as read; the payload ["0x0A,0xFF"] gives ["0x2"] and
    ["0x0A,0xFF"]. *)
Theorem structured_output_shape (fmt : option pystr) (desc : pystr)
  (w0 : world) (pre : list node) (el : node) (l : locals) (w : world)
  (l' : locals) (w' : world) :
  converted fmt desc w0 pre el l w l' w' ->
  is_raw fmt = false ->
  exists p path doc ds,
    payload_of el = Some p
    /\ files w' =
         files w ++ [(path, XmlFile doc (lit "  ") (lit "  ") [10%N])]
    /\ node_texts doc "GROESSE-DEKOMPRIMIERT" = [lit "0x" ++ ds]
    /\ ds <> [] /\ forallb is_lower_hex ds = true
    /\ digits_value ds
       = Some (N.of_nat (list_sum (map utf8_width (normalize p))) / 2)%N
    /\ (forallb is_ascii (normalize p) = true ->
        digits_value ds = Some (N.of_nat (length (normalize p)) / 2)%N)
    /\ node_texts doc "DATEN" = [p]
    /\ (p = lit "0x0A,0xFF" ->
        node_texts doc "GROESSE-DEKOMPRIMIERT" = [lit "0x2"]
        /\ node_texts doc "DATEN" = [lit "0x0A,0xFF"]).
Proof.
  intros Hc Hraw.
  destruct (converted_spec _ _ _ _ _ _ _ _ _ Hc)
    as (_ & _ & p & da & fn & Hp & _ & _ & Hmode).
  rewrite Hraw in Hmode.
  destruct Hmode as (sa & zn & zv & lg & enc & doc & _ & _ & _ & _ & Henc
                     & Hfiles & Hshape).
  destruct Hshape as (_ & _ & _ & _ & _ & _ & Hsize & Hdata).
  destruct (hex_spec (N.of_nat (length enc) / 2)) as (ds & Hhex & Hne & Hlow & Hval).
  pose proof (encode_utf8_length _ _ Henc) as Hlen.
  exists p, (vcp_path da fn), doc, ds.
  rewrite <- Hhex.
  do 5 (split; [assumption|]).
  split; [now rewrite Hval, Hlen|].
  split; [|split; [exact Hdata|]].
  - intros Hascii. rewrite Hval, Hlen.
    now rewrite (utf8_width_ascii _ Hascii).
  - intros ->. split; [|exact Hdata].
    rewrite Hsize. injection Henc as <-. reflexivity.
Qed.

Lemma structured_output_shape_witness :
  exists path doc,
    files (snd vcp_start_first)
    = files (snd vcp_start)
      ++ [(path, XmlFile doc (lit "  ") (lit "  ") [10%N])]
    /\ node_texts doc "GROESSE-DEKOMPRIMIERT" = [lit "0x2"]
    /\ node_texts doc "DATEN" = [lit "0x0A,0xFF"].
Proof.
  destruct (structured_output_shape vcp description fresh []
              first_record (locals_of vcp_start) (snd vcp_start)
              (locals_of vcp_start_first) (snd vcp_start_first)
              (conj eq_refl eq_refl) eq_refl)
    as (p & path & doc & ds & Hp & Hfiles & _ & _ & _ & _ & _ & _ & Hex).
  injection Hp as <-.
  exists path, doc. split; [exact Hfiles | exact (Hex eq_refl)].
Defined.

(** C6, as stated, fails: normalizing ["0,x"] gives ["0x"], and
    normalizing that gives the empty string. *)
Lemma normalize_not_idempotent :
  normalize (lit "0,x") = lit "0x"
  /\ normalize (normalize (lit "0,x")) = []
  /\ normalize (normalize (lit "0,x")) <> normalize (lit "0,x").
Proof. repeat split. discriminate. Qed.

(** C6, amended. A second normalization changes nothing exactly when the
    normalized payload holds no ["0x"], which is so for every payload
    whose normalized form is a string of hexadecimal digits. *)
Theorem normalize_idempotent_iff (p : pystr) :
  (normalize (normalize p) = normalize p
   <-> occurs (lit "0x") (normalize p) = false)
  /\ (forallb is_hex_digit (normalize p) = true ->
      normalize (normalize p) = normalize p).
Proof.
  split; [apply normalize_twice|].
  intros H. apply normalize_twice. now apply hex_digits_no_0x.
Qed.

Lemma normalize_idempotent_iff_witness :
  normalize (normalize (lit "0x0A,0xFF")) = normalize (lit "0x0A,0xFF").
Proof.
  exact (proj2 (normalize_idempotent_iff (lit "0x0A,0xFF")) eq_refl).
Defined.

(** C7. For a valid payload the number of bytes the raw conversion
    writes is the number written in [GROESSE-DEKOMPRIMIERT] by the
    structured conversion of the same record, where the operating system
    lets the two files be written. *)
Theorem raw_length_is_size_field (fmt_raw fmt_vcp : option pystr)
  (el : node) (p da sa zn zv lg fn : pystr) (w : world) :
  is_raw fmt_raw = true -> is_raw fmt_vcp = false ->
  payload_of el = Some p -> valid_payload p = true ->
  accepts_any w (raw_path da fn) -> accepts_any w (vcp_path da fn) ->
  let l := mkLocals (Some da) (Some sa) (Some zn) (Some zv) (Some lg)
                    (Some fn) in
  exists w1 w2 bs doc size,
    convert_record fmt_raw el l w = (Return tt, w1)
    /\ files w1 = files w ++ [(raw_path da fn, BinaryFile bs)]
    /\ convert_record fmt_vcp el l w = (Return tt, w2)
    /\ files w2 =
         files w ++ [(vcp_path da fn,
                      XmlFile doc (lit "  ") (lit "  ") [10%N])]
    /\ node_texts doc "GROESSE-DEKOMPRIMIERT" = [size]
    /\ hex_value size = Some (N.of_nat (length bs)).
Proof.
  intros Hraw Hvcp Hp Hvalid Hos1 Hos2 l.
  unfold valid_payload in Hvalid. apply andb_prop in Hvalid as [Hd He].
  destruct (unhexlify_valid _ Hd He) as (bs & Hbs & Hlen).
  assert (Hascii : forallb is_ascii (normalize p) = true).
  { apply forallb_forall. intros c Hc. apply hex_val_ascii.
    rewrite forallb_forall in Hd. now apply Hd. }
  assert (Hscalar : forallb is_scalar (normalize p) = true).
  { apply forallb_forall. intros c Hc. apply ascii_scalar.
    rewrite forallb_forall in Hascii. now apply Hascii. }
  destruct (encode_utf8_scalar _ Hscalar) as [enc Henc].
  pose proof (encode_utf8_length _ _ Henc) as Hel.
  rewrite (utf8_width_ascii _ Hascii) in Hel.
  destruct (convert_record fmt_raw el l w) as [o1 w1] eqn:H1.
  destruct (convert_record fmt_vcp el l w) as [o2 w2] eqn:H2.
  rewrite (convert_record_raw_run fmt_raw el l w p fn da Hraw Hp eq_refl eq_refl) in H1.
  rewrite (convert_record_vcp_run fmt_vcp el l w p da sa zn zv lg fn
             Hvcp Hp eq_refl eq_refl eq_refl eq_refl eq_refl eq_refl) in H2.
  rewrite extract_to_raw_spec, Hbs in H1.
  rewrite convert_to_vcp_spec, Henc in H2.
  cbn [os] in H1, H2.
  destruct (Hos1 (BinaryFile bs)) as [Ho1 Hw1].
  destruct (Hos2 (vcp_file lg zn zv sa (hex (N.of_nat (length enc) / 2)) p))
    as [Ho2 Hw2].
  rewrite Ho1, Hw1 in H1. rewrite Ho2, Hw2 in H2.
  injection H1 as <- <-. injection H2 as <- <-.
  eexists _, _, bs, _, _.
  split; [reflexivity|]. split; [reflexivity|].
  split; [reflexivity|]. split; [reflexivity|].
  split; [apply vcp_document_shape|].
  rewrite hex_value_hex. f_equal.
  rewrite Hel, <- Hlen. rewrite Nat2N.inj_mul.
  change (N.of_nat 2) with 2%N.
  rewrite N.mul_comm, N.div_mul by discriminate. reflexivity.
Qed.

Lemma raw_length_is_size_field_witness :
  exists w1 w2 bs doc size,
    convert_record raw first_record (locals_of first_attributes) fresh
    = (Return tt, w1)
    /\ files w1 = [(lit "19 0x1 N - D.bin", BinaryFile bs)]
    /\ convert_record vcp first_record (locals_of first_attributes)
                      fresh
       = (Return tt, w2)
    /\ files w2 = [(lit "19 VCP 0x1 N - D.xml",
                    XmlFile doc (lit "  ") (lit "  ") [10%N])]
    /\ node_texts doc "GROESSE-DEKOMPRIMIERT" = [size]
    /\ hex_value size = Some (N.of_nat (length bs)).
Proof.
  exact (raw_length_is_size_field raw vcp first_record (lit "0x0A,0xFF")
           (lit "19") (lit "0x1") (lit "N") (lit "V") (lit "L")
           (lit "0x1 N - D") fresh
           eq_refl eq_refl eq_refl eq_refl
           (fun _ => conj eq_refl eq_refl) (fun _ => conj eq_refl eq_refl)).
Defined.

(** C8, as stated, fails: the document element is never a candidate. A
    document whose document element is itself tagged [PARAMETER_DATA] has
    one record-tagged element; it is processed in full, and the total is
    zero. *)
Lemma root_record_not_counted :
  record_elements first_record = [first_record]
  /\ _parse_small_oe_file vcp description (inr first_record) fresh
     = (Return tt, fresh)
  /\ _run vcp description (inr first_record) fresh = vcp_root_record_run
  /\ dataset_counter vcp_root_record_run = 0
  /\ extracted_dataset_counter vcp_root_record_run = 0
  /\ log vcp_root_record_run = [InfoSummaryVcp 0 0].
Proof. repeat split. Qed.

(** C8, amended. The record elements that count are the [PARAMETER_DATA]
    elements below the document element, in document order; the document
    element itself is never counted. In every run, whatever the counters
    were before, the converted count grows by no more than the total,
    so that converted <= total is kept when it held before; when the
    document is processed in full, both counters have grown by the number
    of those elements; a document without any is processed in full, with
    both counters unchanged and the summary logged. *)
Theorem counter_accounting (fmt : option pystr) (desc : pystr) (root : node)
  (w : world) (o : outcome unit) (w' : world) :
  _parse_small_oe_file fmt desc (inr root) w = (o, w') ->
  record_elements root
  = (if tag_matches (lit "PARAMETER_DATA") root then [root] else [])
    ++ records_below root
  /\ getElementsByTagName root (lit "PARAMETER_DATA") = records_below root
  /\ dataset_counter w <= dataset_counter w'
  /\ extracted_dataset_counter w <= extracted_dataset_counter w'
  /\ extracted_dataset_counter w' - extracted_dataset_counter w
     <= dataset_counter w' - dataset_counter w
  /\ (extracted_dataset_counter w <= dataset_counter w ->
      extracted_dataset_counter w' <= dataset_counter w')
  /\ (o = Return tt ->
      dataset_counter w' = dataset_counter w + length (records_below root)
      /\ extracted_dataset_counter w'
         = extracted_dataset_counter w + length (records_below root))
  /\ (records_below root = [] ->
      o = Return tt
      /\ dataset_counter w' = dataset_counter w
      /\ extracted_dataset_counter w' = extracted_dataset_counter w
      /\ log (_run fmt desc (inr root) w)
         = log w ++ [summary fmt (extracted_dataset_counter w)
                             (dataset_counter w)]).
Proof.
  intros H.
  split; [unfold record_elements, records_below; cbn [filter];
          now destruct (tag_matches (lit "PARAMETER_DATA") root)|].
  split; [apply elements_in_document_order|].
  unfold records_below. rewrite <- elements_in_document_order.
  pose proof H as Hparse.
  rewrite parse_unfold in H.
  destruct (for_each _ _ _ _) as [o1 w1] eqn:Hloop.
  pose proof (for_each_counters _ _ _ _ _ _ _ Hloop) as (Hd & He & Hm & Hok).
  assert (Hw : w1 = w') by (destruct o1; now injection H).
  subst w1.
  split; [lia|]. split; [lia|]. split; [lia|]. split; [lia|]. split.
  - intros ->. destruct o1 as [l1|e]; [|discriminate].
    destruct (Hok l1 eq_refl). now split.
  - intros Hnil. rewrite Hnil in *. cbn in Hloop.
    injection Hloop as <- <-. injection H as <-.
    split; [reflexivity|]. split; [reflexivity|]. split; [reflexivity|].
    now rewrite (run_returned _ _ _ _ _ _ Hparse).
Qed.

Lemma counter_accounting_witness :
  extracted_dataset_counter (snd raw_two_parsed)
  <= dataset_counter (snd raw_two_parsed)
  /\ dataset_counter (snd raw_two_parsed) = 2.
Proof.
  destruct (counter_accounting raw description
              (document [first_record; bare_record]) fresh
              (Return tt) (snd raw_two_parsed) eq_refl)
    as (_ & _ & _ & _ & _ & Hle & Hfull & _).
  split; [exact (Hle (le_n 0)) | exact (proj1 (Hfull eq_refl))].
Defined.

(** C9, as stated, fails: a record element whose only child is a comment
    has no text child, yet in structured mode it is converted, with the
    text of the comment as payload, and the run ends with its summary. *)
Lemma comment_only_record_converted :
  no_text_child comment_record = true
  /\ _run vcp description (inr (document [comment_record])) fresh
     = vcp_comment_run
  /\ extracted_dataset_counter vcp_comment_run = 1
  /\ map fst (files vcp_comment_run) = [lit "19 VCP 0x1 N - D.xml"]
  /\ existsb is_fatal (log vcp_comment_run) = false
  /\ last (log vcp_comment_run) (InfoSummaryVcp 0 0) = InfoSummaryVcp 1 1.
Proof. repeat split. Qed.

(** C9, amended. When the run reaches a record element whose child list
    is empty or starts with an element, the iteration for that element
    raises, the exception ends the run and is logged as the fatal error in
    place of the summary, no later record element is converted, and the
    converted count and the files are those from before the element. *)
Theorem malformed_record_aborts (fmt : option pystr) (desc : pystr)
  (root : node) (pre : list node) (el : node) (post : list node)
  (w0 : world) (l : locals) (w : world) :
  getElementsByTagName root (lit "PARAMETER_DATA") = pre ++ el :: post ->
  payload_of el = None ->
  for_each (loop_body fmt desc) pre unassigned w0 = (Return l, w) ->
  exists e w',
    loop_body fmt desc el l w = (Raise e, w')
    /\ _parse_small_oe_file fmt desc (inr root) w0 = (Raise e, w')
    /\ extracted_dataset_counter w' = extracted_dataset_counter w
    /\ files w' = files w
    /\ _run fmt desc (inr root) w0 =
       mkWorld (dataset_counter w') (extracted_dataset_counter w) (files w)
               (log w' ++ [ExceptionFatalError e]) (os w0).
Proof.
  intros Hels Hp Hpre.
  destruct (loop_body fmt desc el l w) as [o w'] eqn:Hb.
  assert (Hfail : exists e, o = Raise e
            /\ extracted_dataset_counter w' = extracted_dataset_counter w
            /\ files w' = files w).
  { pose proof Hb as Hb'.
    apply loop_body_inv in Hb'
      as [(l1 & w1 & o1 & Hr & Hc & ->)|(e & Hr & ->)].
    - apply read_attributes_spec in Hr as (_ & He & Hf & _).
      apply convert_record_spec in Hc as (_ & _ & Hnone & _).
      destruct (Hnone Hp) as (Ho & He' & Hf' & _).
      destruct Ho as [-> | ->]; eexists; (split; [reflexivity|]);
        split; congruence.
    - apply read_attributes_spec in Hr as (_ & He & Hf & _).
      exists e. now repeat split. }
  destruct Hfail as (e & -> & He & Hf).
  exists e, w'. split; [reflexivity|].
  assert (Hparse : _parse_small_oe_file fmt desc (inr root) w0 = (Raise e, w')).
  { rewrite parse_unfold, Hels, for_each_app, Hpre.
    cbn [for_each]. unfold bind. now rewrite Hb. }
  split; [exact Hparse|]. split; [exact He|]. split; [exact Hf|].
  rewrite (run_raised _ _ _ _ _ _ Hparse).
  now rewrite He, Hf, (parse_os _ _ _ _ _ _ Hparse).
Qed.

Lemma malformed_record_aborts_witness :
  exists e w',
    _parse_small_oe_file raw description
      (inr (document [first_record; empty_record; bare_record]))
      fresh = (Raise e, w')
    /\ extracted_dataset_counter w' = 1
    /\ map fst (files w') = [lit "19 0x1 N - D.bin"].
Proof.
  destruct (malformed_record_aborts raw description
              (document [first_record; empty_record; bare_record])
              [first_record] empty_record [bare_record] fresh
              (locals_of raw_first) (snd raw_first)
              eq_refl eq_refl eq_refl)
    as (e & w' & _ & Hparse & He & Hf & _).
  exists e, w'. split; [exact Hparse|].
  rewrite He, Hf. split; reflexivity.
Defined.

(** C10. The size written in structured mode is the number of bytes of
    the UTF-8 encoding of the normalized payload, halved with the
    remainder dropped: each character counts for its width in UTF-8, a
    payload of odd length is converted all the same, and the conversion
    returns for every payload of Unicode scalar values, where the
    operating system lets the file be written. *)
Theorem size_is_encoded_length_halved (p da sa zn zv lg fn : pystr)
  (w : world) :
  forallb is_scalar p = true ->
  accepts_any w (vcp_path da fn) ->
  let total := N.of_nat (list_sum (map utf8_width (normalize p))) in
  exists enc doc w',
    encode_utf8 (normalize p) = inr enc
    /\ N.of_nat (length enc) = total
    /\ _convert_to_vcp p da sa zn zv lg fn w = (Return tt, w')
    /\ files w' =
         files w ++ [(vcp_path da fn,
                      XmlFile doc (lit "  ") (lit "  ") [10%N])]
    /\ node_texts doc "GROESSE-DEKOMPRIMIERT" = [hex (total / 2)]
    /\ (2 * (total / 2) <= total < 2 * (total / 2) + 2)%N.
Proof.
  intros Hs Hos total.
  destruct (encode_utf8_scalar _ (normalize_forallb _ _ Hs)) as [enc Henc].
  pose proof (encode_utf8_length _ _ Henc) as Hlen.
  pose proof (convert_to_vcp_spec p da sa zn zv lg fn w) as Hrun.
  rewrite Henc in Hrun.
  destruct (Hos (vcp_file lg zn zv sa (hex (N.of_nat (length enc) / 2)) p))
    as [Ho Hw].
  rewrite Ho, Hw in Hrun.
  exists enc. do 2 eexists.
  split; [exact Henc|]. split; [unfold total; now rewrite Hlen|].
  split; [exact Hrun|]. split; [reflexivity|]. split.
  - unfold total. rewrite <- Hlen. apply vcp_document_shape.
  - apply halved_floor.
Qed.

(** Three characters give size one; two characters of two bytes each
    give size two. *)
Lemma size_is_encoded_length_halved_witness :
  (exists enc doc w',
     encode_utf8 (normalize (lit "ABC")) = inr enc
     /\ N.of_nat (length enc) = 3%N
     /\ _convert_to_vcp (lit "ABC") [] [] [] [] [] [] fresh
        = (Return tt, w')
     /\ files w' =
          [(vcp_path [] [], XmlFile doc (lit "  ") (lit "  ") [10%N])]
     /\ node_texts doc "GROESSE-DEKOMPRIMIERT" = [lit "0x1"]
     /\ (2 * (3 / 2) <= 3 < 2 * (3 / 2) + 2)%N)
  /\ (exists enc doc w',
     encode_utf8 (normalize [233%N; 233%N]) = inr enc
     /\ N.of_nat (length enc) = 4%N
     /\ _convert_to_vcp [233%N; 233%N] [] [] [] [] [] [] fresh
        = (Return tt, w')
     /\ files w' =
          [(vcp_path [] [], XmlFile doc (lit "  ") (lit "  ") [10%N])]
     /\ node_texts doc "GROESSE-DEKOMPRIMIERT" = [lit "0x2"]
     /\ (2 * (4 / 2) <= 4 < 2 * (4 / 2) + 2)%N).
Proof.
  split.
  - exact (size_is_encoded_length_halved (lit "ABC") [] [] [] [] [] []
             fresh eq_refl (fun _ => conj eq_refl eq_refl)).
  - exact (size_is_encoded_length_halved [233%N; 233%N] [] [] [] [] [] []
             fresh eq_refl (fun _ => conj eq_refl eq_refl)).
Defined.
(* ================================================================= *)
(** ** Further facts: what a run adds to the log and to the files *)

Lemma read_attributes_log (desc : pystr) (el : node) (l : locals)
  (w : world) (o : outcome locals) (w' : world) :
  read_attributes desc el l w = (o, w') ->
  exists dl,
    log w' = log w ++ dl
    /\ announced_paths dl = [] /\ progress dl = true.
Proof.
  unfold read_attributes, bind.
  destruct (hasAttribute el (lit "DIAGNOSTIC_ADDRESS"));
  destruct (hasAttribute el (lit "START_ADDRESS"));
  destruct (hasAttribute el (lit "ZDC_NAME"));
  destruct (hasAttribute el (lit "ZDC_VERSION"));
  destruct (hasAttribute el (lit "LOGIN"));
  cbn -[app];
  try destruct (start_address l); try destruct (zdc_name l);
  cbn -[app];
  intros [= <- <-]; cbn -[app];
  repeat rewrite <- app_assoc; cbn [app];
  first [ solve [eexists; repeat split]
        | exists []; rewrite app_nil_r; repeat split ].
Qed.

(** What a conversion that has announced [path] leaves: the file when it
    was opened, the path alone when [open] raised. *)
Lemma announced_effect (A : Type) (w : world) (o : outcome A) (w' : world)
  (r : log_record) (path : pystr) (fs : list (pystr * artifact)) :
  announced r = [path] -> is_terminal r = false ->
  extracted_dataset_counter w' = extracted_dataset_counter w + 1 ->
  log w' = log w ++ [r] -> files w' = files w ++ fs ->
  (exists a, fs = [(path, a)])
  \/ (fs = [] /\ exists e, open_error (os w) path = Some e /\ o = Raise e) ->
  exists dl df refused,
    log w' = log w ++ dl /\ files w' = files w ++ df
    /\ announced_paths dl = map fst df ++ refused /\ progress dl = true
    /\ length df + length refused
       <= extracted_dataset_counter w' - extracted_dataset_counter w
    /\ extracted_dataset_counter w' - extracted_dataset_counter w <= 1
    /\ (length df + length refused
        = extracted_dataset_counter w' - extracted_dataset_counter w)
    /\ refusal w o refused.
Proof.
  intros Ha Ht He Hl Hf [[a ->] | [-> (e & Ho & Hr)]].
  - exists [r], [(path, a)], []. unfold announced_paths, progress, refusal.
    cbn [flat_map forallb map fst length app]. rewrite Ha, Ht, He.
    repeat split; try assumption; try lia. now left.
  - exists [r], [], [path]. unfold announced_paths, progress, refusal.
    cbn [flat_map forallb map fst length app]. rewrite Ha, Ht, He.
    repeat split; try assumption; try lia.
    right. exists path, e. now repeat split.
Qed.

Lemma convert_record_effect (fmt : option pystr) (el : node) (l : locals)
  (w : world) (o : outcome unit) (w' : world) :
  convert_record fmt el l w = (o, w') ->
  exists dl df refused,
    log w' = log w ++ dl /\ files w' = files w ++ df
    /\ announced_paths dl = map fst df ++ refused /\ progress dl = true
    /\ length df + length refused
       <= extracted_dataset_counter w' - extracted_dataset_counter w
    /\ extracted_dataset_counter w' - extracted_dataset_counter w <= 1
    /\ (is_raw fmt = true \/ o = Return tt ->
        length df + length refused
        = extracted_dataset_counter w' - extracted_dataset_counter w)
    /\ refusal w o refused.
Proof.
  unfold convert_record, first_child_data, bind, local.
  cbn -[app _extract_to_raw _convert_to_vcp str_replace].
  assert (Hnone : forall e (w1 : world),
            log w1 = log w -> files w1 = files w ->
            extracted_dataset_counter w1 = extracted_dataset_counter w ->
            (@Raise unit e, w1) = (o, w') ->
            exists dl df refused,
              log w' = log w ++ dl /\ files w' = files w ++ df
              /\ announced_paths dl = map fst df ++ refused
              /\ progress dl = true
              /\ length df + length refused
                 <= extracted_dataset_counter w' - extracted_dataset_counter w
              /\ extracted_dataset_counter w' - extracted_dataset_counter w
                 <= 1
              /\ (is_raw fmt = true \/ o = Return tt ->
                  length df + length refused
                  = extracted_dataset_counter w'
                    - extracted_dataset_counter w)
              /\ refusal w o refused).
  { intros e w1 Hl Hf He [= <- <-]. exists [], [], [].
    rewrite !app_nil_r, Hl, Hf, He, Nat.sub_diag. cbn.
    repeat split; try lia. now left. }
  assert (Hsome : forall r path fs (o1 : outcome unit),
            announced r = [path] -> is_terminal r = false ->
            (exists a, fs = [(path, a)])
            \/ (fs = [] /\ exists e, open_error (os w) path = Some e
                                     /\ o1 = Raise e) ->
            (o1, mkWorld (dataset_counter w + 1)
                         (extracted_dataset_counter w + 1)
                         (files w ++ fs) (log w ++ [r]) (os w)) = (o, w') ->
            exists dl df refused,
              log w' = log w ++ dl /\ files w' = files w ++ df
              /\ announced_paths dl = map fst df ++ refused
              /\ progress dl = true
              /\ length df + length refused
                 <= extracted_dataset_counter w' - extracted_dataset_counter w
              /\ extracted_dataset_counter w' - extracted_dataset_counter w
                 <= 1
              /\ (is_raw fmt = true \/ o = Return tt ->
                  length df + length refused
                  = extracted_dataset_counter w'
                    - extracted_dataset_counter w)
              /\ refusal w o refused).
  { intros r path fs o1 Ha Ht Hfs [= <- <-].
    destruct (announced_effect unit w o1
                (mkWorld (dataset_counter w + 1)
                         (extracted_dataset_counter w + 1)
                         (files w ++ fs) (log w ++ [r]) (os w))
                r path fs Ha Ht eq_refl eq_refl eq_refl Hfs)
      as (dl & df & refused & H1 & H2 & H3 & H4 & H5 & H6 & H7 & H8).
    exists dl, df, refused. repeat split; try assumption.
    intros _. exact H7. }
  destruct (childNodes el) as [|c cs]; [now apply Hnone|].
  destruct (data_of c) as [p|]; [|now apply Hnone].
  cbn -[app _extract_to_raw _convert_to_vcp str_replace].
  destruct (is_raw fmt).
  - destruct (filename l) as [fn|]; [|now apply Hnone].
    destruct (diagnostic_address l) as [da|]; [|now apply Hnone].
    cbn -[app _extract_to_raw str_replace].
    rewrite extract_to_raw_spec. unfold extracted_with.
    cbn -[app str_replace unhexlify].
    destruct (open_error (os w) (raw_path da fn)) as [e|] eqn:Ho;
      [|destruct (unhexlify _) as [e|bs];
        [|destruct (write_error (os w) _ _) as [e|]]];
      apply (Hsome (InfoExtractingRaw (raw_path da fn)) (raw_path da fn));
      try reflexivity;
      first [ left; eexists; reflexivity
            | right; split; [reflexivity|];
              eexists; split; [exact Ho | reflexivity] ].
  - destruct (diagnostic_address l) as [da|]; [|now apply Hnone].
    destruct (start_address l) as [sa|]; [|now apply Hnone].
    destruct (zdc_name l) as [zn|]; [|now apply Hnone].
    destruct (zdc_version l) as [zv|]; [|now apply Hnone].
    destruct (login l) as [lg|]; [|now apply Hnone].
    destruct (filename l) as [fn|]; [|now apply Hnone].
    cbn -[app _convert_to_vcp].
    rewrite convert_to_vcp_spec. unfold extracted_with.
    cbn -[app normalize hex N.div vcp_file encode_utf8].
    destruct (encode_utf8 (normalize p)) as [e|enc].
    + intros [= <- <-]. exists [], [], [].
      rewrite !app_nil_r. cbn. unfold refusal.
      repeat split; try lia; try (now left).
      intros [H | H]; discriminate H.
    + destruct (open_error (os w) (vcp_path da fn)) as [e|] eqn:Ho;
        [|destruct (write_error (os w) _ _) as [e|]];
        apply (Hsome (InfoExtractingVcp (vcp_path da fn)) (vcp_path da fn));
        try reflexivity;
        first [ left; eexists; reflexivity
              | right; split; [reflexivity|];
                eexists; split; [exact Ho | reflexivity] ].
Qed.

Lemma loop_body_effect (fmt : option pystr) (desc : pystr) (el : node)
  (l : locals) (w : world) (o : outcome locals) (w' : world) :
  loop_body fmt desc el l w = (o, w') ->
  exists dl df refused,
    log w' = log w ++ dl /\ files w' = files w ++ df
    /\ announced_paths dl = map fst df ++ refused /\ progress dl = true
    /\ length df + length refused
       <= extracted_dataset_counter w' - extracted_dataset_counter w
    /\ extracted_dataset_counter w' - extracted_dataset_counter w <= 1
    /\ (is_raw fmt = true \/ (exists l', o = Return l') ->
        length df + length refused
        = extracted_dataset_counter w' - extracted_dataset_counter w)
    /\ refusal w o refused.
Proof.
  intros H. apply loop_body_inv in H
    as [(l1 & w1 & o1 & Hr & Hc & Ho)|(e & Hr & Ho)].
  - pose proof (read_attributes_log _ _ _ _ _ _ Hr) as (dl1 & Hl1 & Ha1 & Hp1).
    pose proof (read_attributes_os _ _ _ _ _ _ Hr) as Hos.
    apply read_attributes_spec in Hr as (_ & He & Hf & _).
    apply convert_record_effect in Hc
      as (dl2 & df & refused & Hl2 & Hf2 & Ha2 & Hp2 & Hle & Hle1 & Hraw
          & Hrefused).
    exists (dl1 ++ dl2), df, refused.
    rewrite Hl2, Hl1, Hf2, Hf, <- He, app_assoc.
    unfold announced_paths, progress in *.
    rewrite flat_map_app, forallb_app, Ha1, Hp1, Hp2. cbn [app andb].
    repeat split; try assumption.
    + intros [Hm | [l' Hl']]; apply Hraw; [now left | right].
      destruct o1 as [[]|]; [reflexivity | congruence].
    + unfold refusal in *. rewrite <- Hos.
      destruct Hrefused as [-> | (q & e & -> & Hq & ->)]; [now left|].
      right. exists q, e. now repeat split.
  - pose proof (read_attributes_log _ _ _ _ _ _ Hr) as (dl1 & Hl1 & Ha1 & Hp1).
    apply read_attributes_spec in Hr as (_ & He & Hf & _).
    exists dl1, [], []. rewrite Hl1, Hf, He, app_nil_r, Nat.sub_diag.
    cbn. repeat split; try assumption; try lia. now left.
Qed.

(** The loop over the record elements: the log and the files only grow,
    every file is announced, nothing terminal is logged, and the files
    are counted by the extracted counter. *)
Lemma for_each_effect (fmt : option pystr) (desc : pystr)
  (els : list node) : forall l w o w',
  for_each (loop_body fmt desc) els l w = (o, w') ->
  exists dl df refused,
    log w' = log w ++ dl /\ files w' = files w ++ df
    /\ announced_paths dl = map fst df ++ refused /\ progress dl = true
    /\ length df + length refused
       <= extracted_dataset_counter w' - extracted_dataset_counter w
    /\ (is_raw fmt = true \/ (exists l', o = Return l') ->
        length df + length refused
        = extracted_dataset_counter w' - extracted_dataset_counter w)
    /\ refusal w o refused.
Proof.
  induction els as [|el els IH]; intros l w o w' H.
  - cbn in H. injection H as <- <-. exists [], [], [].
    rewrite !app_nil_r, Nat.sub_diag. cbn. repeat split; try lia. now left.
  - cbn [for_each] in H. unfold bind in H.
    destruct (loop_body fmt desc el l w) as [[l1|e] w1] eqn:Hb.
    + pose proof (loop_body_counters _ _ _ _ _ _ _ Hb) as (_ & _ & Hm1 & _).
      pose proof (loop_body_os _ _ _ _ _ _ _ Hb) as Hos.
      apply loop_body_effect in Hb
        as (dl1 & df1 & r1 & Hl1 & Hf1 & Ha1 & Hp1 & Hle1 & Hone & Hraw1
            & Href1).
      assert (r1 = []) as ->.
      { destruct Href1 as [-> | (q & e & _ & _ & Hq)];
          [reflexivity | discriminate Hq]. }
      pose proof (for_each_counters _ _ _ _ _ _ _ H) as (_ & _ & Hm2 & _).
      apply IH in H
        as (dl2 & df2 & r2 & Hl2 & Hf2 & Ha2 & Hp2 & Hle2 & Hraw2 & Href2).
      exists (dl1 ++ dl2), (df1 ++ df2), r2.
      rewrite Hl2, Hl1, Hf2, Hf1, <- !app_assoc.
      unfold announced_paths, progress in *.
      rewrite flat_map_app, forallb_app, map_app, Ha1, Ha2, Hp1, Hp2.
      rewrite app_nil_r, <- app_assoc, length_app. cbn [andb length] in *.
      specialize (Hraw1 (or_intror (ex_intro _ l1 eq_refl))).
      repeat split; try lia.
      * intros Hr. specialize (Hraw2 Hr). lia.
      * unfold refusal in *. now rewrite <- Hos.
    + injection H as <- <-.
      apply loop_body_effect in Hb
        as (dl1 & df1 & r1 & Hl1 & Hf1 & Ha1 & Hp1 & Hle1 & Hone & Hraw1
            & Href1).
      exists dl1, df1, r1. repeat split; try assumption;
        try (intros [Hm | [l' Hl']];
             [apply Hraw1; now left | discriminate Hl']).
Qed.

Lemma parse_effect (fmt : option pystr) (desc : pystr) (input : parsed)
  (w : world) (o : outcome unit) (w' : world) :
  _parse_small_oe_file fmt desc input w = (o, w') ->
  exists dl df refused,
    log w' = log w ++ dl /\ files w' = files w ++ df
    /\ announced_paths dl = map fst df ++ refused /\ progress dl = true
    /\ length df + length refused
       <= extracted_dataset_counter w' - extracted_dataset_counter w
    /\ (is_raw fmt = true \/ o = Return tt ->
        length df + length refused
        = extracted_dataset_counter w' - extracted_dataset_counter w)
    /\ refusal w o refused.
Proof.
  destruct input as [e|root].
  - cbn. intros [= <- <-]. exists [], [], [].
    rewrite !app_nil_r, Nat.sub_diag. cbn. repeat split; try lia. now left.
  - rewrite parse_unfold.
    destruct (for_each _ _ _ _) as [o1 w1] eqn:Hloop.
    apply for_each_effect in Hloop
      as (dl & df & refused & Hl & Hf & Ha & Hp & Hle & Hraw & Href).
    intros H. assert (w1 = w') as -> by (destruct o1; now injection H).
    exists dl, df, refused. repeat split; try assumption.
    + intros [Hm | ->]; apply Hraw; [now left | right].
      destruct o1 as [l1|]; [now exists l1 | discriminate H].
    + unfold refusal in *.
      destruct Href as [-> | (q & e & -> & Hq & ->)]; [now left|].
      right. exists q, e. injection H as <-. now repeat split.
Qed.

(* ================================================================= *)
(** ** Further facts: when the library calls succeed *)

Lemma unhex_pairs_inv (n : nat) : forall (s : pystr) (bs : bytes),
  length s <= n -> unhex_pairs s = Some bs ->
  forallb is_hex_digit s = true /\ Nat.even (length s) = true.
Proof.
  induction n as [|n IH]; intros s bs Hn H.
  - destruct s; [now split | simpl in Hn; lia].
  - destruct s as [|h [|l r]]; [now split | discriminate |].
    cbn [unhex_pairs] in H.
    destruct (hex_val h) eqn:Hh; [|discriminate].
    destruct (hex_val l) eqn:Hl; [|discriminate].
    destruct (unhex_pairs r) as [bs'|] eqn:Hr; [|discriminate].
    destruct (IH r bs') as [Hd He]; [simpl in Hn; lia | exact Hr |].
    split.
    + cbn [forallb]. unfold is_hex_digit at 1 2. now rewrite Hh, Hl, Hd.
    + exact He.
Qed.

Lemma unhexlify_inv (s : pystr) (bs : bytes) :
  unhexlify s = inr bs ->
  forallb is_hex_digit s = true /\ Nat.even (length s) = true.
Proof.
  unfold unhexlify.
  destruct (negb _); [discriminate|].
  destruct (Nat.odd (length s)); [discriminate|].
  destruct (unhex_pairs s) as [bs'|] eqn:H; [|discriminate].
  intros _. exact (unhex_pairs_inv _ s bs' (le_n _) H).
Qed.

(** [unhexlify] returns exactly for an even number of hexadecimal
    digits. *)
Lemma unhexlify_returns_iff (s : pystr) :
  (exists bs, unhexlify s = inr bs)
  <-> forallb is_hex_digit s && Nat.even (length s) = true.
Proof.
  split.
  - intros [bs H]. apply unhexlify_inv in H as [-> ->]. reflexivity.
  - intros H. apply andb_prop in H as [Hd He].
    destruct (unhexlify_valid s Hd He) as (bs & H & _). eauto.
Qed.

Lemma encode_char_inv (c : char) (bs : bytes) :
  encode_char c = Some bs -> is_scalar c = true.
Proof.
  unfold encode_char, is_scalar.
  split_tests; intros Hs; try discriminate; try reflexivity; lia.
Qed.

Lemma encode_utf8_inv (s : pystr) : forall enc,
  encode_utf8 s = inr enc -> forallb is_scalar s = true.
Proof.
  induction s as [|c r IH]; intros enc H; [reflexivity|].
  cbn [encode_utf8] in H.
  destruct (encode_char c) as [bs|] eqn:Hc; [|discriminate].
  destruct (encode_utf8 r) as [e|enc'] eqn:Hr; [discriminate|].
  cbn [forallb]. now rewrite (encode_char_inv c bs Hc), (IH enc' eq_refl).
Qed.

Lemma encode_utf8_returns_iff (s : pystr) :
  (exists enc, encode_utf8 s = inr enc) <-> forallb is_scalar s = true.
Proof.
  split.
  - intros [enc H]. exact (encode_utf8_inv s enc H).
  - apply encode_utf8_scalar.
Qed.

(** A record is counted before its payload is read. *)
Lemma convert_record_unreadable (fmt : option pystr) (el : node)
  (l : locals) (w : world) (o : outcome unit) (w' : world) :
  convert_record fmt el l w = (o, w') ->
  payload_of el = None -> o <> Return tt.
Proof.
  intros H Hp. apply convert_record_spec in H as (_ & _ & Hnone & _).
  destruct (Hnone Hp) as ([-> | ->] & _); discriminate.
Qed.

(** Without [LOGIN] the attribute blocks cannot raise. *)
Lemma read_attributes_returns (desc : pystr) (el : node) (l : locals)
  (w : world) :
  declares LOGIN el = false ->
  exists l1 w1, read_attributes desc el l w = (Return l1, w1).
Proof.
  unfold declares, attribute, read_attributes, bind. intros ->.
  destruct (hasAttribute el (lit "DIAGNOSTIC_ADDRESS"));
  destruct (hasAttribute el (lit "START_ADDRESS"));
  destruct (hasAttribute el (lit "ZDC_NAME"));
  destruct (hasAttribute el (lit "ZDC_VERSION"));
  cbn -[app]; do 2 eexists; reflexivity.
Qed.

(* ================================================================= *)
(** ** Further facts: payloads in the form of the export *)

Lemma hex_digit_not_x (c : char) :
  is_hex_digit c = true -> N.eqb 120 c = false.
Proof.
  unfold is_hex_digit, hex_val. intros H.
  destruct (N.eqb_spec 120 c) as [<-|]; [discriminate H | reflexivity].
Qed.

Lemma hex_digit_not_comma (c : char) :
  is_hex_digit c = true -> not_comma c = true.
Proof.
  unfold is_hex_digit, hex_val, not_comma. intros H.
  destruct (N.eqb_spec 44 c) as [<-|]; [discriminate H | reflexivity].
Qed.

Lemma replace_0x_item (h l : char) (tail : pystr) :
  is_hex_digit l = true ->
  tail = [] \/ (exists t, tail = 44%N :: t) ->
  replace_from (lit "0x") [] 0 (lit "0x" ++ h :: l :: tail)
  = h :: l :: replace_from (lit "0x") [] 0 tail.
Proof.
  intros Hl Ht.
  rewrite (replace_from_here (lit "0x") [] lit_0x_nonempty). cbn [app].
  rewrite replace_from_keep.
  2:{ change (lit "0x") with [48%N; 120%N]. cbn [starts_with].
      now rewrite (hex_digit_not_x l Hl), andb_false_r. }
  f_equal. rewrite replace_from_keep; [reflexivity|].
  change (lit "0x") with [48%N; 120%N]. cbn [starts_with].
  destruct Ht as [-> | [t ->]]; cbn; now rewrite andb_false_r.
Qed.

Lemma odis_payload_shape (items : list (char * char)) :
  odis_payload items = [] \/ exists t, odis_payload items = 48%N :: t.
Proof. destruct items as [|[h l] rest]; [now left | right; eexists; reflexivity]. Qed.

Lemma normalize_odis_payload (items : list (char * char)) :
  forallb digit_pair items = true ->
  normalize (odis_payload items) = flat_map (fun it => [fst it; snd it]) items.
Proof.
  rewrite normalize_filter.
  induction items as [|[h l] rest IH]; intros H; [reflexivity|].
  cbn [forallb] in H. apply andb_prop in H as [Hhl Hrest].
  unfold digit_pair in Hhl. cbn [fst snd] in Hhl.
  apply andb_prop in Hhl as [Hh Hl].
  cbn [odis_payload flat_map fst snd app].
  destruct rest as [|it rest'].
  - cbn [app].
    rewrite (replace_0x_item h l [] Hl (or_introl eq_refl)).
    cbn [replace_from filter].
    now rewrite (hex_digit_not_comma h Hh), (hex_digit_not_comma l Hl).
  - change (lit ",") with [44%N]. cbn [app].
    rewrite (replace_0x_item h l _ Hl (or_intror (ex_intro _ _ eq_refl))).
    rewrite replace_from_keep by reflexivity.
    cbn [filter].
    rewrite (hex_digit_not_comma h Hh), (hex_digit_not_comma l Hl).
    change (not_comma 44%N) with false. cbn iota.
    f_equal. f_equal. exact (IH Hrest).
Qed.

Lemma unhex_pairs_items (items : list (char * char)) :
  forallb digit_pair items = true ->
  unhex_pairs (flat_map (fun it => [fst it; snd it]) items)
  = Some (map byte_of items).
Proof.
  induction items as [|[h l] rest IH]; intros H; [reflexivity|].
  cbn [forallb] in H. apply andb_prop in H as [Hhl Hrest].
  unfold digit_pair in Hhl. cbn [fst snd] in Hhl.
  apply andb_prop in Hhl as [Hh Hl].
  cbn [flat_map fst snd app unhex_pairs map].
  rewrite (IH Hrest). unfold byte_of, digit_value. cbn [fst snd].
  unfold is_hex_digit in Hh, Hl.
  destruct (hex_val h); [|discriminate]. destruct (hex_val l); [|discriminate].
  reflexivity.
Qed.

Lemma items_digits (items : list (char * char)) :
  forallb digit_pair items = true ->
  forallb is_hex_digit (flat_map (fun it => [fst it; snd it]) items) = true
  /\ Nat.even (length (flat_map (fun it => [fst it; snd it]) items)) = true.
Proof.
  induction items as [|[h l] rest IH]; intros H; [now split|].
  cbn [forallb] in H. apply andb_prop in H as [Hhl Hrest].
  unfold digit_pair in Hhl. cbn [fst snd] in Hhl.
  apply andb_prop in Hhl as [Hh Hl].
  destruct (IH Hrest) as [Hd He].
  cbn [flat_map fst snd app forallb length]. rewrite Hh, Hl, Hd.
  split; [reflexivity | exact He].
Qed.

Lemma hex_val_bound (c : char) (d : N) : hex_val c = Some d -> (d < 16)%N.
Proof.
  unfold hex_val. split_tests; intros [= <-]; lia.
Qed.

Lemma byte_of_bound (item : char * char) : (byte_of item < 256)%N.
Proof.
  unfold byte_of, digit_value.
  destruct (hex_val (fst item)) eqn:Hh; destruct (hex_val (snd item)) eqn:Hl;
    try apply hex_val_bound in Hh; try apply hex_val_bound in Hl; lia.
Qed.

(* ================================================================= *)
(** ** Further properties of the conversion of one record *)

(** When the payload and the locals can be read, the conversion returns
    exactly when the library call on the payload returns and the operating
    system lets the file be written. *)
Lemma raw_returns_iff (fmt : option pystr) (el : node) (l : locals)
  (w : world) (p fn da : pystr) :
  is_raw fmt = true -> payload_of el = Some p ->
  filename l = Some fn -> diagnostic_address l = Some da ->
  (fst (convert_record fmt el l w) = Return tt
   <-> exists bs,
         unhexlify (normalize p) = inr bs
         /\ accepts w (raw_path da fn) (BinaryFile bs)).
Proof.
  intros Hraw Hp Hfn Hda.
  rewrite (convert_record_raw_run fmt el l w p fn da Hraw Hp Hfn Hda).
  rewrite extract_to_raw_spec. unfold accepts. cbn [os].
  destruct (open_error (os w) (raw_path da fn)) as [e|].
  - split; [discriminate|]. intros (bs & _ & H & _). discriminate H.
  - destruct (unhexlify (normalize p)) as [e|bs].
    + split; [discriminate|]. intros (bs & H & _). discriminate H.
    + destruct (write_error (os w) (raw_path da fn) (BinaryFile bs))
        as [e|] eqn:Hw.
      * split; [discriminate|]. intros (bs' & [= <-] & _ & H). congruence.
      * split; [|reflexivity]. intros _. exists bs. now repeat split.
Qed.

Lemma vcp_returns_iff (fmt : option pystr) (el : node) (l : locals)
  (w : world) (p da sa zn zv lg fn : pystr) :
  is_raw fmt = false -> payload_of el = Some p ->
  diagnostic_address l = Some da -> start_address l = Some sa ->
  zdc_name l = Some zn -> zdc_version l = Some zv ->
  login l = Some lg -> filename l = Some fn ->
  (fst (convert_record fmt el l w) = Return tt
   <-> exists enc,
         encode_utf8 (normalize p) = inr enc
         /\ accepts w (vcp_path da fn)
              (vcp_file lg zn zv sa (hex (N.of_nat (length enc) / 2)) p)).
Proof.
  intros Hraw Hp Hda Hsa Hzn Hzv Hlg Hfn.
  rewrite (convert_record_vcp_run fmt el l w p da sa zn zv lg fn
             Hraw Hp Hda Hsa Hzn Hzv Hlg Hfn).
  rewrite convert_to_vcp_spec. unfold accepts. cbn [os].
  destruct (encode_utf8 (normalize p)) as [e|enc].
  - split; [discriminate|]. intros (enc & H & _). discriminate H.
  - destruct (open_error (os w) (vcp_path da fn)) as [e|].
    + split; [discriminate|]. intros (enc' & _ & H & _). discriminate H.
    + destruct (write_error (os w) (vcp_path da fn) _) as [e|] eqn:Hw.
      * split; [discriminate|]. intros (enc' & [= <-] & _ & H). congruence.
      * split; [|reflexivity]. intros _. exists enc. now repeat split.
Qed.

(** X1. In raw mode a record is converted exactly when its payload can be
    read, the file name and the diagnostic address are assigned, the
    normalized payload is an even number of hexadecimal digits, and the
    operating system lets the file be opened and the bytes be written; the
    other locals are not read. *)
Theorem raw_conversion_returns_iff (fmt : option pystr) (el : node)
  (l : locals) (w : world) :
  is_raw fmt = true ->
  (fst (convert_record fmt el l w) = Return tt
   <-> exists p fn da bs,
         payload_of el = Some p /\ filename l = Some fn
         /\ diagnostic_address l = Some da /\ valid_payload p = true
         /\ unhexlify (normalize p) = inr bs
         /\ accepts w (raw_path da fn) (BinaryFile bs)).
Proof.
  intros Hraw. split.
  - intros H.
    destruct (convert_record fmt el l w) as [o w'] eqn:Hc. cbn [fst] in H.
    subst o. pose proof Hc as Hc'.
    apply convert_record_spec in Hc' as (_ & _ & _ & Hok).
    destruct (Hok eq_refl) as (_ & p & da & fn & Hp & Hda & Hfn & _).
    assert (Hret : fst (convert_record fmt el l w) = Return tt)
      by now rewrite Hc.
    apply (raw_returns_iff fmt el l w p fn da Hraw Hp Hfn Hda) in Hret
      as (bs & Hbs & Hacc).
    exists p, fn, da, bs.
    split; [exact Hp|]. split; [exact Hfn|]. split; [exact Hda|].
    split; [|split; [exact Hbs | exact Hacc]].
    apply unhexlify_inv in Hbs as [Hd He].
    unfold valid_payload. now rewrite Hd, He.
  - intros (p & fn & da & bs & Hp & Hfn & Hda & _ & Hbs & Hacc).
    apply (raw_returns_iff fmt el l w p fn da Hraw Hp Hfn Hda).
    now exists bs.
Qed.

Lemma raw_conversion_returns_iff_witness :
  fst (convert_record raw bare_record
         (mkLocals (Some (lit "19")) None None None None
                   (Some (lit "0x1 N - D"))) fresh) = Return tt.
Proof.
  apply (proj2 (raw_conversion_returns_iff raw bare_record
                  (mkLocals (Some (lit "19")) None None None None
                            (Some (lit "0x1 N - D"))) fresh eq_refl)).
  exists (lit "0xBE,0xEF"), (lit "0x1 N - D"), (lit "19"), [190%N; 239%N].
  repeat split.
Defined.

(** X2. In structured mode a record is converted exactly when its payload
    can be read, all six locals are assigned, the normalized payload can
    be encoded, which is so for every payload of Unicode scalar values,
    and the operating system lets the file be opened and the document be
    written: the payload is not checked to be hexadecimal. *)
Theorem structured_conversion_returns_iff (fmt : option pystr) (el : node)
  (l : locals) (w : world) :
  is_raw fmt = false ->
  (fst (convert_record fmt el l w) = Return tt
   <-> exists p da sa zn zv lg fn enc,
         payload_of el = Some p
         /\ diagnostic_address l = Some da /\ start_address l = Some sa
         /\ zdc_name l = Some zn /\ zdc_version l = Some zv
         /\ login l = Some lg /\ filename l = Some fn
         /\ forallb is_scalar (normalize p) = true
         /\ encode_utf8 (normalize p) = inr enc
         /\ accepts w (vcp_path da fn)
              (vcp_file lg zn zv sa (hex (N.of_nat (length enc) / 2)) p)).
Proof.
  intros Hraw. split.
  - intros H.
    destruct (convert_record fmt el l w) as [o w'] eqn:Hc. cbn [fst] in H.
    subst o. pose proof Hc as Hc'.
    apply convert_record_spec in Hc' as (_ & _ & _ & Hok).
    destruct (Hok eq_refl) as (_ & p & da & fn & Hp & Hda & Hfn & Hmode).
    rewrite Hraw in Hmode.
    destruct Hmode as (sa & zn & zv & lg & enc0 & doc & Hsa & Hzn & Hzv
                       & Hlg & _).
    assert (Hret : fst (convert_record fmt el l w) = Return tt)
      by now rewrite Hc.
    apply (vcp_returns_iff fmt el l w p da sa zn zv lg fn
             Hraw Hp Hda Hsa Hzn Hzv Hlg Hfn) in Hret as (enc & Henc & Hacc).
    exists p, da, sa, zn, zv, lg, fn, enc.
    do 7 (split; [assumption|]).
    split; [exact (encode_utf8_inv _ _ Henc)|].
    split; [exact Henc | exact Hacc].
  - intros (p & da & sa & zn & zv & lg & fn & enc & Hp & Hda & Hsa & Hzn
            & Hzv & Hlg & Hfn & _ & Henc & Hacc).
    apply (vcp_returns_iff fmt el l w p da sa zn zv lg fn
             Hraw Hp Hda Hsa Hzn Hzv Hlg Hfn).
    now exists enc.
Qed.

Lemma structured_conversion_returns_iff_witness :
  fst (convert_record vcp
         (parameter_data [] [Text (lit "not hexadecimal")])
         (mkLocals (Some (lit "19")) (Some (lit "0x1")) (Some (lit "N"))
                   (Some (lit "V")) (Some (lit "L"))
                   (Some (lit "0x1 N - D"))) fresh) = Return tt.
Proof.
  apply (proj2 (structured_conversion_returns_iff vcp
                  (parameter_data [] [Text (lit "not hexadecimal")])
                  (mkLocals (Some (lit "19")) (Some (lit "0x1"))
                            (Some (lit "N")) (Some (lit "V")) (Some (lit "L"))
                            (Some (lit "0x1 N - D"))) fresh eq_refl)).
  exists (lit "not hexadecimal"), (lit "19"), (lit "0x1"), (lit "N"),
    (lit "V"), (lit "L"), (lit "0x1 N - D"), (lit "not hexadecimal").
  repeat split.
Defined.

(** X3. In raw mode, once the file has been opened, a payload that does
    not normalize to an even number of hexadecimal digits raises in
    [unhexlify], after the record was counted as a dataset and as
    extracted, after its file was announced and opened: an empty file is
    left under its path. *)
Theorem raw_decode_failure (fmt : option pystr) (el : node) (l : locals)
  (w : world) (p fn da : pystr) :
  is_raw fmt = true -> payload_of el = Some p ->
  filename l = Some fn -> diagnostic_address l = Some da ->
  open_error (os w) (raw_path da fn) = None ->
  valid_payload p = false ->
  exists e,
    unhexlify (normalize p) = inl e
    /\ convert_record fmt el l w =
       (Raise e,
        mkWorld (dataset_counter w + 1) (extracted_dataset_counter w + 1)
                (files w ++ [(raw_path da fn, BinaryFile [])])
                (log w ++ [InfoExtractingRaw (raw_path da fn)])
                (os w)).
Proof.
  intros Hraw Hp Hfn Hda Hopen Hv.
  rewrite (convert_record_raw_run fmt el l w p fn da Hraw Hp Hfn Hda).
  rewrite extract_to_raw_spec. cbn [os]. rewrite Hopen.
  destruct (unhexlify (normalize p)) as [e|bs] eqn:Hu.
  - exists e. split; reflexivity.
  - apply unhexlify_inv in Hu as [Hd He].
    unfold valid_payload in Hv. rewrite Hd, He in Hv. discriminate.
Qed.

Lemma raw_decode_failure_witness :
  exists e,
    unhexlify (normalize (lit "0x0A,0xF")) = inl e
    /\ convert_record raw (parameter_data [] [Text (lit "0x0A,0xF")])
         (mkLocals (Some (lit "19")) None None None None
                   (Some (lit "0x1 N - D"))) fresh =
       (Raise e,
        mkWorld (dataset_counter fresh + 1)
                (extracted_dataset_counter fresh + 1)
                (files fresh
                   ++ [(raw_path (lit "19") (lit "0x1 N - D"), BinaryFile [])])
                (log fresh
                   ++ [InfoExtractingRaw
                         (raw_path (lit "19") (lit "0x1 N - D"))])
                (os fresh)).
Proof.
  exact (raw_decode_failure raw (parameter_data [] [Text (lit "0x0A,0xF")])
           (mkLocals (Some (lit "19")) None None None None
                     (Some (lit "0x1 N - D"))) fresh
           (lit "0x0A,0xF") (lit "0x1 N - D") (lit "19")
           eq_refl eq_refl eq_refl eq_refl eq_refl eq_refl).
Defined.

(** X4. A payload in the form of the export, ["0xHH,0xHH,..."] with
    digits of either case, is written in raw mode as the bytes the digit
    pairs stand for, each below 256, and its normalized form is the digits
    alone; the file holds these bytes where the operating system lets
    them be written. *)
Theorem odis_payload_decodes (fmt : option pystr) (el : node) (l : locals)
  (w : world) (items : list (char * char)) (fn da : pystr) :
  is_raw fmt = true -> payload_of el = Some (odis_payload items) ->
  filename l = Some fn -> diagnostic_address l = Some da ->
  forallb digit_pair items = true ->
  accepts w (raw_path da fn) (BinaryFile (map byte_of items)) ->
  normalize (odis_payload items) = flat_map (fun it => [fst it; snd it]) items
  /\ Forall (fun b => (b < 256)%N) (map byte_of items)
  /\ convert_record fmt el l w =
     (Return tt,
      mkWorld (dataset_counter w + 1) (extracted_dataset_counter w + 1)
              (files w ++ [(raw_path da fn, BinaryFile (map byte_of items))])
              (log w ++ [InfoExtractingRaw (raw_path da fn)])
              (os w)).
Proof.
  intros Hraw Hp Hfn Hda Hitems [Hopen Hwrite].
  pose proof (normalize_odis_payload items Hitems) as Hn.
  split; [exact Hn|]. split.
  - apply Forall_forall. intros b Hb. apply in_map_iff in Hb as (it & <- & _).
    apply byte_of_bound.
  - rewrite (convert_record_raw_run fmt el l w _ fn da Hraw Hp Hfn Hda).
    rewrite extract_to_raw_spec, Hn. cbn [os]. rewrite Hopen.
    destruct (items_digits items Hitems) as [Hd He].
    unfold unhexlify.
    assert (Ha : forallb (fun c => (c <? 128)%N)
                   (flat_map (fun it => [fst it; snd it]) items) = true).
    { apply forallb_forall. intros c Hc. apply (hex_val_ascii c).
      rewrite forallb_forall in Hd. now apply Hd. }
    rewrite Ha, <- Nat.negb_even, He, (unhex_pairs_items items Hitems).
    cbn [negb]. rewrite Hwrite. reflexivity.
Qed.

Lemma odis_payload_decodes_witness :
  normalize (odis_payload [(48%N, 65%N); (102%N, 70%N)])
  = flat_map (fun it => [fst it; snd it]) [(48%N, 65%N); (102%N, 70%N)]
  /\ Forall (fun b => (b < 256)%N)
            (map byte_of [(48%N, 65%N); (102%N, 70%N)])
  /\ convert_record raw (parameter_data [] [Text (lit "0x0A,0xfF")])
       (mkLocals (Some (lit "19")) None None None None
                 (Some (lit "0x1 N - D"))) fresh =
     (Return tt,
      mkWorld (dataset_counter fresh + 1)
              (extracted_dataset_counter fresh + 1)
              (files fresh
                 ++ [(raw_path (lit "19") (lit "0x1 N - D"),
                      BinaryFile (map byte_of [(48%N, 65%N); (102%N, 70%N)]))])
              (log fresh
                 ++ [InfoExtractingRaw
                       (raw_path (lit "19") (lit "0x1 N - D"))])
              (os fresh)).
Proof.
  exact (odis_payload_decodes raw (parameter_data [] [Text (lit "0x0A,0xfF")])
           (mkLocals (Some (lit "19")) None None None None
                     (Some (lit "0x1 N - D"))) fresh
           [(48%N, 65%N); (102%N, 70%N)] (lit "0x1 N - D") (lit "19")
           eq_refl eq_refl eq_refl eq_refl eq_refl (conj eq_refl eq_refl)).
Defined.



(** X5. Normalization leaves a payload as it is exactly when the payload
    holds neither ["0x"] nor a comma. *)
Theorem normalize_fixed_iff (p : pystr) :
  normalize p = p
  <-> occurs (lit "0x") p = false /\ forallb not_comma p = true.
Proof.
  rewrite normalize_filter. split.
  - intros E.
    assert (Ho : occurs (lit "0x") p = false).
    { destruct (occurs (lit "0x") p) eqn:Ho; [|reflexivity]. exfalso.
      destruct (removal_length (lit "0x") lit_0x_nonempty _ p (le_n _))
        as [_ Hlt].
      specialize (Hlt Ho).
      pose proof (filter_length_le not_comma
                    (replace_from (lit "0x") [] 0 p)) as Hle.
      rewrite E in Hle. lia. }
    split; [exact Ho|].
    rewrite replace_from_unchanged in E by exact Ho.
    rewrite <- E. apply forallb_forall. intros c Hc.
    now apply filter_In in Hc.
  - intros [Ho Hc]. rewrite replace_from_unchanged by exact Ho.
    now apply filter_all.
Qed.

Lemma normalize_fixed_iff_witness : normalize (lit "0AFF") = lit "0AFF".
Proof.
  exact (proj2 (normalize_fixed_iff (lit "0AFF")) (conj eq_refl eq_refl)).
Defined.

(* ================================================================= *)
(** ** Further properties of the loop body *)

Lemma loop_body_raised (fmt : option pystr) (desc : pystr) (el : node)
  (l : locals) (w : world) (e : exn) (w1 : world) :
  read_attributes desc el l w = (Raise e, w1) ->
  loop_body fmt desc el l w = (Raise e, w1).
Proof. intros H. unfold loop_body, bind. now rewrite H. Qed.

Lemma read_attributes_login_raises (desc : pystr) (el : node) (l : locals)
  (w : world) :
  declares LOGIN el = true ->
  (declares START_ADDRESS el = false -> start_address l = None ->
   exists w1, read_attributes desc el l w
              = (Raise (UnboundLocalError "start_address"), w1))
  /\ (declares START_ADDRESS el = true \/ start_address l <> None ->
      declares ZDC_NAME el = false -> zdc_name l = None ->
      exists w1, read_attributes desc el l w
                 = (Raise (UnboundLocalError "zdc_name"), w1)).
Proof.
  unfold declares, attribute, read_attributes, bind. intros ->. split.
  - intros -> Hsa.
    destruct (hasAttribute el (lit "DIAGNOSTIC_ADDRESS"));
    destruct (hasAttribute el (lit "ZDC_NAME"));
    destruct (hasAttribute el (lit "ZDC_VERSION"));
    cbn -[app]; rewrite Hsa; cbn -[app]; eexists; reflexivity.
  - intros Hsa -> Hzn.
    destruct (hasAttribute el (lit "DIAGNOSTIC_ADDRESS"));
    destruct (hasAttribute el (lit "START_ADDRESS"));
    destruct (hasAttribute el (lit "ZDC_VERSION"));
    cbn -[app]; rewrite ?Hzn; cbn -[app];
    try (eexists; reflexivity);
    (destruct (start_address l) eqn:Es;
     [cbn -[app]; rewrite ?Hzn; cbn -[app]; eexists; reflexivity
     | destruct Hsa as [Hsa|Hsa]; [discriminate | congruence]]).
Qed.

(** X6. An element that carries [LOGIN] before any start address has been
    declared raises [UnboundLocalError] for [start_address] while the file
    name is composed, and likewise for [zdc_name] when only the name is
    missing; this happens before the record is counted: both counters and
    the files are unchanged. *)
Theorem login_before_start_address (fmt : option pystr) (desc : pystr)
  (el : node) (l : locals) (w : world) :
  declares LOGIN el = true ->
  (declares START_ADDRESS el = false -> start_address l = None ->
   exists w',
     loop_body fmt desc el l w
     = (Raise (UnboundLocalError "start_address"), w')
     /\ dataset_counter w' = dataset_counter w
     /\ extracted_dataset_counter w' = extracted_dataset_counter w
     /\ files w' = files w)
  /\ (declares START_ADDRESS el = true \/ start_address l <> None ->
      declares ZDC_NAME el = false -> zdc_name l = None ->
      exists w',
        loop_body fmt desc el l w
        = (Raise (UnboundLocalError "zdc_name"), w')
        /\ dataset_counter w' = dataset_counter w
        /\ extracted_dataset_counter w' = extracted_dataset_counter w
        /\ files w' = files w).
Proof.
  intros Hlogin.
  destruct (read_attributes_login_raises desc el l w Hlogin) as [H1 H2].
  split.
  - intros Hd Hs. destruct (H1 Hd Hs) as [w1 Hr]. exists w1.
    split; [now apply loop_body_raised|].
    now apply read_attributes_spec in Hr as (? & ? & ? & _).
  - intros Hs Hd Hz. destruct (H2 Hs Hd Hz) as [w1 Hr]. exists w1.
    split; [now apply loop_body_raised|].
    now apply read_attributes_spec in Hr as (? & ? & ? & _).
Qed.

Lemma login_before_start_address_witness :
  exists w',
    loop_body raw description
      (parameter_data [(lit "LOGIN", lit "L")] [Text (lit "0A")])
      unassigned fresh
    = (Raise (UnboundLocalError "start_address"), w')
    /\ dataset_counter w' = dataset_counter fresh
    /\ extracted_dataset_counter w' = extracted_dataset_counter fresh
    /\ files w' = files fresh.
Proof.
  exact (proj1 (login_before_start_address raw description
                  (parameter_data [(lit "LOGIN", lit "L")] [Text (lit "0A")])
                  unassigned fresh eq_refl) eq_refl eq_refl).
Defined.

Lemma convert_record_no_filename (fmt : option pystr) (el : node)
  (l : locals) (w : world) (p : pystr) :
  filename l = None -> payload_of el = Some p ->
  exists name,
    convert_record fmt el l w =
    (Raise (UnboundLocalError name),
     mkWorld (dataset_counter w + 1) (extracted_dataset_counter w)
             (files w) (log w) (os w))
    /\ (is_raw fmt = true -> name = "filename"%string).
Proof.
  intros Hfn Hp.
  unfold convert_record, first_child_data, payload_of, bind, local in *.
  cbn -[app _extract_to_raw _convert_to_vcp str_replace].
  destruct (childNodes el) as [|c cs]; [discriminate|].
  rewrite Hp, Hfn.
  destruct (is_raw fmt).
  - eexists. split; reflexivity.
  - destruct (diagnostic_address l); [|eexists; split; [reflexivity|discriminate]].
    destruct (start_address l); [|eexists; split; [reflexivity|discriminate]].
    destruct (zdc_name l); [|eexists; split; [reflexivity|discriminate]].
    destruct (zdc_version l); [|eexists; split; [reflexivity|discriminate]].
    destruct (login l); eexists; (split; [reflexivity|discriminate]).
Qed.

(** X7. While no element has carried [LOGIN] there is no file name: an
    element without [LOGIN] whose payload can be read is counted as a
    dataset and then raises [UnboundLocalError] (for [filename] in raw
    mode) when the converter's arguments are read; nothing is extracted or
    written. *)
Theorem conversion_before_login (fmt : option pystr) (desc : pystr)
  (el : node) (l : locals) (w : world) (p : pystr) :
  declares LOGIN el = false -> filename l = None ->
  payload_of el = Some p ->
  exists name w',
    loop_body fmt desc el l w = (Raise (UnboundLocalError name), w')
    /\ dataset_counter w' = dataset_counter w + 1
    /\ extracted_dataset_counter w' = extracted_dataset_counter w
    /\ files w' = files w
    /\ (is_raw fmt = true -> name = "filename"%string).
Proof.
  intros Hlogin Hfn Hp.
  destruct (read_attributes_returns desc el l w Hlogin) as (l1 & w1 & Hr).
  pose proof (read_attributes_spec _ _ _ _ _ _ Hr) as (Hd & He & Hf & Hl).
  destruct (Hl l1 eq_refl) as [_ Hfn1]. rewrite Hlogin, Hfn in Hfn1.
  destruct (convert_record_no_filename fmt el l1 w1 p Hfn1 Hp)
    as (name & Hc & Hname).
  exists name. eexists. split.
  - unfold loop_body, bind. rewrite Hr, Hc. reflexivity.
  - cbn. repeat split; try congruence; assumption.
Qed.

Lemma conversion_before_login_witness :
  exists name w',
    loop_body raw description bare_record unassigned fresh
    = (Raise (UnboundLocalError name), w')
    /\ dataset_counter w' = dataset_counter fresh + 1
    /\ extracted_dataset_counter w'
       = extracted_dataset_counter fresh
    /\ files w' = files fresh
    /\ (is_raw raw = true -> name = "filename"%string).
Proof.
  exact (conversion_before_login raw description bare_record unassigned
           fresh (lit "0xBE,0xEF") eq_refl eq_refl eq_refl).
Defined.

(* ================================================================= *)
(** ** Further properties of a run *)

Lemma summary_terminal (fmt : option pystr) (e t : nat) :
  is_terminal (summary fmt e t) = true /\ announced (summary fmt e t) = []
  /\ is_fatal (summary fmt e t) = false.
Proof.
  unfold summary. destruct fmt as [f|]; [destruct (str_eqb f (lit "raw"))|];
    repeat split.
Qed.

(** What [_run] adds to the state it starts in. *)
Lemma run_effect (fmt : option pystr) (desc : pystr) (input : parsed)
  (w : world) :
  let r := _parse_small_oe_file fmt desc input w in
  exists dl df refused,
    log (_run fmt desc input w) = log w ++ dl ++ [terminal_record fmt r]
    /\ files (_run fmt desc input w) = files w ++ df
    /\ dataset_counter (_run fmt desc input w) = dataset_counter (snd r)
    /\ extracted_dataset_counter (_run fmt desc input w)
       = extracted_dataset_counter (snd r)
    /\ os (_run fmt desc input w) = os w
    /\ announced_paths dl = map fst df ++ refused /\ progress dl = true
    /\ length df + length refused
       <= extracted_dataset_counter (snd r) - extracted_dataset_counter w
    /\ (is_raw fmt = true \/ fst r = Return tt ->
        length df + length refused
        = extracted_dataset_counter (snd r) - extracted_dataset_counter w)
    /\ refusal w (fst r) refused.
Proof.
  intros r. subst r.
  destruct (_parse_small_oe_file fmt desc input w) as [o w'] eqn:H.
  pose proof (parse_effect _ _ _ _ _ _ H)
    as (dl & df & refused & Hl & Hf & Ha & Hp & Hle & Hraw & Href).
  pose proof (parse_os _ _ _ _ _ _ H) as Hos.
  exists dl, df, refused. cbn [fst snd terminal_record].
  destruct o as [[]|e].
  - rewrite (run_returned _ _ _ _ _ _ H). cbn -[app].
    rewrite Hl, Hf, <- app_assoc. repeat split; assumption.
  - rewrite (run_raised _ _ _ _ _ _ H). cbn -[app].
    rewrite Hl, Hf, <- app_assoc. repeat split; assumption.
Qed.

Lemma terminal_record_facts (fmt : option pystr) (r : outcome unit * world) :
  is_terminal (terminal_record fmt r) = true
  /\ announced (terminal_record fmt r) = [].
Proof.
  destruct r as [[u|e] w']; cbn [terminal_record].
  - destruct (summary_terminal fmt (extracted_dataset_counter w')
                (dataset_counter w')) as (? & ? & _). now split.
  - now split.
Qed.

Lemma announced_paths_app (a b : list log_record) :
  announced_paths (a ++ b) = announced_paths a ++ announced_paths b.
Proof. apply flat_map_app. Qed.

(** X8. Every file a run opens for writing was announced in the log
    under the path it is opened with, and the announcements and the files
    come in the same order. A path is announced without a file only when
    [open] raised for it: that is then the last announcement of the run,
    and the exception is the fatal error the run ends with. In terms of
    the whole log: the paths announced are the paths announced before,
    then the paths of the files of this run, then the refused path if
    there is one. *)
Theorem files_are_announced (fmt : option pystr) (desc : pystr)
  (input : parsed) (w : world) :
  let r := _parse_small_oe_file fmt desc input w in
  let w' := _run fmt desc input w in
  exists df refused,
    files w' = files w ++ df
    /\ announced_paths (log w')
       = announced_paths (log w) ++ map fst df ++ refused
    /\ (refused = []
        \/ exists p e,
             refused = [p] /\ open_error (os w) p = Some e
             /\ fst r = Raise e
             /\ last (log w') (InfoSummaryVcp 0 0) = ExceptionFatalError e)
    /\ (announced_paths (log w) = map fst (files w) ->
        announced_paths (log w') = map fst (files w') ++ refused).
Proof.
  intros r w'. subst r w'.
  destruct (run_effect fmt desc input w)
    as (dl & df & refused & Hl & Hf & _ & _ & _ & Ha & _ & _ & _ & Href).
  destruct (terminal_record_facts fmt (_parse_small_oe_file fmt desc input w))
    as [_ Ht].
  assert (Hall : announced_paths (log (_run fmt desc input w))
                 = announced_paths (log w) ++ map fst df ++ refused).
  { rewrite Hl, !announced_paths_app, Ha.
    assert (Hlast : announced_paths
                      [terminal_record fmt
                         (_parse_small_oe_file fmt desc input w)] = []).
    { unfold announced_paths. cbn [flat_map]. now rewrite Ht. }
    now rewrite Hlast, app_nil_r. }
  exists df, refused.
  split; [exact Hf|]. split; [exact Hall|]. split.
  - destruct Href as [-> | (q & e & -> & Hq & Hr)]; [now left|].
    right. exists q, e. repeat split; try assumption.
    rewrite Hl, app_assoc, last_last.
    destruct (_parse_small_oe_file fmt desc input w) as [o w1].
    cbn [fst] in Hr. subst o. reflexivity.
  - intros Hw. rewrite Hall, Hf, Hw, map_app. now rewrite app_assoc.
Qed.

(** A run whose description names a directory that does not exist. *)
Lemma files_are_announced_witness :
  exists refused,
    announced_paths
      (log (_run raw (lit "a/b") (inr (document [first_record]))
                 (module_loaded no_directories)))
    = map fst
        (files (_run raw (lit "a/b") (inr (document [first_record]))
                     (module_loaded no_directories)))
      ++ refused.
Proof.
  destruct (files_are_announced raw (lit "a/b")
              (inr (document [first_record])) (module_loaded no_directories))
    as (df & refused & _ & _ & _ & Hinv).
  exists refused. exact (Hinv eq_refl).
Defined.



(** X10. A run logs exactly one terminal record, and logs it last: the
    summary with the counters the pipeline left when the pipeline
    returned, the fatal error with the exception when it raised (the
    exception of the parser included); everything logged before is a
    progress message. *)
Theorem one_terminal_record (fmt : option pystr) (desc : pystr)
  (input : parsed) (w : world) :
  exists dl,
    log (_run fmt desc input w)
    = log w ++ dl
      ++ [terminal_record fmt (_parse_small_oe_file fmt desc input w)]
    /\ progress dl = true
    /\ (forall e, input = inl e ->
        dl = [] /\ _run fmt desc input w
                   = mkWorld (dataset_counter w) (extracted_dataset_counter w)
                             (files w) (log w ++ [ExceptionFatalError e])
                             (os w)).
Proof.
  destruct (run_effect fmt desc input w)
    as (dl & df & refused & Hl & _ & _ & _ & _ & _ & Hp & _).
  destruct input as [e0|root].
  - exists []. split; [reflexivity|]. split; [reflexivity|].
    intros e [= <-]. split; reflexivity.
  - exists dl. split; [exact Hl|]. split; [exact Hp|]. discriminate.
Qed.

(** X11. The document element itself is never a record: for a document
    whose root has only text, comment or processing-instruction children,
    whatever the root's own tag, attributes and text, nothing is counted or
    written, and the run ends with the summary of unchanged counters. *)
Theorem root_is_no_record (fmt : option pystr) (desc : pystr)
  (tag : pystr) (attrs : list (pystr * pystr)) (children : list node)
  (w : world) :
  forallb is_leaf children = true ->
  _run fmt desc (inr (Element tag attrs children)) w
  = mkWorld (dataset_counter w) (extracted_dataset_counter w) (files w)
            (log w ++ [summary fmt (extracted_dataset_counter w)
                               (dataset_counter w)])
            (os w).
Proof.
  intros H.
  assert (Hnone : getElementsByTagName (Element tag attrs children)
                    (lit "PARAMETER_DATA") = []).
  { unfold getElementsByTagName. cbn [elements_below].
    induction children as [|c cs IH]; [reflexivity|].
    cbn [forallb] in H. apply andb_prop in H as [Hc Hcs].
    cbn [flat_map]. rewrite (IH Hcs).
    destruct c; [discriminate Hc | reflexivity ..]. }
  assert (Hparse : _parse_small_oe_file fmt desc
                     (inr (Element tag attrs children)) w = (Return tt, w)).
  { rewrite parse_unfold, Hnone. reflexivity. }
  now rewrite (run_returned _ _ _ _ _ _ Hparse).
Qed.

Lemma root_is_no_record_witness :
  _run raw description
    (inr (Element (lit "PARAMETER_DATA") all_five [Text (lit "0x0A,0xFF")]))
    fresh
  = mkWorld (dataset_counter fresh)
            (extracted_dataset_counter fresh) (files fresh)
            (log fresh
               ++ [summary raw (extracted_dataset_counter fresh)
                           (dataset_counter fresh)])
            (os fresh).
Proof.
  exact (root_is_no_record raw description (lit "PARAMETER_DATA") all_five
           [Text (lit "0x0A,0xFF")] fresh eq_refl).
Defined.

Lemma parse_counters (fmt : option pystr) (desc : pystr) (input : parsed)
  (w : world) (o : outcome unit) (w' : world) :
  _parse_small_oe_file fmt desc input w = (o, w') ->
  dataset_counter w <= dataset_counter w'
  /\ extracted_dataset_counter w <= extracted_dataset_counter w'
  /\ extracted_dataset_counter w' - extracted_dataset_counter w
     <= dataset_counter w' - dataset_counter w.
Proof.
  destruct input as [e|root].
  - cbn. intros [= <- <-]. lia.
  - rewrite parse_unfold.
    destruct (for_each _ _ _ _) as [o1 w1] eqn:Hloop.
    apply for_each_counters in Hloop as (Hd & He & Hm & _).
    intros H. assert (w1 = w') as -> by (destruct o1; now injection H).
    lia.
Qed.

(** X12. Over a run neither counter decreases and the extracted counter
    grows by no more than the dataset counter; so [extracted <= total],
    true in the loaded module, is kept by every run, failed or not. *)
Theorem counters_invariant (fmt : option pystr) (desc : pystr)
  (input : parsed) (w : world) :
  let w' := _run fmt desc input w in
  dataset_counter w <= dataset_counter w'
  /\ extracted_dataset_counter w <= extracted_dataset_counter w'
  /\ extracted_dataset_counter w' - extracted_dataset_counter w
     <= dataset_counter w' - dataset_counter w
  /\ (extracted_dataset_counter w <= dataset_counter w ->
      extracted_dataset_counter w' <= dataset_counter w').
Proof.
  intros w'. subst w'.
  destruct (run_effect fmt desc input w)
    as (_ & _ & _ & _ & _ & Hd & He & _).
  rewrite Hd, He.
  destruct (_parse_small_oe_file fmt desc input w) as [o w1] eqn:H.
  apply parse_counters in H. cbn [snd]. lia.
Qed.

Lemma counters_invariant_witness :
  extracted_dataset_counter
    (_run raw description (inr (document [first_record; empty_record]))
          fresh)
  <= dataset_counter
       (_run raw description (inr (document [first_record; empty_record]))
             fresh).
Proof.
  exact (proj2 (proj2 (proj2
           (counters_invariant raw description
              (inr (document [first_record; empty_record])) fresh)))
           (le_n 0)).
Defined.

Lemma one_terminal_record_witness :
  _run raw description (inl ExpatError) fresh
  = mkWorld (dataset_counter fresh)
            (extracted_dataset_counter fresh) (files fresh)
            (log fresh ++ [ExceptionFatalError ExpatError]) (os fresh).
Proof.
  destruct (one_terminal_record raw description (inl ExpatError)
              fresh) as (dl & _ & _ & H).
  exact (proj2 (H ExpatError eq_refl)).
Defined.

(* ================================================================= *)
(** ** Further properties: the command line and the slot of the window *)

Lemma filter_progress (level : Z) (dl : list log_record) :
  progress dl = true ->
  filter (Cli.isEnabledFor level) dl
  = if (level <=? Cli.INFO)%Z then dl else [].
Proof.
  induction dl as [|r dl IH]; intros H.
  - now destruct (level <=? Cli.INFO)%Z.
  - unfold progress in H. cbn [forallb] in H.
    apply andb_prop in H as [Hr Hdl]. cbn [filter].
    rewrite (IH Hdl).
    assert (Hlv : Cli.isEnabledFor level r = (level <=? Cli.INFO)%Z)
      by (destruct r; try reflexivity; discriminate Hr).
    rewrite Hlv. now destruct (level <=? Cli.INFO)%Z.
Qed.

Lemma terminal_record_level (fmt : option pystr) (r : outcome unit * world) :
  Cli.levelno (terminal_record fmt r)
  = match fst r with
    | Return _ => Cli.INFO
    | Raise _ => Cli.ERROR
    end.
Proof.
  destruct r as [[u|e] w']; cbn [terminal_record fst]; [|reflexivity].
  unfold summary. destruct fmt as [f|]; [destruct (str_eqb f (lit "raw"))|];
    reflexivity.
Qed.

(** X13. On the command line what is shown depends only on the difference
    of the two flags. With more [-v] than [-q] every logging call is shown.
    With as many, or with one [-q] more, which includes the default, no
    progress message and no summary is shown: a run that returns shows
    nothing, a run that fails shows the fatal error. With two or more [-q]
    in excess nothing is shown, the fatal error included. *)
Theorem main_shows (o : filesystem) (args : Cli.arguments) :
  let r := _parse_small_oe_file (Cli.fmt args) (Cli.desc args)
                                (Cli.input args) (module_loaded o) in
  let shown := snd (Cli.main o args) in
  fst (Cli.main o args)
  = _run (Cli.fmt args) (Cli.desc args) (Cli.input args) (module_loaded o)
  /\ (Cli.quiet args < Cli.verbose args ->
      shown = log (fst (Cli.main o args)))
  /\ (Cli.verbose args <= Cli.quiet args <= Cli.verbose args + 1 ->
      shown = match fst r with
              | Return _ => []
              | Raise e => [ExceptionFatalError e]
              end)
  /\ (Cli.verbose args + 2 <= Cli.quiet args -> shown = []).
Proof.
  intros r shown. subst shown. unfold Cli.main. cbn [fst snd].
  split; [reflexivity|].
  destruct (run_effect (Cli.fmt args) (Cli.desc args) (Cli.input args)
              (module_loaded o))
    as (dl & _ & _ & Hl & _ & _ & _ & _ & _ & Hp & _).
  fold r in Hl. cbn [log module_loaded app] in Hl. rewrite Hl.
  set (level := (Cli.WARN
                 + (Z.of_nat (Cli.quiet args) - Z.of_nat (Cli.verbose args))
                   * 10)%Z).
  rewrite filter_app, (filter_progress level dl Hp). cbn [filter].
  unfold Cli.isEnabledFor. rewrite terminal_record_level.
  unfold Cli.WARN, Cli.INFO, Cli.ERROR in *.
  clearbody r. destruct r as [[u|e] w']; cbn [fst terminal_record];
    (split; [|split]); intros Hflags.
  - assert (Hb : (level <=? 20)%Z = true) by (apply Z.leb_le; unfold level; lia).
    now rewrite Hb.
  - assert (Hb : (level <=? 20)%Z = false) by (apply Z.leb_gt; unfold level; lia).
    now rewrite Hb.
  - assert (Hb : (level <=? 20)%Z = false) by (apply Z.leb_gt; unfold level; lia).
    now rewrite Hb.
  - assert (Hb : (level <=? 20)%Z = true) by (apply Z.leb_le; unfold level; lia).
    assert (Hb' : (level <=? 40)%Z = true) by (apply Z.leb_le; unfold level; lia).
    now rewrite Hb, Hb'.
  - assert (Hb : (level <=? 20)%Z = false) by (apply Z.leb_gt; unfold level; lia).
    assert (Hb' : (level <=? 40)%Z = true) by (apply Z.leb_le; unfold level; lia).
    now rewrite Hb, Hb'.
  - assert (Hb : (level <=? 20)%Z = false) by (apply Z.leb_gt; unfold level; lia).
    assert (Hb' : (level <=? 40)%Z = false) by (apply Z.leb_gt; unfold level; lia).
    now rewrite Hb, Hb'.
Qed.

Lemma main_shows_witness :
  snd (Cli.main permissive
         (Cli.mkArguments (inr (document [first_record])) None
                          description 0 0)) = [].
Proof.
  exact (proj1 (proj2 (proj2
           (main_shows permissive
              (Cli.mkArguments (inr (document [first_record])) None
                               description 0 0))))
           (conj (le_n 0) (le_S 0 0 (le_n 0)))).
Defined.

(** X14. The slot [run] of the window does nothing while the path or the
    description is empty. Otherwise it is a run with the format ["raw"] or
    ["vcp"], never without one: its log ends with the fatal error, or with
    the summary of the chosen mode. *)
Theorem gui_run (parse : pystr -> parsed) (self : Gui._Model) (w : world) :
  (Gui.__path self = [] \/ Gui.__description self = [] ->
   Gui.run parse self w = w)
  /\ (Gui.__path self <> [] -> Gui.__description self <> [] ->
      let fmt := Some (if Gui.__is_raw self then lit "raw" else lit "vcp") in
      let r := _parse_small_oe_file fmt (Gui.__description self)
                                    (parse (Gui.__path self)) w in
      Gui.run parse self w
      = _run fmt (Gui.__description self) (parse (Gui.__path self)) w
      /\ exists dl,
           progress dl = true
           /\ log (Gui.run parse self w)
              = log w ++ dl
                ++ [match r with
                    | (Return _, w') =>
                        if Gui.__is_raw self
                        then InfoSummaryRaw (extracted_dataset_counter w')
                                            (dataset_counter w') (lit "raw")
                        else InfoSummaryVcp (extracted_dataset_counter w')
                                            (dataset_counter w')
                    | (Raise e, _) => ExceptionFatalError e
                    end]).
Proof.
  split.
  - unfold Gui.run, Gui.isValid, Gui.truthy.
    intros [-> | ->]; [reflexivity|].
    now destruct (Gui.__path self).
  - intros Hp Hd. cbv zeta. unfold Gui.run, Gui.isValid, Gui.truthy.
    destruct (Gui.__path self) as [|c p] eqn:Ep; [congruence|].
    destruct (Gui.__description self) as [|d ds] eqn:Ed; [congruence|].
    cbn [andb negb]. split; [reflexivity|].
    set (fmt := Some (if Gui.__is_raw self then lit "raw" else lit "vcp")).
    destruct (run_effect fmt (d :: ds) (parse (c :: p)) w)
      as (dl & _ & _ & Hl & _ & _ & _ & _ & _ & Hprog & _).
    exists dl. split; [exact Hprog|]. rewrite Hl. do 2 f_equal.
    destruct (_parse_small_oe_file fmt (d :: ds) (parse (c :: p)) w)
      as [[u|e] w']; cbn [terminal_record]; [|reflexivity].
    unfold fmt, summary. now destruct (Gui.__is_raw self).
Qed.

Lemma gui_run_witness :
  Gui.run (fun _ => inr (document [first_record]))
          (Gui.mk_Model (lit "/tmp/export.xml") [] true) fresh
  = fresh.
Proof.
  exact (proj1 (gui_run (fun _ => inr (document [first_record]))
                  (Gui.mk_Model (lit "/tmp/export.xml") [] true)
                  fresh) (or_intror eq_refl)).
Defined.

Lemma read_attributes_declared (desc : pystr) (el : node) (l : locals)
  (w : world) :
  declares START_ADDRESS el = true -> declares ZDC_NAME el = true ->
  exists l1 w1, read_attributes desc el l w = (Return l1, w1).
Proof.
  unfold declares, attribute, read_attributes, bind. intros -> ->.
  destruct (hasAttribute el (lit "DIAGNOSTIC_ADDRESS"));
  destruct (hasAttribute el (lit "ZDC_VERSION"));
  destruct (hasAttribute el (lit "LOGIN"));
  cbn -[app]; do 2 eexists; reflexivity.
Qed.

(** X15. What the first record element of a document must carry. From the
    unassigned locals every run starts with, the iteration for an element
    returns exactly when the element declares [DIAGNOSTIC_ADDRESS],
    [START_ADDRESS], [ZDC_NAME] and [LOGIN] (and [ZDC_VERSION] in
    structured mode), its payload can be read and converted (an even
    number of hexadecimal digits after normalization in raw mode, any text
    that can be encoded in structured mode), and the operating system
    lets the file named from these attributes be opened and written. *)
Theorem first_record_converted_iff (fmt : option pystr) (desc : pystr)
  (el : node) (w : world) :
  let da := stored DIAGNOSTIC_ADDRESS
                   (getAttribute el (attribute DIAGNOSTIC_ADDRESS)) in
  let sa := getAttribute el (attribute START_ADDRESS) in
  let zn := getAttribute el (attribute ZDC_NAME) in
  let zv := getAttribute el (attribute ZDC_VERSION) in
  let lg := getAttribute el (attribute LOGIN) in
  let fn := sa ++ lit " " ++ zn ++ lit " - " ++ desc in
  (exists l', fst (loop_body fmt desc el unassigned w) = Return l')
  <-> declares DIAGNOSTIC_ADDRESS el = true
      /\ declares START_ADDRESS el = true
      /\ declares ZDC_NAME el = true
      /\ declares LOGIN el = true
      /\ (is_raw fmt = false -> declares ZDC_VERSION el = true)
      /\ exists p,
           payload_of el = Some p
           /\ if is_raw fmt then
                exists bs,
                  unhexlify (normalize p) = inr bs
                  /\ accepts w (raw_path da fn) (BinaryFile bs)
              else
                exists enc,
                  encode_utf8 (normalize p) = inr enc
                  /\ accepts w (vcp_path da fn)
                       (vcp_file lg zn zv sa
                                 (hex (N.of_nat (length enc) / 2)) p).
Proof.
  intros da sa zn zv lg fn.
  assert (Hacc : forall w1 path a,
            os w1 = os w -> (accepts w1 path a <-> accepts w path a)).
  { intros w1 path a Hos. unfold accepts. now rewrite Hos. }
  split.
  - intros [l' H].
    destruct (loop_body fmt desc el unassigned w) as [o w'] eqn:Hb.
    cbn [fst] in H. subst o.
    apply loop_body_inv in Hb
      as [(l1 & w1 & o1 & Hr & Hc & Ho)|(e & _ & Ho)]; [|discriminate].
    destruct o1 as [[]|]; [|discriminate].
    pose proof (read_attributes_os _ _ _ _ _ _ Hr) as Hos.
    apply read_attributes_spec in Hr as (_ & _ & _ & Hr).
    destruct (Hr l1 eq_refl) as [Hl Hf].
    assert (Hret : fst (convert_record fmt el l1 w1) = Return tt)
      by now rewrite Hc.
    apply convert_record_spec in Hc as (_ & _ & _ & Hok).
    destruct (Hok eq_refl) as (_ & p & da1 & fn1 & Hp & Hda & Hfn & Hmode).
    pose proof (Hl DIAGNOSTIC_ADDRESS) as H1.
    pose proof (Hl START_ADDRESS) as H2.
    pose proof (Hl ZDC_NAME) as H3.
    pose proof (Hl ZDC_VERSION) as H4.
    pose proof (Hl LOGIN) as H5.
    cbn [local_of unassigned diagnostic_address start_address zdc_name
         zdc_version login] in H1, H2, H3, H4, H5.
    pose proof Hfn as Hfn1.
    rewrite Hf in Hfn. cbn [local_of] in Hfn.
    destruct (declares LOGIN el) eqn:D5; [|discriminate].
    rewrite H2, H3 in Hfn.
    destruct (declares START_ADDRESS el) eqn:D2; [|discriminate].
    destruct (declares ZDC_NAME el) eqn:D3; [|discriminate].
    rewrite H1 in Hda.
    destruct (declares DIAGNOSTIC_ADDRESS el) eqn:D1; [|discriminate].
    cbn [stored] in Hfn, H2, H3, H5.
    injection Hfn as <-. injection Hda as <-.
    do 4 (split; [reflexivity|]).
    destruct (is_raw fmt) eqn:Hraw.
    + split; [discriminate|]. exists p. split; [exact Hp|].
      destruct (proj1 (raw_returns_iff fmt el l1 w1 p fn da
                         Hraw Hp Hfn1 H1) Hret) as (bs & Hbs & Ha).
      exists bs. split; [exact Hbs|]. now apply (Hacc w1).
    + destruct Hmode as (sa1 & zn1 & zv1 & lg1 & enc0 & doc & _ & _ & Hzv
                         & _).
      rewrite H4 in Hzv.
      destruct (declares ZDC_VERSION el) eqn:D4; [|discriminate].
      cbn [stored] in H4.
      split; [reflexivity|]. exists p. split; [exact Hp|].
      destruct (proj1 (vcp_returns_iff fmt el l1 w1 p da sa zn zv lg fn
                         Hraw Hp H1 H2 H3 H4 H5 Hfn1) Hret)
        as (enc & Henc & Ha).
      exists enc. split; [exact Henc|]. now apply (Hacc w1).
  - intros (Hd1 & Hd2 & Hd3 & Hd5 & Hd4 & p & Hp & Hpay).
    destruct (read_attributes_declared desc el unassigned w Hd2 Hd3)
      as (l1 & w1 & Hr).
    pose proof (read_attributes_os _ _ _ _ _ _ Hr) as Hos.
    pose proof (read_attributes_spec _ _ _ _ _ _ Hr) as (_ & _ & _ & Hs).
    destruct (Hs l1 eq_refl) as [Hl Hf].
    pose proof (Hl DIAGNOSTIC_ADDRESS) as H1.
    pose proof (Hl START_ADDRESS) as H2.
    pose proof (Hl ZDC_NAME) as H3.
    pose proof (Hl ZDC_VERSION) as H4.
    pose proof (Hl LOGIN) as H5.
    cbn [local_of stored] in H1, H2, H3, H4, H5, Hf.
    rewrite Hd1 in H1. rewrite Hd2 in H2. rewrite Hd3 in H3.
    rewrite Hd5 in H5. rewrite Hd5, H2, H3 in Hf.
    exists l1. unfold loop_body, bind. rewrite Hr.
    assert (Hret : fst (convert_record fmt el l1 w1) = Return tt).
    { destruct (is_raw fmt) eqn:Hraw.
      - destruct Hpay as (bs & Hbs & Ha).
        apply (raw_returns_iff fmt el l1 w1 p fn da Hraw Hp Hf H1).
        exists bs. split; [exact Hbs|]. now apply (Hacc w1).
      - rewrite (Hd4 eq_refl) in H4. destruct Hpay as (enc & Henc & Ha).
        apply (vcp_returns_iff fmt el l1 w1 p da sa zn zv lg fn
                 Hraw Hp H1 H2 H3 H4 H5 Hf).
        exists enc. split; [exact Henc|]. now apply (Hacc w1). }
    destruct (convert_record fmt el l1 w1) as [o w2].
    cbn [fst] in Hret. subst o. reflexivity.
Qed.

Lemma first_record_converted_iff_witness :
  exists l', fst (loop_body raw description first_record unassigned
                            fresh) = Return l'.
Proof.
  apply (proj2 (first_record_converted_iff raw description first_record
                  fresh)).
  do 4 (split; [reflexivity|]).
  split; [intros _; reflexivity|].
  exists (lit "0x0A,0xFF"). split; [reflexivity|].
  exists [10%N; 255%N]. repeat split.
Defined.
